(** * Clock management driver of the AVR32 UC3 (LUFA/Platform/UC3/ClockManagement.h)

    A shallow embedding of the driver's inline functions over an explicit
    model of the register blocks [AVR32_PM] and [AVR32_FLASHC], followed by
    the properties of the driver that the specification states.

    The C statements are written with a small monad: a computation takes the
    register state and either completes with a value, a new state and the
    list of register accesses it made, or runs into behaviour that C leaves
    undefined, or is still busy-waiting on the status register when the
    recorded hardware observations end. *)

From Stdlib Require Import ZArith Lia List Bool.
From stdpp Require Import base list.
Import ListNotations.
Local Open Scope Z_scope.

(** ** Integer types *)

(** [uint8_t] and [uint32_t] values are integers; the range of a
    [uint32_t] is [uint32] and the wrap-around of its arithmetic is
    [to_uint32]. [int] is 32 bits wide on the AVR32. *)
Definition uint32 (z : Z) : Prop := 0 <= z < 2 ^ 32.
Definition to_uint32 (z : Z) : Z := z mod 2 ^ 32.
Definition INT_MAX : Z := 2 ^ 31 - 1.

(** [true] and [false] of <stdbool.h>, as assigned to register fields. *)
Definition C_true : Z := 1.
Definition C_false : Z := 0.

(** ** Enumerations of the public interface *)

Definition EXOSC_MODE_CLOCK : Z := 0.
Definition EXOSC_MODE_900KHZ_MAX : Z := 1.
Definition EXOSC_MODE_3MHZ_MAX : Z := 2.
Definition EXOSC_MODE_8MHZ_MAX : Z := 3.
Definition EXOSC_MODE_8MHZ_OR_MORE : Z := 4.

Definition EXOSC_START_0CLK : Z := 0.
Definition EXOSC_START_64CLK : Z := 1.
Definition EXOSC_START_128CLK : Z := 2.
Definition EXOSC_START_2048CLK : Z := 3.
Definition EXOSC_START_4096CLK : Z := 4.
Definition EXOSC_START_8192CLK : Z := 5.
Definition EXOSC_START_16384CLK : Z := 6.

Definition CLOCK_SRC_SLOW_CLK : Z := 0.
Definition CLOCK_SRC_OSC0 : Z := 1.
Definition CLOCK_SRC_OSC1 : Z := 2.
Definition CLOCK_SRC_PLL0 : Z := 3.
Definition CLOCK_SRC_PLL1 : Z := 4.

(** ** Register blocks

    The members of [AVR32_PM] and [AVR32_FLASHC] that the driver touches,
    under the names the driver uses. The members that the driver reaches
    only through bit-fields ([OSCCTRL0], [OSCCTRL1], [PLL], [GCCTRL], [FCR])
    are records of their fields. The main clock control register is reached
    both as the word [mcctrl] and through the bit-field view [MCCTRL]: it is
    the one word [mcctrl], and [MCCTRL] is defined below as a view of it.
    The arrays [PLL] and [GCCTRL] are lists: the PLL array has two elements,
    the generic clock array as many as the device has generic clocks. *)

Record avr32_pm_mcctrl_t := { mcsel : Z }.
Record avr32_pm_oscctrl_t := { startup : Z; mode : Z }.
Record avr32_pm_pll_t := { pllosc : Z; pllmul : Z; plldiv : Z; pllen : Z }.
Record avr32_pm_gcctrl_t :=
  { pllsel : Z; oscsel : Z; diven : Z; div : Z; cen : Z }.

(** [poscsr] is a status register driven by the hardware: the model holds
    the values its successive reads will observe. *)
Record avr32_pm_t := {
  mcctrl : Z;
  OSCCTRL0 : avr32_pm_oscctrl_t;
  OSCCTRL1 : avr32_pm_oscctrl_t;
  PLL : list avr32_pm_pll_t;
  GCCTRL : list avr32_pm_gcctrl_t;
  poscsr : list Z
}.

Record avr32_flashc_fcr_t := { fws : Z }.
Record avr32_flashc_t := { FCR : avr32_flashc_fcr_t }.

Record hw := { AVR32_PM : avr32_pm_t; AVR32_FLASHC : avr32_flashc_t }.

(** Addresses of the fields, for the access log and for reporting an index
    outside an array. *)
Inductive reg : Type :=
| PM_mcctrl
| PM_MCCTRL_mcsel
| PM_OSCCTRL0_startup
| PM_OSCCTRL0_mode
| PM_OSCCTRL1_startup
| PM_OSCCTRL1_mode
| PM_PLL_pllosc (i : Z)
| PM_PLL_pllmul (i : Z)
| PM_PLL_plldiv (i : Z)
| PM_PLL_pllen (i : Z)
| PM_GCCTRL_pllsel (i : Z)
| PM_GCCTRL_oscsel (i : Z)
| PM_GCCTRL_diven (i : Z)
| PM_GCCTRL_div (i : Z)
| PM_GCCTRL_cen (i : Z)
| FLASHC_FCR_fws.

(** An access: [Write r v] is the assignment of the value [v] to [r];
    [ReadPoscsr v] is a read of the status register that observes [v]. *)
Inductive event : Type :=
| Write (r : reg) (v : Z)
| ReadPoscsr (v : Z).

Definition is_write (e : event) : bool :=
  match e with Write _ _ => true | ReadPoscsr _ => false end.

Definition writes_of (t : list event) : list event := List.filter is_write t.

(** ** Constants of the device header

    <avr32/io.h> is not part of the sources. What the driver takes from it
    is a parameter of the model: the three bit offsets the driver names, the
    offset of the bit-field [MCCTRL.mcsel] in the word [mcctrl], and the
    width in bits of every bit-field the driver assigns (a named bit-field
    has at least one bit). *)
Class avr32_io : Type := {
  AVR32_PM_MCCTRL_OSC0EN_OFFSET : Z;
  AVR32_PM_POSCSR_OSC0RDY_OFFSET : Z;
  AVR32_PM_POSCSR_LOCK0_OFFSET : Z;
  AVR32_PM_MCCTRL_MCSEL_OFFSET : Z;
  bitfield_size : reg -> positive
}.

(** A pair of adjacent per-channel bits starting at [off] lies below the
    sign bit of an [int]. *)
Definition bit_pair_ok (off : Z) : Prop := 0 <= off /\ off + 1 < 31.

(** The layout of the word [mcctrl]: the bit-field [mcsel] lies in the
    32-bit word and apart from the two oscillator enable bits. *)
Definition mcsel_ok (io : avr32_io) : Prop :=
  0 <= AVR32_PM_MCCTRL_MCSEL_OFFSET /\
  AVR32_PM_MCCTRL_MCSEL_OFFSET + Z.pos (bitfield_size PM_MCCTRL_mcsel) <= 32 /\
  (AVR32_PM_MCCTRL_MCSEL_OFFSET + Z.pos (bitfield_size PM_MCCTRL_mcsel)
     <= AVR32_PM_MCCTRL_OSC0EN_OFFSET \/
   AVR32_PM_MCCTRL_OSC0EN_OFFSET + 2 <= AVR32_PM_MCCTRL_MCSEL_OFFSET).

Definition io_ok (io : avr32_io) : Prop :=
  bit_pair_ok AVR32_PM_MCCTRL_OSC0EN_OFFSET /\
  bit_pair_ok AVR32_PM_POSCSR_OSC0RDY_OFFSET /\
  bit_pair_ok AVR32_PM_POSCSR_LOCK0_OFFSET.

(** The power manager and flash controller of the UC3A/UC3B. In MCCTRL,
    MCSEL is bits 1:0 and OSC0EN bit 2; in POSCSR, LOCK0 is bit 0 and
    OSC0RDY bit 7. OSCCTRLn.MODE and OSCCTRLn.STARTUP have 3 bits, PLLn.PLLMUL
    and PLLn.PLLDIV 4 bits, GCCTRLn.DIV 8 bits, and the other fields the
    driver assigns are single bits. *)
Definition uc3_bitfield_size (r : reg) : positive :=
  match r with
  | PM_mcctrl => 32
  | PM_MCCTRL_mcsel => 2
  | PM_OSCCTRL0_startup | PM_OSCCTRL1_startup => 3
  | PM_OSCCTRL0_mode | PM_OSCCTRL1_mode => 3
  | PM_PLL_pllmul _ | PM_PLL_plldiv _ => 4
  | PM_GCCTRL_div _ => 8
  | _ => 1
  end.

Definition uc3_io : avr32_io := {|
  AVR32_PM_MCCTRL_OSC0EN_OFFSET := 2;
  AVR32_PM_POSCSR_OSC0RDY_OFFSET := 7;
  AVR32_PM_POSCSR_LOCK0_OFFSET := 0;
  AVR32_PM_MCCTRL_MCSEL_OFFSET := 0;
  bitfield_size := uc3_bitfield_size
|}.

(** *** Field updates *)

Definition with_startup (v : Z) (r : avr32_pm_oscctrl_t) : avr32_pm_oscctrl_t :=
  {| startup := v; mode := mode r |}.
Definition with_mode (v : Z) (r : avr32_pm_oscctrl_t) : avr32_pm_oscctrl_t :=
  {| startup := startup r; mode := v |}.

Definition with_pllosc (v : Z) (r : avr32_pm_pll_t) : avr32_pm_pll_t :=
  {| pllosc := v; pllmul := pllmul r; plldiv := plldiv r; pllen := pllen r |}.
Definition with_pllmul (v : Z) (r : avr32_pm_pll_t) : avr32_pm_pll_t :=
  {| pllosc := pllosc r; pllmul := v; plldiv := plldiv r; pllen := pllen r |}.
Definition with_plldiv (v : Z) (r : avr32_pm_pll_t) : avr32_pm_pll_t :=
  {| pllosc := pllosc r; pllmul := pllmul r; plldiv := v; pllen := pllen r |}.
Definition with_pllen (v : Z) (r : avr32_pm_pll_t) : avr32_pm_pll_t :=
  {| pllosc := pllosc r; pllmul := pllmul r; plldiv := plldiv r; pllen := v |}.

Definition with_pllsel (v : Z) (r : avr32_pm_gcctrl_t) : avr32_pm_gcctrl_t :=
  {| pllsel := v; oscsel := oscsel r; diven := diven r; div := div r; cen := cen r |}.
Definition with_oscsel (v : Z) (r : avr32_pm_gcctrl_t) : avr32_pm_gcctrl_t :=
  {| pllsel := pllsel r; oscsel := v; diven := diven r; div := div r; cen := cen r |}.
Definition with_diven (v : Z) (r : avr32_pm_gcctrl_t) : avr32_pm_gcctrl_t :=
  {| pllsel := pllsel r; oscsel := oscsel r; diven := v; div := div r; cen := cen r |}.
Definition with_div (v : Z) (r : avr32_pm_gcctrl_t) : avr32_pm_gcctrl_t :=
  {| pllsel := pllsel r; oscsel := oscsel r; diven := diven r; div := v; cen := cen r |}.
Definition with_cen (v : Z) (r : avr32_pm_gcctrl_t) : avr32_pm_gcctrl_t :=
  {| pllsel := pllsel r; oscsel := oscsel r; diven := diven r; div := div r; cen := v |}.

Definition with_mcctrl (v : Z) (p : avr32_pm_t) : avr32_pm_t :=
  {| mcctrl := v; OSCCTRL0 := OSCCTRL0 p; OSCCTRL1 := OSCCTRL1 p;
     PLL := PLL p; GCCTRL := GCCTRL p; poscsr := poscsr p |}.
Definition with_OSCCTRL0 (v : avr32_pm_oscctrl_t) (p : avr32_pm_t) : avr32_pm_t :=
  {| mcctrl := mcctrl p; OSCCTRL0 := v; OSCCTRL1 := OSCCTRL1 p;
     PLL := PLL p; GCCTRL := GCCTRL p; poscsr := poscsr p |}.
Definition with_OSCCTRL1 (v : avr32_pm_oscctrl_t) (p : avr32_pm_t) : avr32_pm_t :=
  {| mcctrl := mcctrl p; OSCCTRL0 := OSCCTRL0 p; OSCCTRL1 := v;
     PLL := PLL p; GCCTRL := GCCTRL p; poscsr := poscsr p |}.
Definition with_PLL (v : list avr32_pm_pll_t) (p : avr32_pm_t) : avr32_pm_t :=
  {| mcctrl := mcctrl p; OSCCTRL0 := OSCCTRL0 p; OSCCTRL1 := OSCCTRL1 p;
     PLL := v; GCCTRL := GCCTRL p; poscsr := poscsr p |}.
Definition with_GCCTRL (v : list avr32_pm_gcctrl_t) (p : avr32_pm_t) : avr32_pm_t :=
  {| mcctrl := mcctrl p; OSCCTRL0 := OSCCTRL0 p; OSCCTRL1 := OSCCTRL1 p;
     PLL := PLL p; GCCTRL := v; poscsr := poscsr p |}.
Definition with_poscsr (v : list Z) (p : avr32_pm_t) : avr32_pm_t :=
  {| mcctrl := mcctrl p; OSCCTRL0 := OSCCTRL0 p; OSCCTRL1 := OSCCTRL1 p;
     PLL := PLL p; GCCTRL := GCCTRL p; poscsr := v |}.

Definition with_PM (p : avr32_pm_t) (h : hw) : hw :=
  {| AVR32_PM := p; AVR32_FLASHC := AVR32_FLASHC h |}.
Definition with_fws (v : Z) (h : hw) : hw :=
  {| AVR32_PM := AVR32_PM h; AVR32_FLASHC := {| FCR := {| fws := v |} |} |}.

(** *** Bit-fields

    An unsigned bit-field of [n] bits keeps the assigned value modulo
    [2 ^ n]. [field r v] is what the bit-field [r] holds after the
    assignment of [v]. *)
Definition field {io : avr32_io} (r : reg) (v : Z) : Z :=
  v mod 2 ^ Z.pos (bitfield_size r).

(** The [size] bits of the word [x] from bit [off] on, and the word [x]
    with these bits replaced by the low [size] bits of [v]. *)
Definition extract_bits (off size x : Z) : Z :=
  Z.land (Z.shiftr x off) (Z.ones size).
Definition deposit_bits (off size v x : Z) : Z :=
  Z.lor (Z.land x (Z.lnot (Z.shiftl (Z.ones size) off)))
        (Z.shiftl (Z.land v (Z.ones size)) off).

(** [AVR32_PM.MCCTRL]: the bit-field view of the word [mcctrl], and the
    word after an assignment through the view. *)
Definition MCCTRL {io : avr32_io} (p : avr32_pm_t) : avr32_pm_mcctrl_t :=
  {| mcsel := extract_bits AVR32_PM_MCCTRL_MCSEL_OFFSET
                (Z.pos (bitfield_size PM_MCCTRL_mcsel)) (mcctrl p) |}.
Definition with_MCCTRL {io : avr32_io} (v : avr32_pm_mcctrl_t) (p : avr32_pm_t) : avr32_pm_t :=
  with_mcctrl
    (deposit_bits AVR32_PM_MCCTRL_MCSEL_OFFSET
       (Z.pos (bitfield_size PM_MCCTRL_mcsel)) (mcsel v) (mcctrl p)) p.

(** *** Arrays of channel registers

    [a[i]] for an index of the array; [None] when [i] is outside it, where
    the C access is undefined. *)
Definition elem {A : Type} (a : list A) (i : Z) : option A :=
  if i <? 0 then None else a !! Z.to_nat i.

Definition update_elem {A : Type} (f : A -> A) (a : list A) (i : Z) : option (list A) :=
  match elem a i with
  | Some x => Some (<[Z.to_nat i := f x]> a)
  | None => None
  end.

(** [poke r v h]: the state after the assignment [r = v]. A bit-field keeps
    [field r v]. The word [mcctrl] keeps [v]: the driver assigns it the
    results of [|=] and [&=] on the word itself, which are 32-bit values when
    the word is one. An assignment to [MCCTRL.mcsel] changes the bits of
    [mcctrl] that the field occupies, and only these. *)
Definition poke {io : avr32_io} (r : reg) (v : Z) (h : hw) : option hw :=
  let p := AVR32_PM h in
  let x := field r v in
  match r with
  | PM_mcctrl => Some (with_PM (with_mcctrl v p) h)
  | PM_MCCTRL_mcsel => Some (with_PM (with_MCCTRL {| mcsel := v |} p) h)
  | PM_OSCCTRL0_startup => Some (with_PM (with_OSCCTRL0 (with_startup x (OSCCTRL0 p)) p) h)
  | PM_OSCCTRL0_mode => Some (with_PM (with_OSCCTRL0 (with_mode x (OSCCTRL0 p)) p) h)
  | PM_OSCCTRL1_startup => Some (with_PM (with_OSCCTRL1 (with_startup x (OSCCTRL1 p)) p) h)
  | PM_OSCCTRL1_mode => Some (with_PM (with_OSCCTRL1 (with_mode x (OSCCTRL1 p)) p) h)
  | PM_PLL_pllosc i =>
      option_map (fun a => with_PM (with_PLL a p) h) (update_elem (with_pllosc x) (PLL p) i)
  | PM_PLL_pllmul i =>
      option_map (fun a => with_PM (with_PLL a p) h) (update_elem (with_pllmul x) (PLL p) i)
  | PM_PLL_plldiv i =>
      option_map (fun a => with_PM (with_PLL a p) h) (update_elem (with_plldiv x) (PLL p) i)
  | PM_PLL_pllen i =>
      option_map (fun a => with_PM (with_PLL a p) h) (update_elem (with_pllen x) (PLL p) i)
  | PM_GCCTRL_pllsel i =>
      option_map (fun a => with_PM (with_GCCTRL a p) h) (update_elem (with_pllsel x) (GCCTRL p) i)
  | PM_GCCTRL_oscsel i =>
      option_map (fun a => with_PM (with_GCCTRL a p) h) (update_elem (with_oscsel x) (GCCTRL p) i)
  | PM_GCCTRL_diven i =>
      option_map (fun a => with_PM (with_GCCTRL a p) h) (update_elem (with_diven x) (GCCTRL p) i)
  | PM_GCCTRL_div i =>
      option_map (fun a => with_PM (with_GCCTRL a p) h) (update_elem (with_div x) (GCCTRL p) i)
  | PM_GCCTRL_cen i =>
      option_map (fun a => with_PM (with_GCCTRL a p) h) (update_elem (with_cen x) (GCCTRL p) i)
  | FLASHC_FCR_fws => Some (with_fws x h)
  end.

(** The state with element [i] of an array of channel registers replaced,
    and with the status-register observations replaced. *)
Definition set_PLL (i : Z) (x : avr32_pm_pll_t) (h : hw) : hw :=
  with_PM (with_PLL (<[Z.to_nat i := x]> (PLL (AVR32_PM h))) (AVR32_PM h)) h.
Definition set_GCCTRL (i : Z) (x : avr32_pm_gcctrl_t) (h : hw) : hw :=
  with_PM (with_GCCTRL (<[Z.to_nat i := x]> (GCCTRL (AVR32_PM h))) (AVR32_PM h)) h.
Definition set_poscsr (v : list Z) (h : hw) : hw :=
  with_PM (with_poscsr v (AVR32_PM h)) h.

(** ** Computations *)

Inductive undefined : Type :=
| DivisionByZero
| OutOfBounds (r : reg)
| ShiftOutOfRange (n : Z)
| MissingReturn.

Inductive outcome (A : Type) : Type :=
| Done (a : A) (h : hw) (t : list event)
| Undefined (u : undefined)
| Spinning (h : hw) (t : list event).
Arguments Done {A} a h t.
Arguments Undefined {A} u.
Arguments Spinning {A} h t.

Definition M (A : Type) : Type := hw -> outcome A.

Definition ret {A : Type} (a : A) : M A := fun h => Done a h [].

(** [after t o]: the outcome [o] of a continuation, reached after the
    accesses [t]. *)
Definition after {A : Type} (t : list event) (o : outcome A) : outcome A :=
  match o with
  | Done a h t' => Done a h (t ++ t')
  | Undefined u => Undefined u
  | Spinning h t' => Spinning h (t ++ t')
  end.

Definition bind {A B : Type} (m : M A) (k : A -> M B) : M B := fun h =>
  match m h with
  | Done a h1 t1 => after t1 (k a h1)
  | Undefined u => Undefined u
  | Spinning h1 t1 => Spinning h1 t1
  end.

Definition undef {A : Type} (u : undefined) : M A := fun _ => Undefined u.

Declare Scope clk_scope.
Delimit Scope clk_scope with clk.
Notation "x <- c1 ;; c2" := (bind c1 (fun x => c2))
  (at level 100, c1 at next level, right associativity) : clk_scope.
Local Open Scope clk_scope.

(** The state and the accesses a computation has reached, whether it has
    completed or is still waiting. *)
Definition reached {A : Type} (o : outcome A) : option (hw * list event) :=
  match o with
  | Done _ h t => Some (h, t)
  | Spinning h t => Some (h, t)
  | Undefined _ => None
  end.

(** *** Expressions *)

Definition expr : Type := M Z.

Definition val (z : Z) : expr := ret z.

(** [a / b] on [uint32_t]. *)
Definition udiv (a b : expr) : expr :=
  x <- a ;; y <- b ;;
  if y =? 0 then undef DivisionByZero else ret (x / y).

(** [a - b] on [uint32_t]. *)
Definition usub (a b : expr) : expr :=
  x <- a ;; y <- b ;; ret (to_uint32 (x - y)).

Definition ult (a b : expr) : expr :=
  x <- a ;; y <- b ;; ret (if x <? y then 1 else 0).

Definition ugt (a b : expr) : expr :=
  x <- a ;; y <- b ;; ret (if y <? x then 1 else 0).

(** [c ? a : b]. *)
Definition cond (c a b : expr) : expr :=
  x <- c ;; if x =? 0 then b else a.

(** [a << n] on [int], for a non-negative [a]: defined when the shift count
    is within the width and the result is representable. *)
Definition shl (a n : expr) : expr :=
  x <- a ;; k <- n ;;
  if (0 <=? k) && (k <? 32) && (Z.shiftl x k <=? INT_MAX)
  then ret (Z.shiftl x k) else undef (ShiftOutOfRange k).

(** [~a] on [int]. *)
Definition bnot (a : expr) : expr := x <- a ;; ret (Z.lnot x).

(** The value of the word [AVR32_PM.mcctrl]. *)
Definition get_mcctrl : expr := fun h => Done (mcctrl (AVR32_PM h)) h [].

(** *** Statements *)

Inductive completion (R : Type) : Type :=
| Normal
| Returned (r : R).
Arguments Normal {R}.
Arguments Returned {R} r.

Definition stmt (R : Type) : Type := M (completion R).

Definition seq {R : Type} (s1 s2 : stmt R) : stmt R :=
  c <- s1 ;; match c with Normal => s2 | Returned r => ret (Returned r) end.
Notation "s1 ;; s2" := (seq s1 s2) (at level 100, right associativity) : clk_scope.

Definition skip {R : Type} : stmt R := ret Normal.

(** [return r;] *)
Definition Return {R : Type} (r : R) : stmt R := ret (Returned r).

Definition store {io : avr32_io} (r : reg) (v : Z) : M unit := fun h =>
  match poke r v h with
  | Some h' => Done tt h' [Write r v]
  | None => Undefined (OutOfBounds r)
  end.

(** [r = e;] *)
Definition assign {io : avr32_io} {R : Type} (r : reg) (e : expr) : stmt R :=
  v <- e ;; _ <- store r v ;; ret Normal.
Notation "r ::= e" := (assign r e) (at level 70, no associativity) : clk_scope.

(** [AVR32_PM.mcctrl |= e;] and [AVR32_PM.mcctrl &= e;] with [e] of type
    [int], converted to the register's unsigned type. *)
Definition mcctrl_or_assign {io : avr32_io} {R : Type} (e : expr) : stmt R :=
  PM_mcctrl ::= (x <- get_mcctrl ;; y <- e ;; ret (Z.lor x (to_uint32 y))).
Definition mcctrl_and_assign {io : avr32_io} {R : Type} (e : expr) : stmt R :=
  PM_mcctrl ::= (x <- get_mcctrl ;; y <- e ;; ret (Z.land x (to_uint32 y))).

(** [if (e) s] *)
Definition if_ {R : Type} (e : expr) (s : stmt R) : stmt R :=
  x <- e ;; if x =? 0 then skip else s.

(** [switch (v) { case c1: s1; break; ... default: d }] *)
Fixpoint switch {R : Type} (v : Z) (cases : list (Z * stmt R)) (default : stmt R) : stmt R :=
  match cases with
  | [] => default
  | (c, s) :: rest => if v =? c then s else switch v rest default
  end.

(** [while (!(AVR32_PM.poscsr & mask));] Every evaluation of the condition
    reads the status register once. [poll] runs over the values still to be
    observed: it gives the reads made and, when one of them has a bit of
    [mask] set, the values left after it. *)
Fixpoint poll (mask : Z) (samples : list Z) : list event * option (list Z) :=
  match samples with
  | [] => ([], None)
  | v :: rest =>
      if Z.land v (to_uint32 mask) =? 0
      then let '(t, r) := poll mask rest in (ReadPoscsr v :: t, r)
      else ([ReadPoscsr v], Some rest)
  end.

Definition while_poscsr_clear {R : Type} (mask : expr) : stmt R :=
  m <- mask ;;
  fun h =>
    match poll m (poscsr (AVR32_PM h)) with
    | (t, Some rest) => Done Normal (set_poscsr rest h) t
    | (t, None) => Spinning (set_poscsr [] h) t
    end.

(** A function whose declared return type is [bool]. *)
Definition bool_function (body : stmt bool) : M bool :=
  c <- body ;; match c with Returned r => ret r | Normal => undef MissingReturn end.

(** A function whose declared return type is [void]: the caller receives no
    value, whatever the body's [return] statements name. *)
Definition void_function {R : Type} (body : stmt R) : M unit :=
  _ <- body ;; ret tt.

(** ** The driver *)

Section Driver.

Context {io : avr32_io}.

Definition AVR32CLK_StartExternalOscillator_body (Channel Type_ Startup : Z) : stmt bool :=
  switch Channel
    [ (0, PM_OSCCTRL0_startup ::= val Startup ;;
          PM_OSCCTRL0_mode ::= val Type_);
      (1, PM_OSCCTRL1_startup ::= val Startup ;;
          PM_OSCCTRL1_mode ::= val Type_) ]
    (Return false) ;;
  mcctrl_or_assign (shl (val 1) (val (AVR32_PM_MCCTRL_OSC0EN_OFFSET + Channel))) ;;
  while_poscsr_clear (shl (val 1) (val (AVR32_PM_POSCSR_OSC0RDY_OFFSET + Channel))) ;;
  Return true.

(** The source declares this function [static inline void]. *)
Definition AVR32CLK_StartExternalOscillator (Channel Type_ Startup : Z) : M unit :=
  void_function (AVR32CLK_StartExternalOscillator_body Channel Type_ Startup).

Definition AVR32CLK_StopExternalOscillator (Channel : Z) : M unit :=
  void_function (R := unit)
    (mcctrl_and_assign
       (bnot (shl (val 1) (val (AVR32_PM_MCCTRL_OSC0EN_OFFSET + Channel))))).

Definition AVR32CLK_StartPLL (Channel Source SourceFreq Frequency : Z) : M bool :=
  bool_function
    (switch Source
       [ (CLOCK_SRC_OSC0, PM_PLL_pllosc Channel ::= val 0);
         (CLOCK_SRC_OSC1, PM_PLL_pllosc Channel ::= val 1) ]
       (Return false) ;;
     PM_PLL_pllmul Channel ::=
       cond (udiv (val Frequency) (val SourceFreq))
            (udiv (usub (udiv (val Frequency) (val SourceFreq)) (val 1)) (val 2))
            (val 0) ;;
     PM_PLL_plldiv Channel ::= val 0 ;;
     PM_PLL_pllen Channel ::= val C_true ;;
     while_poscsr_clear (shl (val 1) (val (AVR32_PM_POSCSR_LOCK0_OFFSET + Channel))) ;;
     Return true).

Definition AVR32CLK_StopPLL (Channel : Z) : M unit :=
  void_function (R := unit) (PM_PLL_pllen Channel ::= val C_false).

Definition AVR32CLK_StartGenericClock (Channel Source SourceFreq Frequency : Z) : M bool :=
  bool_function
    (switch Source
       [ (CLOCK_SRC_OSC0, PM_GCCTRL_pllsel Channel ::= val 0 ;;
                          PM_GCCTRL_oscsel Channel ::= val 0);
         (CLOCK_SRC_OSC1, PM_GCCTRL_pllsel Channel ::= val 0 ;;
                          PM_GCCTRL_oscsel Channel ::= val 1);
         (CLOCK_SRC_PLL0, PM_GCCTRL_pllsel Channel ::= val 1 ;;
                          PM_GCCTRL_oscsel Channel ::= val 0);
         (CLOCK_SRC_PLL1, PM_GCCTRL_pllsel Channel ::= val 1 ;;
                          PM_GCCTRL_oscsel Channel ::= val 1) ]
       (Return false) ;;
     if_ (ult (val SourceFreq) (val Frequency))
       (Return false) ;;
     PM_GCCTRL_diven Channel ::=
       cond (ugt (val SourceFreq) (val Frequency)) (val C_true) (val C_false) ;;
     PM_GCCTRL_div Channel ::=
       udiv (usub (udiv (val SourceFreq) (val Frequency)) (val 1)) (val 2) ;;
     PM_GCCTRL_cen Channel ::= val C_true ;;
     Return true).

Definition AVR32CLK_StopGenericClock (Channel : Z) : M unit :=
  void_function (R := unit) (PM_GCCTRL_cen Channel ::= val C_false).

Definition AVR32CLK_SetCPUClockSource (Source SourceFreq : Z) : M bool :=
  bool_function
    (FLASHC_FCR_fws ::=
       cond (ugt (val SourceFreq) (val 30000000)) (val C_true) (val C_false) ;;
     switch Source
       [ (CLOCK_SRC_SLOW_CLK, PM_MCCTRL_mcsel ::= val 0);
         (CLOCK_SRC_OSC0, PM_MCCTRL_mcsel ::= val 1);
         (CLOCK_SRC_PLL0, PM_MCCTRL_mcsel ::= val 2) ]
       (Return false) ;;
     Return true).

End Driver.

(** ** Predicates used in the statements *)

(** An expression without side effect that evaluates to [v]. *)
Definition pure (e : expr) (v : Z) : Prop := forall h, e h = Done v h [].

(** [h'] differs from [h] at most in element [i] of [AVR32_PM.GCCTRL]
    (the view [MCCTRL] goes with the word [mcctrl]). *)
Definition same_outside_GCCTRL (i : Z) (h h' : hw) : Prop :=
  AVR32_FLASHC h' = AVR32_FLASHC h /\
  mcctrl (AVR32_PM h') = mcctrl (AVR32_PM h) /\
  OSCCTRL0 (AVR32_PM h') = OSCCTRL0 (AVR32_PM h) /\
  OSCCTRL1 (AVR32_PM h') = OSCCTRL1 (AVR32_PM h) /\
  PLL (AVR32_PM h') = PLL (AVR32_PM h) /\
  poscsr (AVR32_PM h') = poscsr (AVR32_PM h) /\
  length (GCCTRL (AVR32_PM h')) = length (GCCTRL (AVR32_PM h)) /\
  forall j, j <> i -> elem (GCCTRL (AVR32_PM h')) j = elem (GCCTRL (AVR32_PM h)) j.

(** [h'] differs from [h] at most in element [i] of [AVR32_PM.PLL] and in
    the status-register values still to be observed. *)
Definition same_outside_PLL (i : Z) (h h' : hw) : Prop :=
  AVR32_FLASHC h' = AVR32_FLASHC h /\
  mcctrl (AVR32_PM h') = mcctrl (AVR32_PM h) /\
  OSCCTRL0 (AVR32_PM h') = OSCCTRL0 (AVR32_PM h) /\
  OSCCTRL1 (AVR32_PM h') = OSCCTRL1 (AVR32_PM h) /\
  GCCTRL (AVR32_PM h') = GCCTRL (AVR32_PM h) /\
  length (PLL (AVR32_PM h')) = length (PLL (AVR32_PM h)) /\
  forall j, j <> i -> elem (PLL (AVR32_PM h')) j = elem (PLL (AVR32_PM h)) j.

(** The status-register value [v] has the bit at position [n] set. *)
Definition bit_set (n v : Z) : Prop := Z.land v (to_uint32 (Z.shiftl 1 n)) <> 0.

(** The sources [AVR32CLK_StartGenericClock] and [AVR32CLK_StartPLL] accept. *)
Definition is_gclk_source (Source : Z) : Prop :=
  Source = CLOCK_SRC_OSC0 \/ Source = CLOCK_SRC_OSC1 \/
  Source = CLOCK_SRC_PLL0 \/ Source = CLOCK_SRC_PLL1.

Definition is_pll_source (Source : Z) : Prop :=
  Source = CLOCK_SRC_OSC0 \/ Source = CLOCK_SRC_OSC1.

(** The control register of oscillator channel 0 or 1, its field addresses
    and its replacement. *)
Definition OSCCTRL (Channel : Z) (p : avr32_pm_t) : avr32_pm_oscctrl_t :=
  if Channel =? 0 then OSCCTRL0 p else OSCCTRL1 p.
Definition PM_OSCCTRL_startup (Channel : Z) : reg :=
  if Channel =? 0 then PM_OSCCTRL0_startup else PM_OSCCTRL1_startup.
Definition PM_OSCCTRL_mode (Channel : Z) : reg :=
  if Channel =? 0 then PM_OSCCTRL0_mode else PM_OSCCTRL1_mode.
Definition with_OSCCTRL (Channel : Z) (x : avr32_pm_oscctrl_t) (p : avr32_pm_t) : avr32_pm_t :=
  if Channel =? 0 then with_OSCCTRL0 x p else with_OSCCTRL1 x p.

(** The oscillator select that the [switch] of [AVR32CLK_StartPLL] assigns
    for a source. *)
Definition pll_pllosc (Source : Z) : Z :=
  if Source =? CLOCK_SRC_OSC1 then 1 else 0.

(** The selector bits that the [switch] of [AVR32CLK_StartGenericClock]
    assigns for a source. *)
Definition gclk_pllsel (Source : Z) : Z :=
  if (Source =? CLOCK_SRC_PLL0) || (Source =? CLOCK_SRC_PLL1) then 1 else 0.
Definition gclk_oscsel (Source : Z) : Z :=
  if (Source =? CLOCK_SRC_OSC1) || (Source =? CLOCK_SRC_PLL1) then 1 else 0.

(** A register state with two PLLs and six generic clocks, everything
    cleared, whose status register reads [samples]. *)
Definition reset_hw (samples : list Z) : hw := {|
  AVR32_PM := {|
    mcctrl := 0;
    OSCCTRL0 := {| startup := 0; mode := 0 |};
    OSCCTRL1 := {| startup := 0; mode := 0 |};
    PLL := replicate 2 {| pllosc := 0; pllmul := 0; plldiv := 0; pllen := 0 |};
    GCCTRL := replicate 6 {| pllsel := 0; oscsel := 0; diven := 0; div := 0; cen := 0 |};
    poscsr := samples |};
  AVR32_FLASHC := {| FCR := {| fws := 0 |} |}
|}.

(** The cleared state with the word [mcctrl] holding [v]. *)
Definition mcctrl_hw (v : Z) : hw :=
  with_PM (with_mcctrl v (AVR32_PM (reset_hw []))) (reset_hw []).

(** * Properties *)

(** ** Bit-fields *)

Section BitFields.

Context {io : avr32_io}.

Lemma field_small (r : reg) (v : Z) :
  0 <= v < 2 ^ Z.pos (bitfield_size r) -> field r v = v.
Proof. intros Hv. unfold field. apply Z.mod_small, Hv. Qed.

Lemma field_range (r : reg) (v : Z) : 0 <= field r v < 2 ^ Z.pos (bitfield_size r).
Proof. unfold field. apply Z.mod_pos_bound, Z.pow_pos_nonneg; lia. Qed.

(** A bit-field has at least one bit: it holds 0 and 1. *)
Lemma field_flag (r : reg) (v : Z) : v = 0 \/ v = 1 -> field r v = v.
Proof.
  intros Hv. apply field_small.
  assert (2 ^ 1 <= 2 ^ Z.pos (bitfield_size r)) by (apply Z.pow_le_mono_r; lia).
  change (2 ^ 1) with 2 in *. lia.
Qed.

Lemma flag_of_test (b : bool) : (if b then C_true else C_false) = 0 \/
                                (if b then C_true else C_false) = 1.
Proof. destruct b; [right | left]; reflexivity. Qed.

Lemma pll_pllosc_flag (Source : Z) : pll_pllosc Source = 0 \/ pll_pllosc Source = 1.
Proof. unfold pll_pllosc. destruct (Source =? CLOCK_SRC_OSC1); auto. Qed.

Lemma gclk_pllsel_flag (Source : Z) : gclk_pllsel Source = 0 \/ gclk_pllsel Source = 1.
Proof. unfold gclk_pllsel. destruct (_ || _); auto. Qed.

Lemma gclk_oscsel_flag (Source : Z) : gclk_oscsel Source = 0 \/ gclk_oscsel Source = 1.
Proof. unfold gclk_oscsel. destruct (_ || _); auto. Qed.

Lemma field_0 (r : reg) : field r 0 = 0.
Proof. apply field_flag. left. reflexivity. Qed.

Lemma field_1 (r : reg) : field r 1 = 1.
Proof. apply field_flag. right. reflexivity. Qed.

Lemma field_C_true (r : reg) : field r C_true = C_true.
Proof. apply field_1. Qed.

Lemma field_C_false (r : reg) : field r C_false = C_false.
Proof. apply field_0. Qed.

Lemma field_test (r : reg) (b : bool) :
  field r (if b then C_true else C_false) = if b then C_true else C_false.
Proof. apply field_flag, flag_of_test. Qed.

Lemma field_pll_pllosc (r : reg) (Source : Z) :
  field r (pll_pllosc Source) = pll_pllosc Source.
Proof. apply field_flag, pll_pllosc_flag. Qed.

Lemma field_gclk_pllsel (r : reg) (Source : Z) :
  field r (gclk_pllsel Source) = gclk_pllsel Source.
Proof. apply field_flag, gclk_pllsel_flag. Qed.

Lemma field_gclk_oscsel (r : reg) (Source : Z) :
  field r (gclk_oscsel Source) = gclk_oscsel Source.
Proof. apply field_flag, gclk_oscsel_flag. Qed.

End BitFields.

(** Fields that receive 0 or 1 hold what they receive. *)
Ltac flags :=
  rewrite ?field_0, ?field_1, ?field_C_true, ?field_C_false, ?field_test,
    ?field_pll_pllosc, ?field_gclk_pllsel, ?field_gclk_oscsel.

(** ** Laws of the computations *)

Section Laws.

Context {io : avr32_io}.

Lemma after_nil {A : Type} (o : outcome A) : after [] o = o.
Proof. destruct o; reflexivity. Qed.

Lemma after_after {A : Type} (t1 t2 : list event) (o : outcome A) :
  after t1 (after t2 o) = after (t1 ++ t2) o.
Proof. destruct o; simpl; rewrite ?app_assoc; reflexivity. Qed.

Lemma bind_pure {A : Type} (e : expr) (v : Z) (k : Z -> M A) (h : hw) :
  pure e v -> bind e k h = k v h.
Proof. intros He. unfold bind. rewrite He. apply after_nil. Qed.

Lemma bind_assoc {A B C : Type} (m : M A) (k : A -> M B) (k' : B -> M C) (h : hw) :
  bind (bind m k) k' h = bind m (fun a => bind (k a) k') h.
Proof.
  unfold bind. destruct (m h) as [a h1 t1 | u | h1 t1]; try reflexivity.
  destruct (k a h1) as [b h2 t2 | u | h2 t2]; simpl; try reflexivity.
  rewrite after_after. reflexivity.
Qed.

Lemma seq_assoc {R : Type} (s1 s2 s3 : stmt R) (h : hw) :
  ((s1 ;; s2) ;; s3) h = (s1 ;; (s2 ;; s3)) h.
Proof.
  unfold seq, bind.
  destruct (s1 h) as [[| r] h1 t1 | u | h1 t1]; simpl;
    rewrite ?app_nil_r; try reflexivity.
  destruct (s2 h1) as [[| r] h2 t2 | u | h2 t2]; simpl;
    rewrite ?app_nil_r; try reflexivity.
  destruct (s3 h2) as [c h3 t3 | u | h3 t3]; simpl;
    rewrite ?app_assoc; reflexivity.
Qed.

Lemma Return_seq {R : Type} (r : R) (s : stmt R) (h : hw) :
  (Return r ;; s) h = Done (Returned r) h [].
Proof. reflexivity. Qed.

(** *** Expressions *)

Lemma pure_val (z : Z) : pure (val z) z.
Proof. intros h. reflexivity. Qed.

Lemma pure_bin (f : Z -> Z -> Z) (a b : expr) (x y : Z) :
  pure a x -> pure b y -> pure (x' <- a ;; y' <- b ;; ret (f x' y')) (f x y).
Proof. intros Ha Hb h. rewrite (bind_pure a x) by assumption. rewrite (bind_pure b y) by assumption. reflexivity. Qed.

Lemma pure_udiv (a b : expr) (x y : Z) :
  pure a x -> pure b y -> y <> 0 -> pure (udiv a b) (x / y).
Proof.
  intros Ha Hb Hy h. unfold udiv.
  rewrite (bind_pure a x), (bind_pure b y) by assumption.
  destruct (Z.eqb_spec y 0); [contradiction | reflexivity].
Qed.

Lemma udiv_by_zero (a b : expr) (x : Z) (h : hw) :
  pure a x -> pure b 0 -> udiv a b h = Undefined DivisionByZero.
Proof.
  intros Ha Hb. unfold udiv.
  rewrite (bind_pure a x), (bind_pure b 0) by assumption. reflexivity.
Qed.

Lemma pure_usub (a b : expr) (x y : Z) :
  pure a x -> pure b y -> pure (usub a b) (to_uint32 (x - y)).
Proof. apply (pure_bin (fun x y => to_uint32 (x - y))). Qed.

Lemma pure_ult (a b : expr) (x y : Z) :
  pure a x -> pure b y -> pure (ult a b) (if x <? y then 1 else 0).
Proof. apply (pure_bin (fun x y => if x <? y then 1 else 0)). Qed.

Lemma pure_ugt (a b : expr) (x y : Z) :
  pure a x -> pure b y -> pure (ugt a b) (if y <? x then 1 else 0).
Proof. apply (pure_bin (fun x y => if y <? x then 1 else 0)). Qed.

Lemma pure_cond (c a b : expr) (x y z : Z) :
  pure c x -> pure a y -> pure b z -> pure (cond c a b) (if x =? 0 then z else y).
Proof.
  intros Hc Ha Hb h. unfold cond. rewrite (bind_pure c x) by assumption.
  destruct (x =? 0); auto.
Qed.

Lemma pure_shl_1 (n : Z) : 0 <= n < 31 -> pure (shl (val 1) (val n)) (Z.shiftl 1 n).
Proof.
  intros Hn h. unfold shl.
  rewrite (bind_pure (val 1) 1), (bind_pure (val n) n) by apply pure_val.
  assert (Hle : Z.shiftl 1 n <= INT_MAX).
  { rewrite Z.shiftl_1_l. unfold INT_MAX.
    assert (2 ^ n <= 2 ^ 30) by (apply Z.pow_le_mono_r; lia). lia. }
  destruct (Z.leb_spec 0 n); [| lia].
  destruct (Z.ltb_spec n 32); [| lia].
  destruct (Z.leb_spec (Z.shiftl 1 n) INT_MAX); [reflexivity | lia].
Qed.

Lemma pure_bnot (a : expr) (x : Z) : pure a x -> pure (bnot a) (Z.lnot x).
Proof. intros Ha h. unfold bnot. rewrite (bind_pure a x) by assumption. reflexivity. Qed.

Create HintDb clk.
#[local] Hint Resolve pure_val pure_usub pure_ult pure_ugt pure_cond pure_bnot : clk.

(** *** Statements *)

Lemma assign_run {R : Type} (r : reg) (e : expr) (v : Z) (h h' : hw) :
  e h = Done v h [] -> poke r v h = Some h' ->
  assign (R := R) r e h = Done Normal h' [Write r v].
Proof.
  intros He Hp. unfold assign, bind at 1. rewrite He.
  unfold bind, store. rewrite Hp. reflexivity.
Qed.

Lemma assign_seq {R : Type} (r : reg) (e : expr) (v : Z) (s : stmt R) (h h' : hw) :
  e h = Done v h [] -> poke r v h = Some h' ->
  (r ::= e ;; s) h = after [Write r v] (s h').
Proof.
  intros He Hp. unfold seq, bind at 1.
  rewrite (assign_run r e v h h') by assumption. reflexivity.
Qed.

Lemma assign_seq_out_of_bounds {R : Type} (r : reg) (e : expr) (v : Z) (s : stmt R) (h : hw) :
  pure e v -> poke r v h = None ->
  (r ::= e ;; s) h = Undefined (OutOfBounds r).
Proof.
  intros He Hp. unfold seq, bind at 1, assign.
  rewrite (bind_pure e v) by assumption.
  unfold bind, store. rewrite Hp. reflexivity.
Qed.

Lemma assign_seq_undefined {R : Type} (r : reg) (e : expr) (u : undefined) (s : stmt R) (h : hw) :
  e h = Undefined u -> (r ::= e ;; s) h = Undefined u.
Proof.
  intros He. unfold seq, bind at 1, assign, bind at 1. rewrite He. reflexivity.
Qed.

Lemma if_seq_taken {R : Type} (e : expr) (x : Z) (s1 s2 : stmt R) (h : hw) :
  pure e x -> x <> 0 -> (if_ e s1 ;; s2) h = (s1 ;; s2) h.
Proof.
  intros He Hx. unfold seq at 1, if_. rewrite bind_assoc, (bind_pure e x) by assumption.
  destruct (Z.eqb_spec x 0); [contradiction | reflexivity].
Qed.

Lemma if_seq_skipped {R : Type} (e : expr) (s1 s2 : stmt R) (h : hw) :
  pure e 0 -> (if_ e s1 ;; s2) h = s2 h.
Proof.
  intros He. unfold seq at 1, if_. rewrite bind_assoc, (bind_pure e 0) by assumption.
  simpl. unfold bind, skip, ret. apply after_nil.
Qed.

Lemma while_seq {R : Type} (mask : expr) (m : Z) (s : stmt R) (h : hw) :
  pure mask m ->
  (while_poscsr_clear mask ;; s) h =
  match poll m (poscsr (AVR32_PM h)) with
  | (t, Some rest) => after t (s (set_poscsr rest h))
  | (t, None) => Spinning (set_poscsr [] h) t
  end.
Proof.
  intros Hm. unfold seq, while_poscsr_clear. rewrite bind_assoc, (bind_pure mask m) by assumption.
  unfold bind. destruct (poll m (poscsr (AVR32_PM h))) as [t [rest |]]; reflexivity.
Qed.

(** *** Arrays of channel registers *)

Lemma elem_Some_range {A : Type} (a : list A) (i : Z) (x : A) :
  elem a i = Some x -> 0 <= i < Z.of_nat (length a).
Proof.
  unfold elem. destruct (Z.ltb_spec i 0); [discriminate |].
  intros Hx. apply lookup_lt_Some in Hx. lia.
Qed.

Lemma elem_outside {A : Type} (a : list A) (i : Z) :
  ~ (0 <= i < Z.of_nat (length a)) -> elem a i = None.
Proof.
  intros Hi. unfold elem. destruct (Z.ltb_spec i 0); [reflexivity |].
  apply lookup_ge_None. lia.
Qed.

Lemma elem_insert_eq {A : Type} (a : list A) (i : Z) (x y : A) :
  elem a i = Some x -> elem (<[Z.to_nat i := y]> a) i = Some y.
Proof.
  intros Hx. pose proof (elem_Some_range a i x Hx) as Hi.
  unfold elem. destruct (Z.ltb_spec i 0); [lia |].
  apply list_lookup_insert_eq. lia.
Qed.

Lemma elem_insert_ne {A : Type} (a : list A) (i j : Z) (y : A) :
  0 <= i -> j <> i -> elem (<[Z.to_nat i := y]> a) j = elem a j.
Proof.
  intros Hi Hj. unfold elem. destruct (Z.ltb_spec j 0); [reflexivity |].
  apply list_lookup_insert_ne. lia.
Qed.

Lemma update_elem_Some {A : Type} (f : A -> A) (a : list A) (i : Z) (x : A) :
  elem a i = Some x -> update_elem f a i = Some (<[Z.to_nat i := f x]> a).
Proof. intros Hx. unfold update_elem. rewrite Hx. reflexivity. Qed.

Lemma update_elem_None {A : Type} (f : A -> A) (a : list A) (i : Z) :
  elem a i = None -> update_elem f a i = None.
Proof. intros Hx. unfold update_elem. rewrite Hx. reflexivity. Qed.

Section PokeArrays.

Variables (i v : Z) (h : hw).

Section PLL.

Variable x : avr32_pm_pll_t.
Hypothesis Hx : elem (PLL (AVR32_PM h)) i = Some x.

Lemma poke_PLL_pllosc : poke (PM_PLL_pllosc i) v h = Some (set_PLL i (with_pllosc (field (PM_PLL_pllosc i) v) x) h).
Proof using Hx. unfold poke. rewrite (update_elem_Some _ _ _ x Hx). reflexivity. Qed.

Lemma poke_PLL_pllmul : poke (PM_PLL_pllmul i) v h = Some (set_PLL i (with_pllmul (field (PM_PLL_pllmul i) v) x) h).
Proof using Hx. unfold poke. rewrite (update_elem_Some _ _ _ x Hx). reflexivity. Qed.

Lemma poke_PLL_plldiv : poke (PM_PLL_plldiv i) v h = Some (set_PLL i (with_plldiv (field (PM_PLL_plldiv i) v) x) h).
Proof using Hx. unfold poke. rewrite (update_elem_Some _ _ _ x Hx). reflexivity. Qed.

Lemma poke_PLL_pllen : poke (PM_PLL_pllen i) v h = Some (set_PLL i (with_pllen (field (PM_PLL_pllen i) v) x) h).
Proof using Hx. unfold poke. rewrite (update_elem_Some _ _ _ x Hx). reflexivity. Qed.

Lemma elem_set_PLL (y : avr32_pm_pll_t) :
  elem (PLL (AVR32_PM (set_PLL i y h))) i = Some y.
Proof using Hx. simpl. eapply elem_insert_eq, Hx. Qed.

Lemma same_outside_set_PLL (y : avr32_pm_pll_t) (samples : list Z) :
  same_outside_PLL i h (set_poscsr samples (set_PLL i y h)).
Proof using Hx.
  pose proof (elem_Some_range _ _ _ Hx).
  repeat split; simpl; auto using length_insert.
  intros j Hj. apply elem_insert_ne; lia.
Qed.

End PLL.

Lemma poke_PLL_pllosc_outside :
  elem (PLL (AVR32_PM h)) i = None -> poke (PM_PLL_pllosc i) v h = None.
Proof. intros Hn. unfold poke. rewrite update_elem_None by assumption. reflexivity. Qed.

Section GCCTRL.

Variable x : avr32_pm_gcctrl_t.
Hypothesis Hx : elem (GCCTRL (AVR32_PM h)) i = Some x.

Lemma poke_GCCTRL_pllsel :
  poke (PM_GCCTRL_pllsel i) v h = Some (set_GCCTRL i (with_pllsel (field (PM_GCCTRL_pllsel i) v) x) h).
Proof using Hx. unfold poke. rewrite (update_elem_Some _ _ _ x Hx). reflexivity. Qed.

Lemma poke_GCCTRL_oscsel :
  poke (PM_GCCTRL_oscsel i) v h = Some (set_GCCTRL i (with_oscsel (field (PM_GCCTRL_oscsel i) v) x) h).
Proof using Hx. unfold poke. rewrite (update_elem_Some _ _ _ x Hx). reflexivity. Qed.

Lemma poke_GCCTRL_diven :
  poke (PM_GCCTRL_diven i) v h = Some (set_GCCTRL i (with_diven (field (PM_GCCTRL_diven i) v) x) h).
Proof using Hx. unfold poke. rewrite (update_elem_Some _ _ _ x Hx). reflexivity. Qed.

Lemma poke_GCCTRL_div :
  poke (PM_GCCTRL_div i) v h = Some (set_GCCTRL i (with_div (field (PM_GCCTRL_div i) v) x) h).
Proof using Hx. unfold poke. rewrite (update_elem_Some _ _ _ x Hx). reflexivity. Qed.

Lemma poke_GCCTRL_cen :
  poke (PM_GCCTRL_cen i) v h = Some (set_GCCTRL i (with_cen (field (PM_GCCTRL_cen i) v) x) h).
Proof using Hx. unfold poke. rewrite (update_elem_Some _ _ _ x Hx). reflexivity. Qed.

Lemma elem_set_GCCTRL (y : avr32_pm_gcctrl_t) :
  elem (GCCTRL (AVR32_PM (set_GCCTRL i y h))) i = Some y.
Proof using Hx. simpl. eapply elem_insert_eq, Hx. Qed.

Lemma same_outside_set_GCCTRL (y : avr32_pm_gcctrl_t) :
  same_outside_GCCTRL i h (set_GCCTRL i y h).
Proof using Hx.
  pose proof (elem_Some_range _ _ _ Hx).
  repeat split; simpl; auto using length_insert.
  intros j Hj. apply elem_insert_ne; lia.
Qed.

End GCCTRL.

End PokeArrays.

Lemma set_PLL_set_PLL (i : Z) (x y : avr32_pm_pll_t) (h : hw) :
  set_PLL i y (set_PLL i x h) = set_PLL i y h.
Proof. unfold set_PLL. simpl. rewrite list_insert_insert_eq. reflexivity. Qed.

Lemma set_GCCTRL_set_GCCTRL (i : Z) (x y : avr32_pm_gcctrl_t) (h : hw) :
  set_GCCTRL i y (set_GCCTRL i x h) = set_GCCTRL i y h.
Proof. unfold set_GCCTRL. simpl. rewrite list_insert_insert_eq. reflexivity. Qed.

(** *** The busy-wait *)

Lemma poll_reads_only (mask : Z) (samples : list Z) :
  writes_of (fst (poll mask samples)) = [].
Proof.
  induction samples as [| v rest IH]; simpl; [reflexivity |].
  destruct (Z.land v (to_uint32 mask) =? 0); [| reflexivity].
  destruct (poll mask rest) as [t r]. simpl in *. exact IH.
Qed.

(** The wait ends at the first observation that has a bit of the mask set. *)
Lemma poll_ready (mask : Z) (before : list Z) (v : Z) (rest : list Z) :
  Forall (fun x => Z.land x (to_uint32 mask) = 0) before ->
  Z.land v (to_uint32 mask) <> 0 ->
  poll mask (before ++ v :: rest) = (map ReadPoscsr (before ++ [v]), Some rest).
Proof.
  intros Hb Hv. induction Hb as [| x l Hx _ IH]; simpl.
  - destruct (Z.eqb_spec (Z.land v (to_uint32 mask)) 0); [contradiction | reflexivity].
  - rewrite Hx, IH. reflexivity.
Qed.

(** It does not end while no observation has one. *)
Lemma poll_never (mask : Z) (samples : list Z) :
  Forall (fun x => Z.land x (to_uint32 mask) = 0) samples ->
  poll mask samples = (map ReadPoscsr samples, None).
Proof.
  intros Hs. induction Hs as [| x l Hx _ IH]; simpl; [reflexivity |].
  rewrite Hx, IH. reflexivity.
Qed.

(** Some observation has a bit of the mask set: the wait ends. *)
Lemma poll_terminates (mask : Z) (samples : list Z) :
  Exists (fun x => Z.land x (to_uint32 mask) <> 0) samples ->
  exists t rest, poll mask samples = (t, Some rest).
Proof.
  induction samples as [| v l IH]; intros He.
  - inversion He.
  - simpl. destruct (Z.eqb_spec (Z.land v (to_uint32 mask)) 0) as [Hz | Hnz].
    + inversion He as [? ? Hv | ? ? Hl]; subst; [contradiction |].
      destruct (IH Hl) as (t & rest & ->). eauto.
    + eauto.
Qed.

(** *** Function results *)

Lemma bool_function_run (body : stmt bool) (h : hw) :
  bool_function body h =
  match body h with
  | Done (Returned r) h' t => Done r h' t
  | Done Normal _ _ => Undefined MissingReturn
  | Undefined u => Undefined u
  | Spinning h' t => Spinning h' t
  end.
Proof.
  unfold bool_function, bind.
  destruct (body h) as [[| r] h' t | u | h' t]; simpl; rewrite ?app_nil_r; reflexivity.
Qed.

Lemma void_function_run {R : Type} (body : stmt R) (h : hw) :
  void_function body h =
  match body h with
  | Done _ h' t => Done tt h' t
  | Undefined u => Undefined u
  | Spinning h' t => Spinning h' t
  end.
Proof.
  unfold void_function, bind.
  destruct (body h) as [c h' t | u | h' t]; simpl; rewrite ?app_nil_r; reflexivity.
Qed.

Lemma ternary_flag (b : bool) (y z : Z) :
  (if (if b then 1 else 0) =? 0 then z else y) = (if b then y else z).
Proof. destruct b; reflexivity. Qed.

(** [(a > b) ? true : false] *)
Lemma pure_gt_flag (a b : Z) :
  pure (cond (ugt (val a) (val b)) (val C_true) (val C_false))
       (if b <? a then C_true else C_false).
Proof. rewrite <- ternary_flag. auto with clk. Qed.

(** ** The CPU clock source switch *)

Section SetCPUClockSource.

Variables (Source SourceFreq : Z) (h : hw).

(** The value assigned to the wait-state bit. *)
Let w : Z := if 30000000 <? SourceFreq then C_true else C_false.

Lemma SetCPUClockSource_run :
  AVR32CLK_SetCPUClockSource Source SourceFreq h =
  if Source =? CLOCK_SRC_SLOW_CLK then
    Done true (with_PM (with_MCCTRL {| mcsel := 0 |} (AVR32_PM h)) (with_fws w h))
         [Write FLASHC_FCR_fws w; Write PM_MCCTRL_mcsel 0]
  else if Source =? CLOCK_SRC_OSC0 then
    Done true (with_PM (with_MCCTRL {| mcsel := 1 |} (AVR32_PM h)) (with_fws w h))
         [Write FLASHC_FCR_fws w; Write PM_MCCTRL_mcsel 1]
  else if Source =? CLOCK_SRC_PLL0 then
    Done true (with_PM (with_MCCTRL {| mcsel := 2 |} (AVR32_PM h)) (with_fws w h))
         [Write FLASHC_FCR_fws w; Write PM_MCCTRL_mcsel 2]
  else Done false (with_fws w h) [Write FLASHC_FCR_fws w].
Proof using Type.
  unfold AVR32CLK_SetCPUClockSource. rewrite bool_function_run.
  rewrite (assign_seq _ _ w _ h (with_fws w h));
    [| apply pure_gt_flag
     | unfold poke; rewrite (field_flag _ w) by apply flag_of_test; reflexivity].
  unfold switch.
  destruct (Source =? CLOCK_SRC_SLOW_CLK); [| destruct (Source =? CLOCK_SRC_OSC0);
    [| destruct (Source =? CLOCK_SRC_PLL0)]];
    try (erewrite assign_seq; [| apply pure_val | reflexivity]); reflexivity.
Qed.

End SetCPUClockSource.

(** ** The generic clock controller *)

Lemma bind_undefined {A B : Type} (m : M A) (k : A -> M B) (u : undefined) (h : hw) :
  m h = Undefined u -> bind m k h = Undefined u.
Proof. intros Hm. unfold bind. rewrite Hm. reflexivity. Qed.

Section StartGenericClock.

Variables (Channel Source SourceFreq Frequency : Z) (h : hw) (g : avr32_pm_gcctrl_t).
Hypothesis Hsrc : is_gclk_source Source.
Hypothesis Hg : elem (GCCTRL (AVR32_PM h)) Channel = Some g.

(** The [switch] on a valid source writes the two selector bits and goes on. *)
Lemma StartGenericClock_select (rest : stmt bool) :
  (switch Source
     [ (CLOCK_SRC_OSC0, PM_GCCTRL_pllsel Channel ::= val 0 ;;
                        PM_GCCTRL_oscsel Channel ::= val 0);
       (CLOCK_SRC_OSC1, PM_GCCTRL_pllsel Channel ::= val 0 ;;
                        PM_GCCTRL_oscsel Channel ::= val 1);
       (CLOCK_SRC_PLL0, PM_GCCTRL_pllsel Channel ::= val 1 ;;
                        PM_GCCTRL_oscsel Channel ::= val 0);
       (CLOCK_SRC_PLL1, PM_GCCTRL_pllsel Channel ::= val 1 ;;
                        PM_GCCTRL_oscsel Channel ::= val 1) ]
     (Return false) ;; rest) h =
  after [Write (PM_GCCTRL_pllsel Channel) (gclk_pllsel Source);
         Write (PM_GCCTRL_oscsel Channel) (gclk_oscsel Source)]
    (rest (set_GCCTRL Channel
             (with_oscsel (gclk_oscsel Source) (with_pllsel (gclk_pllsel Source) g)) h)).
Proof using Hsrc Hg.
  destruct Hsrc as [-> | [-> | [-> | ->]]]; simpl switch;
    rewrite seq_assoc;
    (erewrite assign_seq; [| apply pure_val | apply poke_GCCTRL_pllsel, Hg]);
    (erewrite assign_seq;
       [| apply pure_val | apply poke_GCCTRL_oscsel, elem_set_GCCTRL with (x := g), Hg]);
    rewrite after_after, set_GCCTRL_set_GCCTRL; flags; reflexivity.
Qed.

(** A target above the source: the function gives up after the selector
    bits. *)
Lemma StartGenericClock_run_above :
  SourceFreq < Frequency ->
  AVR32CLK_StartGenericClock Channel Source SourceFreq Frequency h =
  Done false
    (set_GCCTRL Channel
       {| pllsel := gclk_pllsel Source; oscsel := gclk_oscsel Source;
          diven := diven g; div := div g; cen := cen g |} h)
    [Write (PM_GCCTRL_pllsel Channel) (gclk_pllsel Source);
     Write (PM_GCCTRL_oscsel Channel) (gclk_oscsel Source)].
Proof using Hsrc Hg.
  intros Hlt. unfold AVR32CLK_StartGenericClock.
  rewrite bool_function_run, StartGenericClock_select.
  rewrite (if_seq_taken _ 1); [reflexivity | | lia].
  pose proof (pure_ult _ _ _ _ (pure_val SourceFreq) (pure_val Frequency)) as Hp.
  destruct (Z.ltb_spec SourceFreq Frequency); [exact Hp | lia].
Qed.

Lemma StartGenericClock_not_above (s1 s2 : stmt bool) (h1 : hw) :
  Frequency <= SourceFreq ->
  (if_ (ult (val SourceFreq) (val Frequency)) s1 ;; s2) h1 = s2 h1.
Proof using Type.
  intros Hle. apply if_seq_skipped.
  pose proof (pure_ult _ _ _ _ (pure_val SourceFreq) (pure_val Frequency)) as Hp.
  destruct (Z.ltb_spec SourceFreq Frequency); [lia | exact Hp].
Qed.

(** A positive target not above the source: all five fields are written. *)
Lemma StartGenericClock_run_started :
  0 < Frequency -> Frequency <= SourceFreq ->
  AVR32CLK_StartGenericClock Channel Source SourceFreq Frequency h =
  Done true
    (set_GCCTRL Channel
       {| pllsel := gclk_pllsel Source; oscsel := gclk_oscsel Source;
          diven := (if Frequency <? SourceFreq then C_true else C_false);
          div := field (PM_GCCTRL_div Channel)
                   (to_uint32 (SourceFreq / Frequency - 1) / 2);
          cen := C_true |} h)
    [Write (PM_GCCTRL_pllsel Channel) (gclk_pllsel Source);
     Write (PM_GCCTRL_oscsel Channel) (gclk_oscsel Source);
     Write (PM_GCCTRL_diven Channel) (if Frequency <? SourceFreq then C_true else C_false);
     Write (PM_GCCTRL_div Channel) (to_uint32 (SourceFreq / Frequency - 1) / 2);
     Write (PM_GCCTRL_cen Channel) C_true].
Proof using Hsrc Hg.
  intros Hpos Hle. unfold AVR32CLK_StartGenericClock.
  rewrite bool_function_run, StartGenericClock_select.
  rewrite StartGenericClock_not_above by assumption.
  erewrite assign_seq;
    [| apply pure_gt_flag | eapply poke_GCCTRL_diven, elem_set_GCCTRL, Hg].
  rewrite set_GCCTRL_set_GCCTRL.
  erewrite assign_seq;
    [| apply pure_udiv; [apply pure_usub; [apply pure_udiv |] | |]; auto with clk; lia
     | eapply poke_GCCTRL_div, elem_set_GCCTRL, Hg].
  rewrite set_GCCTRL_set_GCCTRL.
  erewrite assign_seq;
    [| apply pure_val | eapply poke_GCCTRL_cen, elem_set_GCCTRL, Hg].
  rewrite set_GCCTRL_set_GCCTRL. flags.
  reflexivity.
Qed.

(** A target of zero passes the frequency check and reaches the division. *)
Lemma StartGenericClock_run_zero :
  0 <= SourceFreq -> Frequency = 0 ->
  AVR32CLK_StartGenericClock Channel Source SourceFreq Frequency h =
  Undefined DivisionByZero.
Proof using Hsrc Hg.
  intros Hpos Hzero. unfold AVR32CLK_StartGenericClock.
  rewrite bool_function_run, StartGenericClock_select.
  rewrite StartGenericClock_not_above by lia.
  erewrite assign_seq;
    [| apply pure_gt_flag | eapply poke_GCCTRL_diven, elem_set_GCCTRL, Hg].
  rewrite set_GCCTRL_set_GCCTRL.
  erewrite assign_seq_undefined with (u := DivisionByZero); [reflexivity |].
  unfold udiv at 1, usub. do 2 apply bind_undefined.
  rewrite Hzero. apply udiv_by_zero with (x := SourceFreq); apply pure_val.
Qed.

End StartGenericClock.

(** ** The PLL controller *)

Lemma shl_1_undefined (n : Z) (h : hw) :
  ~ (0 <= n < 31) -> shl (val 1) (val n) h = Undefined (ShiftOutOfRange n).
Proof.
  intros Hn. unfold shl.
  rewrite (bind_pure (val 1) 1), (bind_pure (val n) n) by apply pure_val.
  destruct (Z.leb_spec 0 n); [| reflexivity].
  destruct (Z.ltb_spec n 32); [| reflexivity].
  assert (n = 31) as -> by lia. reflexivity.
Qed.

Lemma while_seq_undefined {R : Type} (mask : expr) (u : undefined) (s : stmt R) (h : hw) :
  mask h = Undefined u -> (while_poscsr_clear mask ;; s) h = Undefined u.
Proof.
  intros Hm. unfold seq, while_poscsr_clear. rewrite bind_assoc.
  apply bind_undefined, Hm.
Qed.

Lemma writes_of_app_reads (ws : list event) (mask : Z) (samples : list Z) :
  writes_of ws = ws -> writes_of (ws ++ fst (poll mask samples)) = ws.
Proof.
  intros Hws. unfold writes_of in *. rewrite List.filter_app, Hws.
  fold (writes_of (fst (poll mask samples))). rewrite poll_reads_only. apply app_nil_r.
Qed.

Section StartPLL.

Variables (Channel Source SourceFreq Frequency : Z) (h : hw).

Lemma StartPLL_invalid_source :
  Source <> CLOCK_SRC_OSC0 -> Source <> CLOCK_SRC_OSC1 ->
  AVR32CLK_StartPLL Channel Source SourceFreq Frequency h = Done false h [].
Proof using Type.
  intros H0 H1. unfold AVR32CLK_StartPLL. rewrite bool_function_run.
  unfold switch. apply Z.eqb_neq in H0, H1. rewrite H0, H1. reflexivity.
Qed.

Hypothesis Hsrc : is_pll_source Source.

(** The first access, [PLL[Channel].pllosc], is outside the array. *)
Lemma StartPLL_outside :
  elem (PLL (AVR32_PM h)) Channel = None ->
  AVR32CLK_StartPLL Channel Source SourceFreq Frequency h =
  Undefined (OutOfBounds (PM_PLL_pllosc Channel)).
Proof using Hsrc.
  intros Hn. unfold AVR32CLK_StartPLL. rewrite bool_function_run.
  destruct Hsrc as [-> | ->]; simpl switch;
    (erewrite assign_seq_out_of_bounds;
       [reflexivity | apply pure_val | apply poke_PLL_pllosc_outside, Hn]).
Qed.

Variable p : avr32_pm_pll_t.
Hypothesis Hp : elem (PLL (AVR32_PM h)) Channel = Some p.

Lemma StartPLL_select (rest : stmt bool) :
  (switch Source
     [ (CLOCK_SRC_OSC0, PM_PLL_pllosc Channel ::= val 0);
       (CLOCK_SRC_OSC1, PM_PLL_pllosc Channel ::= val 1) ]
     (Return false) ;; rest) h =
  after [Write (PM_PLL_pllosc Channel) (pll_pllosc Source)]
    (rest (set_PLL Channel (with_pllosc (pll_pllosc Source) p) h)).
Proof using Hsrc Hp.
  destruct Hsrc as [-> | ->]; simpl switch;
    (erewrite assign_seq; [| apply pure_val | apply poke_PLL_pllosc, Hp]);
    flags; reflexivity.
Qed.

(** A source frequency of zero: the multiplier expression divides by it. *)
Lemma StartPLL_run_zero :
  SourceFreq = 0 ->
  AVR32CLK_StartPLL Channel Source SourceFreq Frequency h = Undefined DivisionByZero.
Proof using Hsrc Hp.
  intros Hzero. unfold AVR32CLK_StartPLL. rewrite bool_function_run, StartPLL_select.
  erewrite assign_seq_undefined with (u := DivisionByZero); [reflexivity |].
  unfold cond. apply bind_undefined. rewrite Hzero.
  apply udiv_by_zero with (x := Frequency); apply pure_val.
Qed.

(** The value of the multiplier expression. *)
Lemma pure_multiplier :
  SourceFreq <> 0 ->
  pure (cond (udiv (val Frequency) (val SourceFreq))
          (udiv (usub (udiv (val Frequency) (val SourceFreq)) (val 1)) (val 2))
          (val 0))
       (if Frequency / SourceFreq =? 0 then 0
        else to_uint32 (Frequency / SourceFreq - 1) / 2).
Proof using Type.
  intros Hnz. apply pure_cond; [| apply pure_udiv; [apply pure_usub | |] |];
    try apply pure_udiv; auto with clk; lia.
Qed.

Let m : Z :=
  if Frequency / SourceFreq =? 0 then 0 else to_uint32 (Frequency / SourceFreq - 1) / 2.
Let configured : hw :=
  set_PLL Channel
    {| pllosc := pll_pllosc Source; pllmul := field (PM_PLL_pllmul Channel) m;
       plldiv := 0; pllen := C_true |} h.
Let written : list event :=
  [Write (PM_PLL_pllosc Channel) (pll_pllosc Source);
   Write (PM_PLL_pllmul Channel) m;
   Write (PM_PLL_plldiv Channel) 0;
   Write (PM_PLL_pllen Channel) C_true].

(** The four fields are written, then the lock bit is polled. *)
Lemma StartPLL_run :
  SourceFreq <> 0 ->
  0 <= AVR32_PM_POSCSR_LOCK0_OFFSET + Channel < 31 ->
  AVR32CLK_StartPLL Channel Source SourceFreq Frequency h =
  match poll (Z.shiftl 1 (AVR32_PM_POSCSR_LOCK0_OFFSET + Channel)) (poscsr (AVR32_PM h)) with
  | (t, Some rest) => Done true (set_poscsr rest configured) (written ++ t)
  | (t, None) => Spinning (set_poscsr [] configured) (written ++ t)
  end.
Proof using Hsrc Hp.
  intros Hnz Hbit. unfold AVR32CLK_StartPLL. rewrite bool_function_run, StartPLL_select.
  erewrite assign_seq;
    [| apply pure_multiplier, Hnz | eapply poke_PLL_pllmul, elem_set_PLL, Hp].
  rewrite set_PLL_set_PLL.
  erewrite assign_seq; [| apply pure_val | eapply poke_PLL_plldiv, elem_set_PLL, Hp].
  rewrite set_PLL_set_PLL.
  erewrite assign_seq; [| apply pure_val | eapply poke_PLL_pllen, elem_set_PLL, Hp].
  rewrite set_PLL_set_PLL.
  rewrite (while_seq _ _ _ _ (pure_shl_1 _ Hbit)).
  change (poscsr (AVR32_PM (set_PLL Channel _ h))) with (poscsr (AVR32_PM h)).
  flags.
  destruct (poll _ (poscsr (AVR32_PM h))) as [t [rest |]];
    cbn [after Return ret app]; rewrite ?app_nil_r; reflexivity.
Qed.

(** A lock offset that takes the shift out of the range of [int]. *)
Lemma StartPLL_run_shift :
  SourceFreq <> 0 ->
  ~ (0 <= AVR32_PM_POSCSR_LOCK0_OFFSET + Channel < 31) ->
  AVR32CLK_StartPLL Channel Source SourceFreq Frequency h =
  Undefined (ShiftOutOfRange (AVR32_PM_POSCSR_LOCK0_OFFSET + Channel)).
Proof using Hsrc Hp.
  intros Hnz Hbit. unfold AVR32CLK_StartPLL. rewrite bool_function_run, StartPLL_select.
  erewrite assign_seq;
    [| apply pure_multiplier, Hnz | eapply poke_PLL_pllmul, elem_set_PLL, Hp].
  rewrite set_PLL_set_PLL.
  erewrite assign_seq; [| apply pure_val | eapply poke_PLL_plldiv, elem_set_PLL, Hp].
  rewrite set_PLL_set_PLL.
  erewrite assign_seq; [| apply pure_val | eapply poke_PLL_pllen, elem_set_PLL, Hp].
  rewrite (while_seq_undefined _ _ _ _ (shl_1_undefined _ _ Hbit)). reflexivity.
Qed.

End StartPLL.

(** ** The external oscillator controller *)

Lemma mcctrl_or_seq {R : Type} (e : expr) (y : Z) (s : stmt R) (h : hw) :
  pure e y ->
  (mcctrl_or_assign e ;; s) h =
  after [Write PM_mcctrl (Z.lor (mcctrl (AVR32_PM h)) (to_uint32 y))]
    (s (with_PM (with_mcctrl (Z.lor (mcctrl (AVR32_PM h)) (to_uint32 y)) (AVR32_PM h)) h)).
Proof.
  intros He. unfold mcctrl_or_assign. apply assign_seq; [| reflexivity].
  unfold bind at 1, get_mcctrl. rewrite after_nil, (bind_pure e y) by assumption.
  reflexivity.
Qed.

Lemma mcctrl_and_run {R : Type} (e : expr) (y : Z) (h : hw) :
  pure e y ->
  mcctrl_and_assign (R := R) e h =
  Done Normal
    (with_PM (with_mcctrl (Z.land (mcctrl (AVR32_PM h)) (to_uint32 y)) (AVR32_PM h)) h)
    [Write PM_mcctrl (Z.land (mcctrl (AVR32_PM h)) (to_uint32 y))].
Proof.
  intros He. unfold mcctrl_and_assign. apply assign_run; [| reflexivity].
  unfold bind at 1, get_mcctrl. rewrite after_nil, (bind_pure e y) by assumption.
  reflexivity.
Qed.

Section ExternalOscillator.

Variables (Channel Type_ Startup : Z) (h : hw).

(** A channel that is neither 0 nor 1: the [default] case, no access. *)
Lemma StartExternalOscillator_body_invalid :
  Channel <> 0 -> Channel <> 1 ->
  AVR32CLK_StartExternalOscillator_body Channel Type_ Startup h =
  Done (Returned false) h [].
Proof using Type.
  intros H0 H1. unfold AVR32CLK_StartExternalOscillator_body, switch.
  apply Z.eqb_neq in H0, H1. rewrite H0, H1. reflexivity.
Qed.

Let enabled : hw :=
  with_PM
    (with_mcctrl
       (Z.lor (mcctrl (AVR32_PM h))
          (to_uint32 (Z.shiftl 1 (AVR32_PM_MCCTRL_OSC0EN_OFFSET + Channel))))
       (with_OSCCTRL Channel
          {| startup := field (PM_OSCCTRL_startup Channel) Startup;
             mode := field (PM_OSCCTRL_mode Channel) Type_ |} (AVR32_PM h))) h.
Let written : list event :=
  [Write (PM_OSCCTRL_startup Channel) Startup;
   Write (PM_OSCCTRL_mode Channel) Type_;
   Write PM_mcctrl (mcctrl (AVR32_PM enabled))].

(** Channel 0 or 1: startup and mode are written, the enable bit is set,
    then the ready bit is polled. *)
Lemma StartExternalOscillator_body_run :
  Channel = 0 \/ Channel = 1 ->
  0 <= AVR32_PM_MCCTRL_OSC0EN_OFFSET + Channel < 31 ->
  0 <= AVR32_PM_POSCSR_OSC0RDY_OFFSET + Channel < 31 ->
  AVR32CLK_StartExternalOscillator_body Channel Type_ Startup h =
  match poll (Z.shiftl 1 (AVR32_PM_POSCSR_OSC0RDY_OFFSET + Channel)) (poscsr (AVR32_PM h)) with
  | (t, Some rest) => Done (Returned true) (set_poscsr rest enabled) (written ++ t)
  | (t, None) => Spinning (set_poscsr [] enabled) (written ++ t)
  end.
Proof using Type.
  intros Hch Hen Hrdy. unfold AVR32CLK_StartExternalOscillator_body.
  subst enabled written.
  destruct Hch as [Hch | Hch]; rewrite Hch in *; simpl switch;
    rewrite seq_assoc;
    (erewrite assign_seq; [| apply pure_val | reflexivity]);
    (erewrite assign_seq; [| apply pure_val | reflexivity]);
    rewrite (mcctrl_or_seq _ _ _ _ (pure_shl_1 _ Hen));
    rewrite (while_seq _ _ _ _ (pure_shl_1 _ Hrdy));
    cbn [AVR32_PM with_PM poscsr with_mcctrl with_OSCCTRL0 with_OSCCTRL1];
    destruct (poll _ (poscsr (AVR32_PM h))) as [t [rest |]];
    cbn [after Return ret app]; rewrite ?app_nil_r; reflexivity.
Qed.

Lemma StopExternalOscillator_run :
  0 <= AVR32_PM_MCCTRL_OSC0EN_OFFSET + Channel < 31 ->
  AVR32CLK_StopExternalOscillator Channel h =
  Done tt
    (with_PM
       (with_mcctrl
          (Z.land (mcctrl (AVR32_PM h))
             (to_uint32 (Z.lnot (Z.shiftl 1 (AVR32_PM_MCCTRL_OSC0EN_OFFSET + Channel)))))
          (AVR32_PM h)) h)
    [Write PM_mcctrl
       (Z.land (mcctrl (AVR32_PM h))
          (to_uint32 (Z.lnot (Z.shiftl 1 (AVR32_PM_MCCTRL_OSC0EN_OFFSET + Channel)))))].
Proof using Type.
  intros Hen. unfold AVR32CLK_StopExternalOscillator.
  rewrite void_function_run.
  rewrite (mcctrl_and_run _ _ _ (pure_bnot _ _ (pure_shl_1 _ Hen))). reflexivity.
Qed.

End ExternalOscillator.

(** *** Bits of the main clock control word *)

Lemma testbit_set_bit (x n i : Z) :
  0 <= n < 31 ->
  Z.testbit (Z.lor x (to_uint32 (Z.shiftl 1 n))) i = Z.testbit x i || (i =? n).
Proof.
  intros Hn. rewrite Z.lor_spec. f_equal.
  unfold to_uint32. rewrite Z.shiftl_1_l, Z.mod_small.
  - rewrite Z.pow2_bits_eqb by lia. apply Z.eqb_sym.
  - split; [lia |]. apply Z.pow_lt_mono_r; lia.
Qed.

Lemma testbit_clear_bit (x n i : Z) :
  0 <= n < 31 -> 0 <= i < 32 ->
  Z.testbit (Z.land x (to_uint32 (Z.lnot (Z.shiftl 1 n)))) i =
  Z.testbit x i && negb (i =? n).
Proof.
  intros Hn Hi. rewrite Z.land_spec. f_equal.
  unfold to_uint32. rewrite Z.mod_pow2_bits_low by lia.
  rewrite Z.lnot_spec by lia. rewrite Z.shiftl_1_l, Z.pow2_bits_eqb by lia.
  rewrite Z.eqb_sym. reflexivity.
Qed.

(** The word stays a 32-bit value under the assignments of the driver. *)
Lemma uint32_land_ones (z : Z) : uint32 z <-> Z.land z (Z.ones 32) = z.
Proof.
  rewrite Z.land_ones by lia. unfold uint32. split.
  - apply Z.mod_small.
  - intros <-. apply Z.mod_pos_bound. lia.
Qed.

Lemma uint32_to_uint32 (z : Z) : uint32 (to_uint32 z).
Proof. apply Z.mod_pos_bound. lia. Qed.

Lemma uint32_lor (x y : Z) : uint32 x -> uint32 y -> uint32 (Z.lor x y).
Proof.
  rewrite !uint32_land_ones. intros Hx Hy.
  rewrite Z.land_lor_distr_l, Hx, Hy. reflexivity.
Qed.

Lemma uint32_land_r (x y : Z) : uint32 y -> uint32 (Z.land x y).
Proof.
  rewrite !uint32_land_ones. intros Hy.
  rewrite <- Z.land_assoc, Hy. reflexivity.
Qed.

Lemma uint32_land_l (x y : Z) : uint32 x -> uint32 (Z.land x y).
Proof. rewrite Z.land_comm. apply uint32_land_r. Qed.

Lemma uint32_set_bit (x n : Z) :
  uint32 x -> uint32 (Z.lor x (to_uint32 (Z.shiftl 1 n))).
Proof. intros Hx. apply uint32_lor; [exact Hx | apply uint32_to_uint32]. Qed.

Lemma uint32_clear_bit (x n : Z) :
  uint32 (Z.land x (to_uint32 (Z.lnot (Z.shiftl 1 n)))).
Proof. apply uint32_land_r, uint32_to_uint32. Qed.

(** *** The bit-field view of the main clock control word *)

Lemma testbit_extract_bits (off size x i : Z) :
  0 <= off -> 0 <= size -> 0 <= i ->
  Z.testbit (extract_bits off size x) i = Z.testbit x (i + off) && (i <? size).
Proof.
  intros Hoff Hsize Hi. unfold extract_bits.
  rewrite Z.land_spec, Z.shiftr_spec, Z.testbit_ones_nonneg by assumption.
  reflexivity.
Qed.

Lemma testbit_deposit_bits (off size v x i : Z) :
  0 <= off -> 0 <= size -> 0 <= i ->
  Z.testbit (deposit_bits off size v x) i =
  if (off <=? i) && (i <? off + size) then Z.testbit v (i - off) else Z.testbit x i.
Proof.
  intros Hoff Hsize Hi. unfold deposit_bits.
  rewrite Z.lor_spec, Z.land_spec, Z.lnot_spec, !Z.shiftl_spec by assumption.
  rewrite Z.land_spec, !Z.testbit_ones by assumption.
  destruct (Z.leb_spec off i) as [Hle | Hlt]; simpl.
  - destruct (Z.leb_spec 0 (i - off)); [| lia]. simpl.
    destruct (Z.ltb_spec i (off + size)), (Z.ltb_spec (i - off) size); try lia; simpl.
    + rewrite andb_false_r, andb_true_r. reflexivity.
    + rewrite andb_true_r, andb_false_r, orb_false_r. reflexivity.
  - destruct (Z.leb_spec 0 (i - off)); [lia |]. simpl.
    rewrite andb_true_r, andb_false_r, orb_false_r. reflexivity.
Qed.

(** The field reads back what was assigned to it, modulo its width. *)
Lemma extract_deposit_bits (off size v x : Z) :
  0 <= off -> 0 <= size ->
  extract_bits off size (deposit_bits off size v x) = v mod 2 ^ size.
Proof.
  intros Hoff Hsize. apply Z.bits_inj'. intros i Hi.
  rewrite testbit_extract_bits, testbit_deposit_bits, Z.testbit_mod_pow2 by lia.
  replace (i + off - off) with i by lia.
  destruct (Z.ltb_spec i size).
  - destruct (Z.leb_spec off (i + off)), (Z.ltb_spec (i + off) (off + size)); try lia.
    simpl. rewrite andb_true_r. reflexivity.
  - rewrite andb_false_r. reflexivity.
Qed.

(** Setting a bit outside the field does not change what the field reads. *)
Lemma extract_bits_set_bit (off size x n : Z) :
  0 <= off -> 0 <= size -> 0 <= n < 31 -> n < off \/ off + size <= n ->
  extract_bits off size (Z.lor x (to_uint32 (Z.shiftl 1 n))) = extract_bits off size x.
Proof.
  intros Hoff Hsize Hn Hout. apply Z.bits_inj'. intros i Hi.
  rewrite !testbit_extract_bits by assumption.
  destruct (Z.ltb_spec i size); [| rewrite !andb_false_r; reflexivity].
  rewrite testbit_set_bit by assumption.
  destruct (Z.eqb_spec (i + off) n); [lia |]. rewrite orb_false_r. reflexivity.
Qed.

Lemma uint32_deposit_bits (off size v x : Z) :
  0 <= off -> 0 <= size -> off + size <= 32 -> uint32 x ->
  uint32 (deposit_bits off size v x).
Proof.
  intros Hoff Hsize Hfit Hx. unfold deposit_bits.
  apply uint32_lor; [apply uint32_land_l, Hx |].
  rewrite Z.land_ones, Z.shiftl_mul_pow2 by assumption.
  pose proof (Z.mod_pos_bound v (2 ^ size) ltac:(apply Z.pow_pos_nonneg; lia)) as Hv.
  assert (Hp : 0 < 2 ^ off) by (apply Z.pow_pos_nonneg; lia).
  assert (Hle : 2 ^ (size + off) <= 2 ^ 32) by (apply Z.pow_le_mono_r; lia).
  rewrite Z.pow_add_r in Hle by assumption.
  unfold uint32. nia.
Qed.

(** An assignment through the view keeps the word a 32-bit value. *)
Lemma with_MCCTRL_uint32 (v : avr32_pm_mcctrl_t) (p : avr32_pm_t) :
  mcsel_ok io -> uint32 (mcctrl p) -> uint32 (mcctrl (with_MCCTRL v p)).
Proof.
  intros (Hoff & Hfit & _) Hp. unfold with_MCCTRL. cbn [mcctrl with_mcctrl].
  apply uint32_deposit_bits; [assumption | lia | assumption | assumption].
Qed.

Lemma MCCTRL_ext (p q : avr32_pm_t) : mcctrl p = mcctrl q -> MCCTRL p = MCCTRL q.
Proof. intros Hpq. unfold MCCTRL. rewrite Hpq. reflexivity. Qed.

Lemma MCCTRL_set_enable (Channel : Z) (p : avr32_pm_t) :
  bit_pair_ok AVR32_PM_MCCTRL_OSC0EN_OFFSET -> mcsel_ok io ->
  Channel = 0 \/ Channel = 1 ->
  MCCTRL (with_mcctrl
            (Z.lor (mcctrl p)
               (to_uint32 (Z.shiftl 1 (AVR32_PM_MCCTRL_OSC0EN_OFFSET + Channel)))) p) =
  MCCTRL p.
Proof.
  intros Hen (Hoff & _ & Hapart) Hch. unfold bit_pair_ok in Hen.
  unfold MCCTRL. cbn [mcctrl with_mcctrl]. f_equal.
  apply extract_bits_set_bit; lia.
Qed.

End Laws.

(** * The properties stated by the specification *)

(** ** PLL controller *)

(** C1. For a valid PLL source and frequencies with [0 < SourceFreq],
    [AVR32CLK_StartPLL] writes to [PLL[Channel].pllmul] the value
    [((Frequency / SourceFreq) - 1) / 2], in truncating unsigned division,
    when [SourceFreq <= Frequency], and the value 0 when
    [Frequency < SourceFreq]. The value written is the one assigned: the
    bit-field keeps it modulo two to its width, that is unchanged when it is
    below that power. *)
Theorem StartPLL_multiplier {io : avr32_io}
    (Channel Source SourceFreq Frequency : Z) (h : hw) (p : avr32_pm_pll_t) :
  io_ok io ->
  Channel = 0 \/ Channel = 1 ->
  elem (PLL (AVR32_PM h)) Channel = Some p ->
  is_pll_source Source ->
  uint32 SourceFreq -> uint32 Frequency -> 0 < SourceFreq ->
  exists (m : Z) (h' : hw) (t : list event),
    reached (AVR32CLK_StartPLL Channel Source SourceFreq Frequency h) = Some (h', t) /\
    writes_of t =
      [Write (PM_PLL_pllosc Channel) (pll_pllosc Source);
       Write (PM_PLL_pllmul Channel) m;
       Write (PM_PLL_plldiv Channel) 0;
       Write (PM_PLL_pllen Channel) C_true] /\
    elem (PLL (AVR32_PM h')) Channel =
      Some {| pllosc := pll_pllosc Source;
              pllmul := m mod 2 ^ Z.pos (bitfield_size (PM_PLL_pllmul Channel));
              plldiv := 0; pllen := C_true |} /\
    (SourceFreq <= Frequency -> m = (Frequency / SourceFreq - 1) / 2) /\
    (Frequency < SourceFreq -> m = 0) /\
    (m < 2 ^ Z.pos (bitfield_size (PM_PLL_pllmul Channel)) ->
     elem (PLL (AVR32_PM h')) Channel =
       Some {| pllosc := pll_pllosc Source; pllmul := m; plldiv := 0; pllen := C_true |}).
Proof.
  intros (_ & _ & Hlock) Hch Hp Hsrc HS HF Hpos.
  assert (Hbit : 0 <= AVR32_PM_POSCSR_LOCK0_OFFSET + Channel < 31)
    by (unfold bit_pair_ok in Hlock; lia).
  unfold uint32 in HS, HF.
  exists (if Frequency / SourceFreq =? 0 then 0
          else to_uint32 (Frequency / SourceFreq - 1) / 2).
  rewrite (StartPLL_run _ _ _ _ _ Hsrc p Hp) by (assumption || lia).
  pose proof (writes_of_app_reads
    [Write (PM_PLL_pllosc Channel) (pll_pllosc Source);
     Write (PM_PLL_pllmul Channel)
       (if Frequency / SourceFreq =? 0 then 0
        else to_uint32 (Frequency / SourceFreq - 1) / 2);
     Write (PM_PLL_plldiv Channel) 0;
     Write (PM_PLL_pllen Channel) C_true]
    (Z.shiftl 1 (AVR32_PM_POSCSR_LOCK0_OFFSET + Channel))
    (poscsr (AVR32_PM h)) eq_refl) as Hw.
  assert (Hq0 : 0 <= Frequency / SourceFreq) by (apply Z.div_pos; lia).
  assert (Hq1 : Frequency / SourceFreq <= Frequency).
  { rewrite <- (Z.div_1_r Frequency) at 2. apply Z.div_le_compat_l; lia. }
  assert (Hm1 : SourceFreq <= Frequency ->
                (if Frequency / SourceFreq =? 0 then 0
                 else to_uint32 (Frequency / SourceFreq - 1) / 2) =
                (Frequency / SourceFreq - 1) / 2).
  { intros Hle.
    assert (1 <= Frequency / SourceFreq) by (apply Z.div_le_lower_bound; lia).
    destruct (Z.eqb_spec (Frequency / SourceFreq) 0); [lia |].
    unfold to_uint32. rewrite Z.mod_small by lia. reflexivity. }
  assert (Hm0 : Frequency < SourceFreq ->
                (if Frequency / SourceFreq =? 0 then 0
                 else to_uint32 (Frequency / SourceFreq - 1) / 2) = 0).
  { intros Hlt. rewrite Z.div_small by lia. reflexivity. }
  assert (Hnn : 0 <= (if Frequency / SourceFreq =? 0 then 0
                      else to_uint32 (Frequency / SourceFreq - 1) / 2)).
  { destruct (Frequency / SourceFreq =? 0); [lia |].
    apply Z.div_pos; [| lia]. apply Z.mod_pos_bound. lia. }
  destruct (poll _ (poscsr (AVR32_PM h))) as [t [rest |]]; simpl fst in Hw;
    eexists _, _; (split; [reflexivity |]); (split; [exact Hw |]);
    (split; [apply (elem_set_PLL _ _ p Hp) |]);
    (split; [assumption |]); (split; [assumption |]);
    intros Hfit;
    rewrite <- (Z.mod_small _ _ (conj Hnn Hfit)) at 2;
    apply (elem_set_PLL _ _ p Hp).
Qed.

Lemma StartPLL_multiplier_witness :
  io_ok uc3_io /\
  elem (PLL (AVR32_PM (reset_hw [0; 1]))) 0 =
    Some {| pllosc := 0; pllmul := 0; plldiv := 0; pllen := 0 |} /\
  uint32 12000000 /\ uint32 48000000 /\
  exists (m : Z) (h' : hw) (t : list event),
    reached (AVR32CLK_StartPLL (io := uc3_io) 0 CLOCK_SRC_OSC0 12000000 48000000
               (reset_hw [0; 1])) = Some (h', t) /\
    writes_of t =
      [Write (PM_PLL_pllosc 0) (pll_pllosc CLOCK_SRC_OSC0);
       Write (PM_PLL_pllmul 0) m;
       Write (PM_PLL_plldiv 0) 0;
       Write (PM_PLL_pllen 0) C_true] /\
    elem (PLL (AVR32_PM h')) 0 =
      Some {| pllosc := pll_pllosc CLOCK_SRC_OSC0;
              pllmul := m mod 2 ^ Z.pos (bitfield_size (avr32_io := uc3_io) (PM_PLL_pllmul 0));
              plldiv := 0; pllen := C_true |} /\
    (12000000 <= 48000000 -> m = (48000000 / 12000000 - 1) / 2) /\
    (48000000 < 12000000 -> m = 0) /\
    (m < 2 ^ Z.pos (bitfield_size (avr32_io := uc3_io) (PM_PLL_pllmul 0)) ->
     elem (PLL (AVR32_PM h')) 0 =
       Some {| pllosc := pll_pllosc CLOCK_SRC_OSC0; pllmul := m; plldiv := 0;
               pllen := C_true |}).
Proof.
  assert (Hio : io_ok uc3_io) by (unfold io_ok, bit_pair_ok; simpl; lia).
  assert (Hs : uint32 12000000) by (unfold uint32; lia).
  assert (Hf : uint32 48000000) by (unfold uint32; lia).
  split; [exact Hio |]. split; [reflexivity |]. split; [exact Hs |]. split; [exact Hf |].
  apply (StartPLL_multiplier (io := uc3_io) 0 CLOCK_SRC_OSC0 12000000 48000000
           (reset_hw [0; 1]) {| pllosc := 0; pllmul := 0; plldiv := 0; pllen := 0 |});
    [exact Hio | left; reflexivity | reflexivity | left; reflexivity
    | exact Hs | exact Hf | reflexivity].
Defined.

(** The call of the usage example, with a status register that reads 0 and
    then shows LOCK1: the multiplier written is 1. *)
Example StartPLL_12MHz_to_48MHz :
  AVR32CLK_StartPLL (io := uc3_io) 1 CLOCK_SRC_OSC0 12000000 48000000 (reset_hw [0; 2; 0]) =
  Done true
    (set_poscsr [0]
       (set_PLL 1 {| pllosc := 0; pllmul := 1; plldiv := 0; pllen := 1 |} (reset_hw [])))
    [Write (PM_PLL_pllosc 1) 0; Write (PM_PLL_pllmul 1) 1;
     Write (PM_PLL_plldiv 1) 0; Write (PM_PLL_pllen 1) 1;
     ReadPoscsr 0; ReadPoscsr 2].
Proof. vm_compute. reflexivity. Qed.

(** With a lock bit that is eventually observed, [AVR32CLK_StartPLL]
    returns [true]; with one that never is, it keeps polling. *)
Lemma StartPLL_returns {io : avr32_io}
    (Channel Source SourceFreq Frequency : Z) (h : hw) (p : avr32_pm_pll_t) :
  0 <= AVR32_PM_POSCSR_LOCK0_OFFSET + Channel < 31 ->
  elem (PLL (AVR32_PM h)) Channel = Some p ->
  is_pll_source Source -> SourceFreq <> 0 ->
  Exists (bit_set (AVR32_PM_POSCSR_LOCK0_OFFSET + Channel)) (poscsr (AVR32_PM h)) ->
  exists h' t, AVR32CLK_StartPLL Channel Source SourceFreq Frequency h = Done true h' t.
Proof.
  intros Hbit Hp Hsrc Hnz Hex.
  rewrite (StartPLL_run _ _ _ _ _ Hsrc p Hp) by assumption.
  destruct (poll_terminates _ _ Hex) as (t & rest & ->). eauto.
Qed.

Lemma StartPLL_hangs {io : avr32_io}
    (Channel Source SourceFreq Frequency : Z) (h : hw) (p : avr32_pm_pll_t) :
  0 <= AVR32_PM_POSCSR_LOCK0_OFFSET + Channel < 31 ->
  elem (PLL (AVR32_PM h)) Channel = Some p ->
  is_pll_source Source -> SourceFreq <> 0 ->
  Forall (fun v => ~ bit_set (AVR32_PM_POSCSR_LOCK0_OFFSET + Channel) v) (poscsr (AVR32_PM h)) ->
  exists h' t, AVR32CLK_StartPLL Channel Source SourceFreq Frequency h = Spinning h' t.
Proof.
  intros Hbit Hp Hsrc Hnz Hall.
  rewrite (StartPLL_run _ _ _ _ _ Hsrc p Hp) by assumption.
  rewrite poll_never; [eauto |].
  eapply List.Forall_impl; [| exact Hall]. unfold bit_set. simpl. intros v Hv.
  destruct (Z.eq_dec (Z.land v (to_uint32 (Z.shiftl 1 (AVR32_PM_POSCSR_LOCK0_OFFSET + Channel)))) 0);
    [assumption | contradiction].
Qed.

(** C10. [AVR32CLK_StartPLL] does not validate [Channel]: with a valid
    source no call ends in the failure result, whatever the channel; for
    [Channel] 0 or 1 the fields [pllosc], [pllmul], [plldiv] and [pllen] of
    [PLL[Channel]] are written and nothing else is; for any other [Channel]
    the access to [PLL[Channel]] falls outside the two-element array. *)
Theorem StartPLL_channel_unchecked {io : avr32_io}
    (Channel Source SourceFreq Frequency : Z) (h : hw) :
  is_pll_source Source ->
  length (PLL (AVR32_PM h)) = 2%nat ->
  (forall h' t,
     AVR32CLK_StartPLL Channel Source SourceFreq Frequency h <> Done false h' t) /\
  (Channel = 0 \/ Channel = 1 -> io_ok io -> SourceFreq <> 0 ->
   exists (m : Z) (h' : hw) (t : list event),
     reached (AVR32CLK_StartPLL Channel Source SourceFreq Frequency h) = Some (h', t) /\
     writes_of t =
       [Write (PM_PLL_pllosc Channel) (pll_pllosc Source);
        Write (PM_PLL_pllmul Channel) m;
        Write (PM_PLL_plldiv Channel) 0;
        Write (PM_PLL_pllen Channel) C_true] /\
     same_outside_PLL Channel h h') /\
  (~ (Channel = 0 \/ Channel = 1) ->
   AVR32CLK_StartPLL Channel Source SourceFreq Frequency h =
   Undefined (OutOfBounds (PM_PLL_pllosc Channel))).
Proof.
  intros Hsrc Hlen. split; [| split].
  - intros h' t.
    destruct (elem (PLL (AVR32_PM h)) Channel) as [p |] eqn:Hp.
    + destruct (Z.eq_dec SourceFreq 0) as [Hz | Hnz].
      * rewrite (StartPLL_run_zero _ _ _ _ _ Hsrc p Hp Hz). discriminate.
      * destruct (decide (0 <= AVR32_PM_POSCSR_LOCK0_OFFSET + Channel < 31)) as [Hbit | Hbit].
        -- rewrite (StartPLL_run _ _ _ _ _ Hsrc p Hp Hnz Hbit).
           destruct (poll _ _) as [t' [rest |]]; discriminate.
        -- rewrite (StartPLL_run_shift _ _ _ _ _ Hsrc p Hp Hnz Hbit). discriminate.
    + rewrite (StartPLL_outside _ _ _ _ _ Hsrc Hp). discriminate.
  - intros Hch (_ & _ & Hlock) Hnz.
    assert (Hbit : 0 <= AVR32_PM_POSCSR_LOCK0_OFFSET + Channel < 31)
      by (unfold bit_pair_ok in Hlock; lia).
    destruct (elem (PLL (AVR32_PM h)) Channel) as [p |] eqn:Hp.
    + rewrite (StartPLL_run _ _ _ _ _ Hsrc p Hp Hnz Hbit).
      eexists.
      pose proof (writes_of_app_reads
        [Write (PM_PLL_pllosc Channel) (pll_pllosc Source);
         Write (PM_PLL_pllmul Channel)
           (if Frequency / SourceFreq =? 0 then 0
            else to_uint32 (Frequency / SourceFreq - 1) / 2);
         Write (PM_PLL_plldiv Channel) 0;
         Write (PM_PLL_pllen Channel) C_true]
        (Z.shiftl 1 (AVR32_PM_POSCSR_LOCK0_OFFSET + Channel))
        (poscsr (AVR32_PM h)) eq_refl) as Hw.
      destruct (poll _ (poscsr (AVR32_PM h))) as [t [rest |]]; simpl fst in Hw;
        eexists _, _; (split; [reflexivity |]); (split; [exact Hw |]);
        apply (same_outside_set_PLL _ _ p Hp).
    + exfalso. revert Hp. unfold elem.
      destruct Hch as [-> | ->]; simpl;
        destruct (PLL (AVR32_PM h)) as [| p0 [| p1 l]]; discriminate.
  - intros Hch. apply StartPLL_outside; [assumption |].
    apply elem_outside. rewrite Hlen. lia.
Qed.

Lemma StartPLL_channel_unchecked_witness :
  is_pll_source CLOCK_SRC_OSC1 /\
  length (PLL (AVR32_PM (reset_hw []))) = 2%nat /\
  ~ (2 = 0 \/ 2 = 1) /\
  AVR32CLK_StartPLL (io := uc3_io) 2 CLOCK_SRC_OSC1 12000000 48000000 (reset_hw []) =
  Undefined (OutOfBounds (PM_PLL_pllosc 2)).
Proof.
  assert (Hsrc : is_pll_source CLOCK_SRC_OSC1) by (right; reflexivity).
  assert (Hch : ~ (2 = 0 \/ 2 = 1)) by lia.
  split; [exact Hsrc |]. split; [reflexivity |]. split; [exact Hch |].
  exact (proj2 (proj2 (StartPLL_channel_unchecked (io := uc3_io) 2 CLOCK_SRC_OSC1
                         12000000 48000000 (reset_hw []) Hsrc eq_refl)) Hch).
Defined.

(** ** Generic clock controller *)

(** C2, as the code has it. With a valid source and [SourceFreq < Frequency],
    [AVR32CLK_StartGenericClock] returns [false] and leaves the divider and
    enable fields of the channel and every other register as they were; the
    selector fields [pllsel] and [oscsel] of the channel have been written
    for the source before the frequencies are compared. *)
Theorem StartGenericClock_target_above_source {io : avr32_io}
    (Channel Source SourceFreq Frequency : Z) (h : hw) (g : avr32_pm_gcctrl_t) :
  is_gclk_source Source ->
  elem (GCCTRL (AVR32_PM h)) Channel = Some g ->
  SourceFreq < Frequency ->
  exists h' : hw,
    AVR32CLK_StartGenericClock Channel Source SourceFreq Frequency h =
      Done false h'
        [Write (PM_GCCTRL_pllsel Channel) (gclk_pllsel Source);
         Write (PM_GCCTRL_oscsel Channel) (gclk_oscsel Source)] /\
    elem (GCCTRL (AVR32_PM h')) Channel =
      Some {| pllsel := gclk_pllsel Source; oscsel := gclk_oscsel Source;
              diven := diven g; div := div g; cen := cen g |} /\
    same_outside_GCCTRL Channel h h'.
Proof.
  intros Hsrc Hg Hlt. eexists. split; [| split].
  - apply (StartGenericClock_run_above _ _ _ _ _ g Hsrc Hg Hlt).
  - apply (elem_set_GCCTRL _ _ g Hg).
  - apply (same_outside_set_GCCTRL _ _ g Hg).
Qed.

Lemma StartGenericClock_target_above_source_witness :
  is_gclk_source CLOCK_SRC_PLL0 /\
  12000000 < 48000000 /\
  exists h' : hw,
    AVR32CLK_StartGenericClock (io := uc3_io) 0 CLOCK_SRC_PLL0 12000000 48000000 (reset_hw []) =
      Done false h'
        [Write (PM_GCCTRL_pllsel 0) (gclk_pllsel CLOCK_SRC_PLL0);
         Write (PM_GCCTRL_oscsel 0) (gclk_oscsel CLOCK_SRC_PLL0)] /\
    elem (GCCTRL (AVR32_PM h')) 0 =
      Some {| pllsel := gclk_pllsel CLOCK_SRC_PLL0; oscsel := gclk_oscsel CLOCK_SRC_PLL0;
              diven := 0; div := 0; cen := 0 |} /\
    same_outside_GCCTRL 0 (reset_hw []) h'.
Proof.
  assert (Hsrc : is_gclk_source CLOCK_SRC_PLL0) by (right; right; left; reflexivity).
  assert (Hlt : 12000000 < 48000000) by lia.
  split; [exact Hsrc |]. split; [exact Hlt |].
  exact (StartGenericClock_target_above_source (io := uc3_io) 0 CLOCK_SRC_PLL0 12000000 48000000
           (reset_hw []) {| pllsel := 0; oscsel := 0; diven := 0; div := 0; cen := 0 |}
           Hsrc eq_refl Hlt).
Defined.

(** C2, as stated, fails: on the cleared state, channel 0 with source PLL0
    at 12 MHz and a target of 48 MHz, the call returns [false] after two
    register writes, and [GCCTRL[0].pllsel] has changed from 0 to 1. *)
Lemma StartGenericClock_target_above_source_writes :
  12000000 < 48000000 /\
  AVR32CLK_StartGenericClock (io := uc3_io) 0 CLOCK_SRC_PLL0 12000000 48000000 (reset_hw []) =
    Done false
      (set_GCCTRL 0 {| pllsel := 1; oscsel := 0; diven := 0; div := 0; cen := 0 |}
         (reset_hw []))
      [Write (PM_GCCTRL_pllsel 0) 1; Write (PM_GCCTRL_oscsel 0) 0] /\
  ~ (exists h' t,
       AVR32CLK_StartGenericClock (io := uc3_io) 0 CLOCK_SRC_PLL0 12000000 48000000 (reset_hw []) =
         Done false h' t /\
       writes_of t = [] /\
       (pllsel <$> elem (GCCTRL (AVR32_PM h')) 0) =
       (pllsel <$> elem (GCCTRL (AVR32_PM (reset_hw []))) 0)).
Proof.
  split; [lia |]. split; [vm_compute; reflexivity |].
  intros (h' & t & Hrun & Hw & _). vm_compute in Hrun.
  injection Hrun as _ <-. discriminate Hw.
Qed.

(** C7, as the code has it. With a valid source and
    [SourceFreq = Frequency], both positive, [AVR32CLK_StartGenericClock]
    returns [true], writes [diven] false and [div] zero, and enables the
    channel. *)
Theorem StartGenericClock_equal_frequencies {io : avr32_io}
    (Channel Source SourceFreq Frequency : Z) (h : hw) (g : avr32_pm_gcctrl_t) :
  is_gclk_source Source ->
  elem (GCCTRL (AVR32_PM h)) Channel = Some g ->
  SourceFreq = Frequency ->
  0 < Frequency ->
  exists h' : hw,
    AVR32CLK_StartGenericClock Channel Source SourceFreq Frequency h =
      Done true h'
        [Write (PM_GCCTRL_pllsel Channel) (gclk_pllsel Source);
         Write (PM_GCCTRL_oscsel Channel) (gclk_oscsel Source);
         Write (PM_GCCTRL_diven Channel) C_false;
         Write (PM_GCCTRL_div Channel) 0;
         Write (PM_GCCTRL_cen Channel) C_true] /\
    elem (GCCTRL (AVR32_PM h')) Channel =
      Some {| pllsel := gclk_pllsel Source; oscsel := gclk_oscsel Source;
              diven := C_false; div := 0; cen := C_true |} /\
    same_outside_GCCTRL Channel h h'.
Proof.
  intros Hsrc Hg -> Hpos.
  rewrite (StartGenericClock_run_started _ _ _ _ _ g Hsrc Hg Hpos (Z.le_refl _)).
  rewrite Z.ltb_irrefl, Z.div_same by lia. change (to_uint32 (1 - 1) / 2) with 0.
  eexists. split; [reflexivity | split].
  - apply (elem_set_GCCTRL _ _ g Hg).
  - apply (same_outside_set_GCCTRL _ _ g Hg).
Qed.

Lemma StartGenericClock_equal_frequencies_witness :
  is_gclk_source CLOCK_SRC_OSC0 /\
  0 < 12000000 /\
  exists h' : hw,
    AVR32CLK_StartGenericClock (io := uc3_io) 3 CLOCK_SRC_OSC0 12000000 12000000 (reset_hw []) =
      Done true h'
        [Write (PM_GCCTRL_pllsel 3) (gclk_pllsel CLOCK_SRC_OSC0);
         Write (PM_GCCTRL_oscsel 3) (gclk_oscsel CLOCK_SRC_OSC0);
         Write (PM_GCCTRL_diven 3) C_false;
         Write (PM_GCCTRL_div 3) 0;
         Write (PM_GCCTRL_cen 3) C_true] /\
    elem (GCCTRL (AVR32_PM h')) 3 =
      Some {| pllsel := gclk_pllsel CLOCK_SRC_OSC0; oscsel := gclk_oscsel CLOCK_SRC_OSC0;
              diven := C_false; div := 0; cen := C_true |} /\
    same_outside_GCCTRL 3 (reset_hw []) h'.
Proof.
  assert (Hsrc : is_gclk_source CLOCK_SRC_OSC0) by (left; reflexivity).
  assert (Hpos : 0 < 12000000) by lia.
  split; [exact Hsrc |]. split; [exact Hpos |].
  exact (StartGenericClock_equal_frequencies (io := uc3_io) 3 CLOCK_SRC_OSC0 12000000 12000000
           (reset_hw []) {| pllsel := 0; oscsel := 0; diven := 0; div := 0; cen := 0 |}
           Hsrc eq_refl eq_refl Hpos).
Defined.

(** C7, as stated, fails: with both frequencies 0 the call does not
    succeed, it divides by zero. *)
Lemma StartGenericClock_equal_zero_frequencies :
  AVR32CLK_StartGenericClock (io := uc3_io) 0 CLOCK_SRC_OSC0 0 0 (reset_hw []) =
    Undefined DivisionByZero /\
  ~ (exists h' t,
       AVR32CLK_StartGenericClock (io := uc3_io) 0 CLOCK_SRC_OSC0 0 0 (reset_hw []) = Done true h' t).
Proof.
  split; [vm_compute; reflexivity |].
  intros (h' & t & Hrun). vm_compute in Hrun. discriminate Hrun.
Qed.

(** C9. The frequency check of [AVR32CLK_StartGenericClock] lets a target
    of zero through: with a valid source the call then divides by zero, and
    it is with a positive target that it does not. *)
Theorem StartGenericClock_zero_target_unchecked {io : avr32_io}
    (Channel Source SourceFreq Frequency : Z) (h : hw) (g : avr32_pm_gcctrl_t) :
  is_gclk_source Source ->
  elem (GCCTRL (AVR32_PM h)) Channel = Some g ->
  uint32 SourceFreq -> uint32 Frequency ->
  (Frequency = 0 ->
   AVR32CLK_StartGenericClock Channel Source SourceFreq Frequency h =
   Undefined DivisionByZero) /\
  (0 < Frequency ->
   AVR32CLK_StartGenericClock Channel Source SourceFreq Frequency h <>
   Undefined DivisionByZero).
Proof.
  intros Hsrc Hg [HS _] [HF _]. split.
  - intros Hz. apply (StartGenericClock_run_zero _ _ _ _ _ g Hsrc Hg HS Hz).
  - intros Hpos. destruct (Z.lt_ge_cases SourceFreq Frequency) as [Hlt | Hge].
    + rewrite (StartGenericClock_run_above _ _ _ _ _ g Hsrc Hg Hlt). discriminate.
    + rewrite (StartGenericClock_run_started _ _ _ _ _ g Hsrc Hg Hpos Hge). discriminate.
Qed.

Lemma StartGenericClock_zero_target_unchecked_witness :
  is_gclk_source CLOCK_SRC_PLL1 /\ uint32 48000000 /\ uint32 0 /\
  AVR32CLK_StartGenericClock (io := uc3_io) 5 CLOCK_SRC_PLL1 48000000 0 (reset_hw []) =
  Undefined DivisionByZero.
Proof.
  assert (Hsrc : is_gclk_source CLOCK_SRC_PLL1) by (right; right; right; reflexivity).
  assert (HS : uint32 48000000) by (unfold uint32; lia).
  assert (HF : uint32 0) by (unfold uint32; lia).
  split; [exact Hsrc |]. split; [exact HS |]. split; [exact HF |].
  exact (proj1 (StartGenericClock_zero_target_unchecked (io := uc3_io) 5 CLOCK_SRC_PLL1 48000000 0
                  (reset_hw []) {| pllsel := 0; oscsel := 0; diven := 0; div := 0; cen := 0 |}
                  Hsrc eq_refl HS HF) eq_refl).
Defined.

(** C8. [AVR32CLK_StopGenericClock] makes one write, which clears
    [GCCTRL[Channel].cen]: the fields [pllsel], [oscsel], [diven] and [div]
    of the channel, the other channels and every other register keep their
    values. *)
Theorem StopGenericClock_clears_enable_only {io : avr32_io}
    (Channel : Z) (h : hw) (g : avr32_pm_gcctrl_t) :
  elem (GCCTRL (AVR32_PM h)) Channel = Some g ->
  exists h' : hw,
    AVR32CLK_StopGenericClock Channel h =
      Done tt h' [Write (PM_GCCTRL_cen Channel) C_false] /\
    elem (GCCTRL (AVR32_PM h')) Channel =
      Some {| pllsel := pllsel g; oscsel := oscsel g;
              diven := diven g; div := div g; cen := C_false |} /\
    same_outside_GCCTRL Channel h h'.
Proof.
  intros Hg. unfold AVR32CLK_StopGenericClock. rewrite void_function_run.
  erewrite assign_run; [| apply pure_val | apply poke_GCCTRL_cen, Hg].
  eexists. split; [reflexivity | split].
  - apply (elem_set_GCCTRL _ _ g Hg).
  - apply (same_outside_set_GCCTRL _ _ g Hg).
Qed.

Lemma StopGenericClock_clears_enable_only_witness :
  exists h' : hw,
    AVR32CLK_StopGenericClock (io := uc3_io) 4
      (set_GCCTRL 4 {| pllsel := 1; oscsel := 0; diven := 1; div := 3; cen := 1 |}
         (reset_hw [])) =
      Done tt h' [Write (PM_GCCTRL_cen 4) C_false] /\
    elem (GCCTRL (AVR32_PM h')) 4 =
      Some {| pllsel := 1; oscsel := 0; diven := 1; div := 3; cen := C_false |} /\
    same_outside_GCCTRL 4
      (set_GCCTRL 4 {| pllsel := 1; oscsel := 0; diven := 1; div := 3; cen := 1 |}
         (reset_hw [])) h'.
Proof.
  exact (StopGenericClock_clears_enable_only (io := uc3_io) 4
           (set_GCCTRL 4 {| pllsel := 1; oscsel := 0; diven := 1; div := 3; cen := 1 |}
              (reset_hw []))
           {| pllsel := 1; oscsel := 0; diven := 1; div := 3; cen := 1 |} eq_refl).
Defined.

(** ** External oscillator controller *)

(** C3, on the code. For a channel other than 0 and 1 the body of
    [AVR32CLK_StartExternalOscillator] reaches [return false] without any
    register access; the function being declared [void], its caller receives
    no value. For channel 0 or 1 the writes are the supplied startup and mode
    values, to that channel's control register, whose fields keep them
    modulo two to their widths (unchanged when they fit), and the word
    [mcctrl] with the channel's enable bit set and its other bits kept, so
    that the selector [MCCTRL.mcsel], which lies apart from the enable bits,
    reads as before; the function returns once the channel's ready bit is
    observed. *)
Theorem StartExternalOscillator_channels {io : avr32_io}
    (Channel Type_ Startup : Z) (h : hw) :
  (Channel <> 0 -> Channel <> 1 ->
   AVR32CLK_StartExternalOscillator_body Channel Type_ Startup h =
     Done (Returned false) h [] /\
   AVR32CLK_StartExternalOscillator Channel Type_ Startup h = Done tt h []) /\
  (Channel = 0 \/ Channel = 1 -> io_ok io ->
   exists (h' : hw) (t : list event),
     reached (AVR32CLK_StartExternalOscillator Channel Type_ Startup h) = Some (h', t) /\
     writes_of t =
       [Write (PM_OSCCTRL_startup Channel) Startup;
        Write (PM_OSCCTRL_mode Channel) Type_;
        Write PM_mcctrl (mcctrl (AVR32_PM h'))] /\
     OSCCTRL Channel (AVR32_PM h') =
       {| startup := Startup mod 2 ^ Z.pos (bitfield_size (PM_OSCCTRL_startup Channel));
          mode := Type_ mod 2 ^ Z.pos (bitfield_size (PM_OSCCTRL_mode Channel)) |} /\
     (0 <= Startup < 2 ^ Z.pos (bitfield_size (PM_OSCCTRL_startup Channel)) ->
      0 <= Type_ < 2 ^ Z.pos (bitfield_size (PM_OSCCTRL_mode Channel)) ->
      OSCCTRL Channel (AVR32_PM h') = {| startup := Startup; mode := Type_ |}) /\
     OSCCTRL (1 - Channel) (AVR32_PM h') = OSCCTRL (1 - Channel) (AVR32_PM h) /\
     Z.testbit (mcctrl (AVR32_PM h')) (AVR32_PM_MCCTRL_OSC0EN_OFFSET + Channel) = true /\
     (forall i, i <> AVR32_PM_MCCTRL_OSC0EN_OFFSET + Channel ->
        Z.testbit (mcctrl (AVR32_PM h')) i = Z.testbit (mcctrl (AVR32_PM h)) i) /\
     (mcsel_ok io -> MCCTRL (AVR32_PM h') = MCCTRL (AVR32_PM h)) /\
     PLL (AVR32_PM h') = PLL (AVR32_PM h) /\
     GCCTRL (AVR32_PM h') = GCCTRL (AVR32_PM h) /\
     AVR32_FLASHC h' = AVR32_FLASHC h /\
     (Exists (bit_set (AVR32_PM_POSCSR_OSC0RDY_OFFSET + Channel)) (poscsr (AVR32_PM h)) ->
      AVR32CLK_StartExternalOscillator Channel Type_ Startup h = Done tt h' t)).
Proof.
  split.
  - intros H0 H1. unfold AVR32CLK_StartExternalOscillator.
    rewrite void_function_run, StartExternalOscillator_body_invalid by assumption.
    split; reflexivity.
  - intros Hch Hio. pose proof Hio as (Hen & Hrdy & _). unfold bit_pair_ok in Hen, Hrdy.
    assert (Hen' : 0 <= AVR32_PM_MCCTRL_OSC0EN_OFFSET + Channel < 31) by lia.
    assert (Hrdy' : 0 <= AVR32_PM_POSCSR_OSC0RDY_OFFSET + Channel < 31) by lia.
    unfold AVR32CLK_StartExternalOscillator.
    rewrite void_function_run, StartExternalOscillator_body_run by assumption.
    pose proof (poll_terminates
      (Z.shiftl 1 (AVR32_PM_POSCSR_OSC0RDY_OFFSET + Channel)) (poscsr (AVR32_PM h))) as Hterm.
    pose proof (writes_of_app_reads
      [Write (PM_OSCCTRL_startup Channel) Startup;
       Write (PM_OSCCTRL_mode Channel) Type_;
       Write PM_mcctrl
         (Z.lor (mcctrl (AVR32_PM h))
            (to_uint32 (Z.shiftl 1 (AVR32_PM_MCCTRL_OSC0EN_OFFSET + Channel))))]
      (Z.shiftl 1 (AVR32_PM_POSCSR_OSC0RDY_OFFSET + Channel))
      (poscsr (AVR32_PM h)) eq_refl) as Hw.
    pose proof (fun Hsel => MCCTRL_set_enable Channel (AVR32_PM h) (proj1 Hio) Hsel Hch)
      as Hview.
    destruct (poll _ (poscsr (AVR32_PM h))) as [t [rest |]]; simpl fst in Hw;
      eexists _, _; (split; [reflexivity |]); (split; [exact Hw |]);
      (split; [destruct Hch as [-> | ->]; reflexivity |]);
      (split; [intros Hs Ht; destruct Hch as [-> | ->];
               cbn [OSCCTRL Z.eqb AVR32_PM with_PM set_poscsr with_poscsr with_mcctrl
                    with_OSCCTRL with_OSCCTRL0 with_OSCCTRL1 OSCCTRL0 OSCCTRL1];
               rewrite (field_small _ _ Hs), (field_small _ _ Ht); reflexivity |]);
      (split; [destruct Hch as [-> | ->]; reflexivity |]);
      (split; [cbn [AVR32_PM with_PM set_poscsr with_poscsr mcctrl with_mcctrl];
               rewrite testbit_set_bit, Z.eqb_refl by assumption; apply orb_true_r |]);
      (split; [intros i Hi;
               cbn [AVR32_PM with_PM set_poscsr with_poscsr mcctrl with_mcctrl];
               rewrite testbit_set_bit by assumption;
               apply Z.eqb_neq in Hi; rewrite Hi; apply orb_false_r |]);
      (split; [intros Hsel; rewrite <- (Hview Hsel); apply MCCTRL_ext;
               destruct Hch as [-> | ->]; reflexivity |]);
      (split; [destruct Hch as [-> | ->]; reflexivity |]);
      (split; [destruct Hch as [-> | ->]; reflexivity |]);
      (split; [reflexivity |]);
      intros Hex; [reflexivity |].
    destruct (Hterm Hex) as (? & ? & [=]).
Qed.

Lemma StartExternalOscillator_channels_witness :
  2 <> 0 /\ 2 <> 1 /\
  AVR32CLK_StartExternalOscillator_body (io := uc3_io) 2 EXOSC_MODE_CLOCK EXOSC_START_0CLK
    (reset_hw []) = Done (Returned false) (reset_hw []) [] /\
  AVR32CLK_StartExternalOscillator (io := uc3_io) 2 EXOSC_MODE_CLOCK EXOSC_START_0CLK
    (reset_hw []) = Done tt (reset_hw []) [].
Proof.
  assert (H0 : 2 <> 0) by lia. assert (H1 : 2 <> 1) by lia.
  split; [exact H0 |]. split; [exact H1 |].
  exact (proj1 (StartExternalOscillator_channels (io := uc3_io) 2 EXOSC_MODE_CLOCK
                  EXOSC_START_0CLK (reset_hw [])) H0 H1).
Defined.

(** The first call of the usage example, with a status register that shows
    OSC0RDY at the third read. *)
Example StartExternalOscillator_example :
  AVR32CLK_StartExternalOscillator (io := uc3_io) 0 EXOSC_MODE_8MHZ_OR_MORE EXOSC_START_0CLK
    (reset_hw [0; 0; 128; 128]) =
  Done tt
    (set_poscsr [128]
       (with_PM
          (with_mcctrl 4
             (with_OSCCTRL0 {| startup := 0; mode := 4 |} (AVR32_PM (reset_hw [])))) (reset_hw [])))
    [Write PM_OSCCTRL0_startup 0; Write PM_OSCCTRL0_mode 4; Write PM_mcctrl 4;
     ReadPoscsr 0; ReadPoscsr 0; ReadPoscsr 128].
Proof. vm_compute. reflexivity. Qed.

(** C6, as the code has it. [AVR32CLK_StopExternalOscillator] returns no
    value and checks nothing. For every channel index whose shift is defined,
    channels 0 and 1 among them, it completes after a single write, without
    reading the status register: the write clears bit
    [AVR32_PM_MCCTRL_OSC0EN_OFFSET + Channel] of [mcctrl] and keeps every
    other bit of the word; no other register changes. *)
Theorem StopExternalOscillator_clears_bit {io : avr32_io} (Channel : Z) (h : hw) :
  0 <= AVR32_PM_MCCTRL_OSC0EN_OFFSET + Channel < 31 ->
  exists h' : hw,
    AVR32CLK_StopExternalOscillator Channel h =
      Done tt h' [Write PM_mcctrl (mcctrl (AVR32_PM h'))] /\
    Z.testbit (mcctrl (AVR32_PM h')) (AVR32_PM_MCCTRL_OSC0EN_OFFSET + Channel) = false /\
    (forall i, 0 <= i < 32 -> i <> AVR32_PM_MCCTRL_OSC0EN_OFFSET + Channel ->
       Z.testbit (mcctrl (AVR32_PM h')) i = Z.testbit (mcctrl (AVR32_PM h)) i) /\
    h' = with_PM (with_mcctrl (mcctrl (AVR32_PM h')) (AVR32_PM h)) h.
Proof.
  intros Hen. rewrite StopExternalOscillator_run by assumption.
  exists (with_PM
            (with_mcctrl
               (Z.land (mcctrl (AVR32_PM h))
                  (to_uint32 (Z.lnot (Z.shiftl 1 (AVR32_PM_MCCTRL_OSC0EN_OFFSET + Channel)))))
               (AVR32_PM h)) h).
  split; [reflexivity |].
  cbn [AVR32_PM with_PM mcctrl with_mcctrl]. split; [| split].
  - rewrite testbit_clear_bit, Z.eqb_refl by lia. apply andb_false_r.
  - intros i Hi Hne. rewrite testbit_clear_bit by assumption.
    apply Z.eqb_neq in Hne. rewrite Hne. apply andb_true_r.
  - reflexivity.
Qed.

Lemma StopExternalOscillator_clears_bit_witness :
  0 <= AVR32_PM_MCCTRL_OSC0EN_OFFSET (avr32_io := uc3_io) + 1 < 31 /\
  exists h' : hw,
    AVR32CLK_StopExternalOscillator (io := uc3_io) 1 (mcctrl_hw 13) =
      Done tt h' [Write PM_mcctrl (mcctrl (AVR32_PM h'))] /\
    Z.testbit (mcctrl (AVR32_PM h')) (AVR32_PM_MCCTRL_OSC0EN_OFFSET (avr32_io := uc3_io) + 1) = false /\
    (forall i, 0 <= i < 32 -> i <> AVR32_PM_MCCTRL_OSC0EN_OFFSET (avr32_io := uc3_io) + 1 ->
       Z.testbit (mcctrl (AVR32_PM h')) i = Z.testbit (mcctrl (AVR32_PM (mcctrl_hw 13))) i) /\
    h' = with_PM (with_mcctrl (mcctrl (AVR32_PM h')) (AVR32_PM (mcctrl_hw 13))) (mcctrl_hw 13).
Proof.
  assert (Hen : 0 <= AVR32_PM_MCCTRL_OSC0EN_OFFSET (avr32_io := uc3_io) + 1 < 31)
    by (simpl; lia).
  split; [exact Hen |].
  exact (StopExternalOscillator_clears_bit (io := uc3_io) 1 (mcctrl_hw 13) Hen).
Defined.

(** C6, as stated, fails: for channel 2, outside {0,1}, the call completes
    with no failure indicator and clears bit 4 of [mcctrl]. *)
Lemma StopExternalOscillator_invalid_channel_modifies :
  AVR32CLK_StopExternalOscillator (io := uc3_io) 2 (mcctrl_hw 16) =
    Done tt (mcctrl_hw 0) [Write PM_mcctrl 0] /\
  mcctrl (AVR32_PM (mcctrl_hw 0)) <> mcctrl (AVR32_PM (mcctrl_hw 16)) /\
  ~ (exists t,
       AVR32CLK_StopExternalOscillator (io := uc3_io) 2 (mcctrl_hw 16) =
         Done tt (mcctrl_hw 16) t).
Proof.
  split; [vm_compute; reflexivity |]. split; [vm_compute; discriminate |].
  intros (t & Hrun). vm_compute in Hrun. discriminate Hrun.
Qed.

(** ** CPU clock source switch *)

(** C4. For a source other than the slow clock, oscillator 0 and PLL 0,
    [AVR32CLK_SetCPUClockSource] returns [false] and does not write the
    clock selector [MCCTRL.mcsel]; its single write is the one of the
    wait-state bit, made for [SourceFreq] before the source is examined, and
    the bit keeps that value. *)
Theorem SetCPUClockSource_invalid_source {io : avr32_io} (Source SourceFreq : Z) (h : hw) :
  Source <> CLOCK_SRC_SLOW_CLK -> Source <> CLOCK_SRC_OSC0 -> Source <> CLOCK_SRC_PLL0 ->
  exists h' : hw,
    AVR32CLK_SetCPUClockSource Source SourceFreq h =
      Done false h'
        [Write FLASHC_FCR_fws (if 30000000 <? SourceFreq then C_true else C_false)] /\
    mcsel (MCCTRL (AVR32_PM h')) = mcsel (MCCTRL (AVR32_PM h)) /\
    AVR32_PM h' = AVR32_PM h /\
    fws (FCR (AVR32_FLASHC h')) = (if 30000000 <? SourceFreq then C_true else C_false).
Proof.
  intros Hslow Hosc Hpll. rewrite SetCPUClockSource_run.
  apply Z.eqb_neq in Hslow, Hosc, Hpll. rewrite Hslow, Hosc, Hpll.
  eexists. repeat split; reflexivity.
Qed.

Lemma SetCPUClockSource_invalid_source_witness :
  CLOCK_SRC_PLL1 <> CLOCK_SRC_SLOW_CLK /\ CLOCK_SRC_PLL1 <> CLOCK_SRC_OSC0 /\
  CLOCK_SRC_PLL1 <> CLOCK_SRC_PLL0 /\
  exists h' : hw,
    AVR32CLK_SetCPUClockSource (io := uc3_io) CLOCK_SRC_PLL1 48000000 (reset_hw []) =
      Done false h'
        [Write FLASHC_FCR_fws (if 30000000 <? 48000000 then C_true else C_false)] /\
    mcsel (MCCTRL (io := uc3_io) (AVR32_PM h')) =
      mcsel (MCCTRL (io := uc3_io) (AVR32_PM (reset_hw []))) /\
    AVR32_PM h' = AVR32_PM (reset_hw []) /\
    fws (FCR (AVR32_FLASHC h')) = (if 30000000 <? 48000000 then C_true else C_false).
Proof.
  assert (H0 : CLOCK_SRC_PLL1 <> CLOCK_SRC_SLOW_CLK) by (vm_compute; discriminate).
  assert (H1 : CLOCK_SRC_PLL1 <> CLOCK_SRC_OSC0) by (vm_compute; discriminate).
  assert (H3 : CLOCK_SRC_PLL1 <> CLOCK_SRC_PLL0) by (vm_compute; discriminate).
  split; [exact H0 |]. split; [exact H1 |]. split; [exact H3 |].
  exact (SetCPUClockSource_invalid_source (io := uc3_io) CLOCK_SRC_PLL1 48000000 (reset_hw []) H0 H1 H3).
Defined.

(** C5. Every call of [AVR32CLK_SetCPUClockSource] writes the wait-state
    bit first, and writes it true exactly when [SourceFreq] is above
    30000000: 30000001 gives true, 30000000 gives false. *)
Theorem SetCPUClockSource_wait_state {io : avr32_io} (Source SourceFreq : Z) (h : hw) :
  exists (w : Z) (r : bool) (h' : hw) (t : list event),
    AVR32CLK_SetCPUClockSource Source SourceFreq h =
      Done r h' (Write FLASHC_FCR_fws w :: t) /\
    Forall (fun e => exists v, e = Write PM_MCCTRL_mcsel v) t /\
    fws (FCR (AVR32_FLASHC h')) = w /\
    (w = C_true <-> 30000000 < SourceFreq) /\
    (w = C_false <-> SourceFreq <= 30000000).
Proof.
  exists (if 30000000 <? SourceFreq then C_true else C_false).
  rewrite SetCPUClockSource_run.
  assert (Hw : ((if 30000000 <? SourceFreq then C_true else C_false) = C_true <->
                30000000 < SourceFreq) /\
               ((if 30000000 <? SourceFreq then C_true else C_false) = C_false <->
                SourceFreq <= 30000000)).
  { unfold C_true, C_false. destruct (Z.ltb_spec 30000000 SourceFreq); lia. }
  destruct (Source =? CLOCK_SRC_SLOW_CLK); [| destruct (Source =? CLOCK_SRC_OSC0);
    [| destruct (Source =? CLOCK_SRC_PLL0)]];
    eexists _, _, _; (split; [reflexivity |]);
    (split; [repeat constructor; eauto |]); (split; [reflexivity | exact Hw]).
Qed.

(** The two sides of the 30 MHz boundary. *)
Example SetCPUClockSource_30000001 :
  AVR32CLK_SetCPUClockSource (io := uc3_io) CLOCK_SRC_PLL0 30000001 (reset_hw []) =
  Done true
    (with_PM (with_mcctrl 2 (AVR32_PM (reset_hw []))) (with_fws 1 (reset_hw [])))
    [Write FLASHC_FCR_fws 1; Write PM_MCCTRL_mcsel 2].
Proof. vm_compute. reflexivity. Qed.

Example SetCPUClockSource_30000000 :
  AVR32CLK_SetCPUClockSource (io := uc3_io) CLOCK_SRC_PLL0 30000000 (with_fws 1 (reset_hw [])) =
  Done true
    (with_PM (with_mcctrl 2 (AVR32_PM (reset_hw []))) (reset_hw []))
    [Write FLASHC_FCR_fws 0; Write PM_MCCTRL_mcsel 2].
Proof. vm_compute. reflexivity. Qed.

(** ** The start-up sequence of the usage example

    Oscillator 0, then PLL 0 from 12 MHz to 48 MHz, then the CPU on PLL 0:
    the oscillator is enabled, the PLL is enabled with multiplier 1, the
    selector is 2 and the wait-state bit is set: the word [mcctrl] ends with
    OSC0EN and the selector 2, that is 6. The status register shows OSC0RDY
    at its second read and LOCK0 with it from the third on. *)
Example startup_sequence :
  (_ <- AVR32CLK_StartExternalOscillator (io := uc3_io) 0 EXOSC_MODE_8MHZ_OR_MORE EXOSC_START_0CLK ;;
   _ <- AVR32CLK_StartPLL (io := uc3_io) 0 CLOCK_SRC_OSC0 12000000 48000000 ;;
   AVR32CLK_SetCPUClockSource (io := uc3_io) CLOCK_SRC_PLL0 48000000)%clk (reset_hw [0; 128; 128; 129]) =
  Done true
    {| AVR32_PM := {|
         mcctrl := 6;
         OSCCTRL0 := {| startup := EXOSC_START_0CLK; mode := EXOSC_MODE_8MHZ_OR_MORE |};
         OSCCTRL1 := {| startup := 0; mode := 0 |};
         PLL := [ {| pllosc := 0; pllmul := 1; plldiv := 0; pllen := C_true |};
                  {| pllosc := 0; pllmul := 0; plldiv := 0; pllen := 0 |} ];
         GCCTRL := GCCTRL (AVR32_PM (reset_hw []));
         poscsr := [] |};
       AVR32_FLASHC := {| FCR := {| fws := C_true |} |} |}
    [Write PM_OSCCTRL0_startup 0; Write PM_OSCCTRL0_mode 4; Write PM_mcctrl 4;
     ReadPoscsr 0; ReadPoscsr 128;
     Write (PM_PLL_pllosc 0) 0; Write (PM_PLL_pllmul 0) 1;
     Write (PM_PLL_plldiv 0) 0; Write (PM_PLL_pllen 0) 1;
     ReadPoscsr 128; ReadPoscsr 129;
     Write FLASHC_FCR_fws 1; Write PM_MCCTRL_mcsel 2].
Proof. vm_compute. reflexivity. Qed.

(** * Further properties of the driver *)

(** ** Auxiliary facts *)

Section AuxiliaryFacts.

Context {io : avr32_io}.

(** Masking a status word with the bit of position [n] tests that bit. *)
Lemma land_bit_mask (v n : Z) :
  0 <= n < 31 ->
  Z.land v (to_uint32 (Z.shiftl 1 n)) = if Z.testbit v n then 2 ^ n else 0.
Proof.
  intros Hn. unfold to_uint32. rewrite Z.shiftl_1_l, Z.mod_small.
  2:{ split; [lia |]. apply Z.pow_lt_mono_r; lia. }
  apply Z.bits_inj'. intros i Hi. rewrite Z.land_spec, Z.pow2_bits_eqb by lia.
  destruct (Z.eqb_spec n i) as [<- | Hne].
  - destruct (Z.testbit v n); simpl.
    + rewrite Z.pow2_bits_eqb, Z.eqb_refl by lia. reflexivity.
    + symmetry. apply Z.bits_0.
  - rewrite andb_false_r. destruct (Z.testbit v n).
    + rewrite Z.pow2_bits_eqb by lia. symmetry. apply Z.eqb_neq, Hne.
    + symmetry. apply Z.bits_0.
Qed.

Lemma mask_clear (v n : Z) :
  0 <= n < 31 -> Z.testbit v n = false -> Z.land v (to_uint32 (Z.shiftl 1 n)) = 0.
Proof. intros Hn Hv. rewrite land_bit_mask, Hv by assumption. reflexivity. Qed.

Lemma mask_set (v n : Z) :
  0 <= n < 31 -> Z.testbit v n = true -> Z.land v (to_uint32 (Z.shiftl 1 n)) <> 0.
Proof.
  intros Hn Hv. rewrite land_bit_mask, Hv by assumption.
  assert (0 < 2 ^ n) by (apply Z.pow_pos_nonneg; lia). lia.
Qed.

Lemma Forall_mask_clear (n : Z) (l : list Z) :
  0 <= n < 31 ->
  Forall (fun x => Z.testbit x n = false) l ->
  Forall (fun x => Z.land x (to_uint32 (Z.shiftl 1 n)) = 0) l.
Proof.
  intros Hn Hl. eapply List.Forall_impl; [| exact Hl].
  intros x Hx. apply mask_clear; assumption.
Qed.

Lemma bind_Done {A B : Type} (m : M A) (k : A -> M B) (a : A) (h h1 : hw) (t1 : list event) :
  m h = Done a h1 t1 -> bind m k h = after t1 (k a h1).
Proof. intros Hm. unfold bind. rewrite Hm. reflexivity. Qed.

Lemma poke_GCCTRL_pllsel_outside (i v : Z) (h : hw) :
  elem (GCCTRL (AVR32_PM h)) i = None -> poke (PM_GCCTRL_pllsel i) v h = None.
Proof. intros Hn. unfold poke. rewrite update_elem_None by assumption. reflexivity. Qed.

Lemma poke_GCCTRL_cen_outside (i v : Z) (h : hw) :
  elem (GCCTRL (AVR32_PM h)) i = None -> poke (PM_GCCTRL_cen i) v h = None.
Proof. intros Hn. unfold poke. rewrite update_elem_None by assumption. reflexivity. Qed.

Lemma poke_PLL_pllen_outside (i v : Z) (h : hw) :
  elem (PLL (AVR32_PM h)) i = None -> poke (PM_PLL_pllen i) v h = None.
Proof. intros Hn. unfold poke. rewrite update_elem_None by assumption. reflexivity. Qed.

Lemma assign_run_out_of_bounds {R : Type} (r : reg) (e : expr) (v : Z) (h : hw) :
  e h = Done v h [] -> poke r v h = None ->
  assign (R := R) r e h = Undefined (OutOfBounds r).
Proof.
  intros He Hp. unfold assign, bind at 1. rewrite He.
  unfold bind, store. rewrite Hp. reflexivity.
Qed.

Lemma set_GCCTRL_commute (i j : Z) (x y : avr32_pm_gcctrl_t) (h : hw) :
  0 <= i -> 0 <= j -> i <> j ->
  set_GCCTRL j y (set_GCCTRL i x h) = set_GCCTRL i x (set_GCCTRL j y h).
Proof.
  intros Hi Hj Hne. unfold set_GCCTRL. simpl.
  rewrite list_insert_insert_ne by lia. reflexivity.
Qed.

End AuxiliaryFacts.

(** ** PLL controller *)

(** X1. [AVR32CLK_StopPLL] makes one write, which clears
    [PLL[Channel].pllen]: the oscillator select, multiplier and divider of
    the PLL, the other PLL and every other register keep their values, and
    the status register is not read. *)
Theorem StopPLL_clears_enable_only {io : avr32_io} (Channel : Z) (h : hw) (p : avr32_pm_pll_t) :
  elem (PLL (AVR32_PM h)) Channel = Some p ->
  exists h' : hw,
    AVR32CLK_StopPLL Channel h = Done tt h' [Write (PM_PLL_pllen Channel) C_false] /\
    elem (PLL (AVR32_PM h')) Channel =
      Some {| pllosc := pllosc p; pllmul := pllmul p; plldiv := plldiv p;
              pllen := C_false |} /\
    poscsr (AVR32_PM h') = poscsr (AVR32_PM h) /\
    same_outside_PLL Channel h h'.
Proof.
  intros Hp. unfold AVR32CLK_StopPLL. rewrite void_function_run.
  erewrite assign_run; [| apply pure_val | apply poke_PLL_pllen, Hp].
  eexists. split; [reflexivity | split; [| split]].
  - apply (elem_set_PLL _ _ p Hp).
  - reflexivity.
  - pose proof (same_outside_set_PLL Channel h p Hp (with_pllen C_false p)
                  (poscsr (AVR32_PM h))) as Hs.
    destruct h as [[] ?]. exact Hs.
Qed.

Lemma StopPLL_clears_enable_only_witness :
  exists h' : hw,
    AVR32CLK_StopPLL (io := uc3_io) 1
      (set_PLL 1 {| pllosc := 1; pllmul := 3; plldiv := 0; pllen := 1 |} (reset_hw [5])) =
      Done tt h' [Write (PM_PLL_pllen 1) C_false] /\
    elem (PLL (AVR32_PM h')) 1 =
      Some {| pllosc := 1; pllmul := 3; plldiv := 0; pllen := C_false |} /\
    poscsr (AVR32_PM h') =
      poscsr (AVR32_PM (set_PLL 1 {| pllosc := 1; pllmul := 3; plldiv := 0; pllen := 1 |}
                          (reset_hw [5]))) /\
    same_outside_PLL 1
      (set_PLL 1 {| pllosc := 1; pllmul := 3; plldiv := 0; pllen := 1 |} (reset_hw [5])) h'.
Proof.
  exact (StopPLL_clears_enable_only (io := uc3_io) 1
           (set_PLL 1 {| pllosc := 1; pllmul := 3; plldiv := 0; pllen := 1 |} (reset_hw [5]))
           {| pllosc := 1; pllmul := 3; plldiv := 0; pllen := 1 |} eq_refl).
Defined.

(** X2. A source other than oscillator 0 and oscillator 1 makes
    [AVR32CLK_StartPLL] return [false] at once: no register is read or
    written, whatever the channel index and the frequencies, a source
    frequency of zero included. *)
Theorem StartPLL_rejects_source {io : avr32_io}
    (Channel Source SourceFreq Frequency : Z) (h : hw) :
  Source <> CLOCK_SRC_OSC0 -> Source <> CLOCK_SRC_OSC1 ->
  AVR32CLK_StartPLL Channel Source SourceFreq Frequency h = Done false h [].
Proof.
  intros H0 H1. unfold AVR32CLK_StartPLL. rewrite bool_function_run.
  unfold switch. apply Z.eqb_neq in H0, H1. rewrite H0, H1. reflexivity.
Qed.

Lemma StartPLL_rejects_source_witness :
  CLOCK_SRC_SLOW_CLK <> CLOCK_SRC_OSC0 /\ CLOCK_SRC_SLOW_CLK <> CLOCK_SRC_OSC1 /\
  AVR32CLK_StartPLL (io := uc3_io) 7 CLOCK_SRC_SLOW_CLK 0 48000000 (reset_hw [1]) =
  Done false (reset_hw [1]) [].
Proof.
  assert (H0 : CLOCK_SRC_SLOW_CLK <> CLOCK_SRC_OSC0) by (vm_compute; discriminate).
  assert (H1 : CLOCK_SRC_SLOW_CLK <> CLOCK_SRC_OSC1) by (vm_compute; discriminate).
  split; [exact H0 |]. split; [exact H1 |].
  exact (StartPLL_rejects_source (io := uc3_io) 7 CLOCK_SRC_SLOW_CLK 0 48000000
           (reset_hw [1]) H0 H1).
Defined.

(** X3. [AVR32CLK_StartPLL] does not check the source frequency: with a
    valid source and a channel of the array, a source frequency of zero
    makes the multiplier expression divide by zero, and a source frequency
    other than zero never does. *)
Theorem StartPLL_zero_source_unchecked {io : avr32_io}
    (Channel Source SourceFreq Frequency : Z) (h : hw) (p : avr32_pm_pll_t) :
  is_pll_source Source ->
  elem (PLL (AVR32_PM h)) Channel = Some p ->
  (SourceFreq = 0 ->
   AVR32CLK_StartPLL Channel Source SourceFreq Frequency h = Undefined DivisionByZero) /\
  (SourceFreq <> 0 ->
   AVR32CLK_StartPLL Channel Source SourceFreq Frequency h <> Undefined DivisionByZero).
Proof.
  intros Hsrc Hp. split.
  - intros Hz. apply (StartPLL_run_zero _ _ _ _ _ Hsrc p Hp Hz).
  - intros Hnz.
    destruct (decide (0 <= AVR32_PM_POSCSR_LOCK0_OFFSET + Channel < 31)) as [Hbit | Hbit].
    + rewrite (StartPLL_run _ _ _ _ _ Hsrc p Hp Hnz Hbit).
      destruct (poll _ _) as [t [rest |]]; discriminate.
    + rewrite (StartPLL_run_shift _ _ _ _ _ Hsrc p Hp Hnz Hbit). discriminate.
Qed.

Lemma StartPLL_zero_source_unchecked_witness :
  is_pll_source CLOCK_SRC_OSC0 /\
  AVR32CLK_StartPLL (io := uc3_io) 0 CLOCK_SRC_OSC0 0 48000000 (reset_hw [1]) =
  Undefined DivisionByZero.
Proof.
  assert (Hsrc : is_pll_source CLOCK_SRC_OSC0) by (left; reflexivity).
  split; [exact Hsrc |].
  exact (proj1 (StartPLL_zero_source_unchecked (io := uc3_io) 0 CLOCK_SRC_OSC0 0 48000000
                  (reset_hw [1]) {| pllosc := 0; pllmul := 0; plldiv := 0; pllen := 0 |}
                  Hsrc eq_refl) eq_refl).
Defined.

(** X4. [AVR32CLK_StartPLL] returns [true] at the first read of the status
    register that shows the lock bit of the channel: the four fields are
    written before the first read, one read is made for each earlier
    observation and for the one with the bit, and later observations are
    left unread. *)
Theorem StartPLL_waits_for_lock {io : avr32_io}
    (Channel Source SourceFreq Frequency : Z) (h : hw) (p : avr32_pm_pll_t)
    (before : list Z) (v : Z) (rest : list Z) :
  0 <= AVR32_PM_POSCSR_LOCK0_OFFSET + Channel < 31 ->
  elem (PLL (AVR32_PM h)) Channel = Some p ->
  is_pll_source Source -> SourceFreq <> 0 ->
  poscsr (AVR32_PM h) = before ++ v :: rest ->
  Forall (fun x => Z.testbit x (AVR32_PM_POSCSR_LOCK0_OFFSET + Channel) = false) before ->
  Z.testbit v (AVR32_PM_POSCSR_LOCK0_OFFSET + Channel) = true ->
  exists m : Z,
    AVR32CLK_StartPLL Channel Source SourceFreq Frequency h =
    Done true
      (set_poscsr rest
         (set_PLL Channel
            {| pllosc := pll_pllosc Source; pllmul := field (PM_PLL_pllmul Channel) m;
               plldiv := 0; pllen := C_true |} h))
      ([Write (PM_PLL_pllosc Channel) (pll_pllosc Source);
        Write (PM_PLL_pllmul Channel) m;
        Write (PM_PLL_plldiv Channel) 0;
        Write (PM_PLL_pllen Channel) C_true] ++ map ReadPoscsr (before ++ [v])).
Proof.
  intros Hbit Hp Hsrc Hnz Hsamples Hbefore Hv.
  rewrite (StartPLL_run _ _ _ _ _ Hsrc p Hp Hnz Hbit), Hsamples.
  rewrite poll_ready;
    [| apply Forall_mask_clear; assumption | apply mask_set; assumption].
  eexists. reflexivity.
Qed.

Lemma StartPLL_waits_for_lock_witness :
  0 <= AVR32_PM_POSCSR_LOCK0_OFFSET (avr32_io := uc3_io) + 1 < 31 /\
  is_pll_source CLOCK_SRC_OSC1 /\ 12000000 <> 0 /\
  Forall (fun x => Z.testbit x (AVR32_PM_POSCSR_LOCK0_OFFSET (avr32_io := uc3_io) + 1) = false)
    [0; 129] /\
  Z.testbit 130 (AVR32_PM_POSCSR_LOCK0_OFFSET (avr32_io := uc3_io) + 1) = true /\
  exists m : Z,
    AVR32CLK_StartPLL (io := uc3_io) 1 CLOCK_SRC_OSC1 12000000 96000000
      (reset_hw [0; 129; 130; 131]) =
    Done true
      (set_poscsr [131]
         (set_PLL 1
            {| pllosc := pll_pllosc CLOCK_SRC_OSC1;
               pllmul := field (io := uc3_io) (PM_PLL_pllmul 1) m; plldiv := 0;
               pllen := C_true |} (reset_hw [0; 129; 130; 131])))
      ([Write (PM_PLL_pllosc 1) (pll_pllosc CLOCK_SRC_OSC1);
        Write (PM_PLL_pllmul 1) m;
        Write (PM_PLL_plldiv 1) 0;
        Write (PM_PLL_pllen 1) C_true] ++ map ReadPoscsr ([0; 129] ++ [130])).
Proof.
  assert (Hbit : 0 <= AVR32_PM_POSCSR_LOCK0_OFFSET (avr32_io := uc3_io) + 1 < 31)
    by (simpl; lia).
  assert (Hsrc : is_pll_source CLOCK_SRC_OSC1) by (right; reflexivity).
  assert (Hnz : 12000000 <> 0) by lia.
  assert (Hb : Forall (fun x => Z.testbit x
                         (AVR32_PM_POSCSR_LOCK0_OFFSET (avr32_io := uc3_io) + 1) = false)
                 [0; 129]) by (repeat constructor).
  assert (Hv : Z.testbit 130 (AVR32_PM_POSCSR_LOCK0_OFFSET (avr32_io := uc3_io) + 1) = true)
    by reflexivity.
  split; [exact Hbit |]. split; [exact Hsrc |]. split; [exact Hnz |].
  split; [exact Hb |]. split; [exact Hv |].
  exact (StartPLL_waits_for_lock (io := uc3_io) 1 CLOCK_SRC_OSC1 12000000 96000000
           (reset_hw [0; 129; 130; 131])
           {| pllosc := 0; pllmul := 0; plldiv := 0; pllen := 0 |}
           [0; 129] 130 [131] Hbit eq_refl Hsrc Hnz eq_refl Hb Hv).
Defined.

(** X5. While no read of the status register shows the lock bit of the
    channel, [AVR32CLK_StartPLL] does not return: it has written the four
    fields, the PLL is enabled, and every observation has been read. *)
Theorem StartPLL_never_locked {io : avr32_io}
    (Channel Source SourceFreq Frequency : Z) (h : hw) (p : avr32_pm_pll_t) :
  0 <= AVR32_PM_POSCSR_LOCK0_OFFSET + Channel < 31 ->
  elem (PLL (AVR32_PM h)) Channel = Some p ->
  is_pll_source Source -> SourceFreq <> 0 ->
  Forall (fun x => Z.testbit x (AVR32_PM_POSCSR_LOCK0_OFFSET + Channel) = false)
    (poscsr (AVR32_PM h)) ->
  exists m : Z,
    AVR32CLK_StartPLL Channel Source SourceFreq Frequency h =
    Spinning
      (set_poscsr []
         (set_PLL Channel
            {| pllosc := pll_pllosc Source; pllmul := field (PM_PLL_pllmul Channel) m;
               plldiv := 0; pllen := C_true |} h))
      ([Write (PM_PLL_pllosc Channel) (pll_pllosc Source);
        Write (PM_PLL_pllmul Channel) m;
        Write (PM_PLL_plldiv Channel) 0;
        Write (PM_PLL_pllen Channel) C_true] ++ map ReadPoscsr (poscsr (AVR32_PM h))).
Proof.
  intros Hbit Hp Hsrc Hnz Hall.
  rewrite (StartPLL_run _ _ _ _ _ Hsrc p Hp Hnz Hbit).
  rewrite poll_never by (apply Forall_mask_clear; assumption).
  eexists. reflexivity.
Qed.

Lemma StartPLL_never_locked_witness :
  0 <= AVR32_PM_POSCSR_LOCK0_OFFSET (avr32_io := uc3_io) + 0 < 31 /\
  is_pll_source CLOCK_SRC_OSC0 /\ 12000000 <> 0 /\
  Forall (fun x => Z.testbit x (AVR32_PM_POSCSR_LOCK0_OFFSET (avr32_io := uc3_io) + 0) = false)
    (poscsr (AVR32_PM (reset_hw [0; 2; 128]))) /\
  exists m : Z,
    AVR32CLK_StartPLL (io := uc3_io) 0 CLOCK_SRC_OSC0 12000000 48000000
      (reset_hw [0; 2; 128]) =
    Spinning
      (set_poscsr []
         (set_PLL 0
            {| pllosc := pll_pllosc CLOCK_SRC_OSC0;
               pllmul := field (io := uc3_io) (PM_PLL_pllmul 0) m; plldiv := 0;
               pllen := C_true |} (reset_hw [0; 2; 128])))
      ([Write (PM_PLL_pllosc 0) (pll_pllosc CLOCK_SRC_OSC0);
        Write (PM_PLL_pllmul 0) m;
        Write (PM_PLL_plldiv 0) 0;
        Write (PM_PLL_pllen 0) C_true] ++
       map ReadPoscsr (poscsr (AVR32_PM (reset_hw [0; 2; 128])))).
Proof.
  assert (Hbit : 0 <= AVR32_PM_POSCSR_LOCK0_OFFSET (avr32_io := uc3_io) + 0 < 31)
    by (simpl; lia).
  assert (Hsrc : is_pll_source CLOCK_SRC_OSC0) by (left; reflexivity).
  assert (Hnz : 12000000 <> 0) by lia.
  assert (Hall : Forall (fun x => Z.testbit x
                           (AVR32_PM_POSCSR_LOCK0_OFFSET (avr32_io := uc3_io) + 0) = false)
                   (poscsr (AVR32_PM (reset_hw [0; 2; 128])))) by (repeat constructor).
  split; [exact Hbit |]. split; [exact Hsrc |]. split; [exact Hnz |]. split; [exact Hall |].
  exact (StartPLL_never_locked (io := uc3_io) 0 CLOCK_SRC_OSC0 12000000 48000000
           (reset_hw [0; 2; 128]) {| pllosc := 0; pllmul := 0; plldiv := 0; pllen := 0 |}
           Hbit eq_refl Hsrc Hnz Hall).
Defined.

(** ** Generic clock controller *)

(** X6. A source outside the four of the [switch] makes
    [AVR32CLK_StartGenericClock] return [false] at once: no register is
    written, whatever the channel index and the frequencies, a target of
    zero included. *)
Theorem StartGenericClock_rejects_source {io : avr32_io}
    (Channel Source SourceFreq Frequency : Z) (h : hw) :
  ~ is_gclk_source Source ->
  AVR32CLK_StartGenericClock Channel Source SourceFreq Frequency h = Done false h [].
Proof.
  intros Hsrc. unfold AVR32CLK_StartGenericClock. rewrite bool_function_run.
  unfold switch, is_gclk_source in *.
  destruct (Z.eqb_spec Source CLOCK_SRC_OSC0); [tauto |].
  destruct (Z.eqb_spec Source CLOCK_SRC_OSC1); [tauto |].
  destruct (Z.eqb_spec Source CLOCK_SRC_PLL0); [tauto |].
  destruct (Z.eqb_spec Source CLOCK_SRC_PLL1); [tauto |].
  reflexivity.
Qed.

Lemma StartGenericClock_rejects_source_witness :
  ~ is_gclk_source CLOCK_SRC_SLOW_CLK /\
  AVR32CLK_StartGenericClock (io := uc3_io) 9 CLOCK_SRC_SLOW_CLK 12000000 0 (reset_hw []) =
  Done false (reset_hw []) [].
Proof.
  assert (Hsrc : ~ is_gclk_source CLOCK_SRC_SLOW_CLK)
    by (unfold is_gclk_source; vm_compute; intros [H | [H | [H | H]]]; discriminate H).
  split; [exact Hsrc |].
  exact (StartGenericClock_rejects_source (io := uc3_io) 9 CLOCK_SRC_SLOW_CLK 12000000 0 (reset_hw []) Hsrc).
Defined.

(** X7. With a valid source and a positive target below the source
    frequency, [AVR32CLK_StartGenericClock] returns [true] after five
    writes: the selector bits of the source, the divider enabled, the value
    [((SourceFreq / Frequency) - 1) / 2], computed without wrap-around,
    assigned to the divider, and the channel enabled last; nothing else
    changes. The divider field keeps the assigned value modulo two to its
    width, that is unchanged when it is below that power. *)
Theorem StartGenericClock_divides {io : avr32_io}
    (Channel Source SourceFreq Frequency : Z) (h : hw) (g : avr32_pm_gcctrl_t) :
  is_gclk_source Source ->
  elem (GCCTRL (AVR32_PM h)) Channel = Some g ->
  uint32 SourceFreq ->
  0 < Frequency -> Frequency < SourceFreq ->
  exists h' : hw,
    AVR32CLK_StartGenericClock Channel Source SourceFreq Frequency h =
      Done true h'
        [Write (PM_GCCTRL_pllsel Channel) (gclk_pllsel Source);
         Write (PM_GCCTRL_oscsel Channel) (gclk_oscsel Source);
         Write (PM_GCCTRL_diven Channel) C_true;
         Write (PM_GCCTRL_div Channel) ((SourceFreq / Frequency - 1) / 2);
         Write (PM_GCCTRL_cen Channel) C_true] /\
    elem (GCCTRL (AVR32_PM h')) Channel =
      Some {| pllsel := gclk_pllsel Source; oscsel := gclk_oscsel Source;
              diven := C_true;
              div := ((SourceFreq / Frequency - 1) / 2)
                       mod 2 ^ Z.pos (bitfield_size (PM_GCCTRL_div Channel));
              cen := C_true |} /\
    0 <= (SourceFreq / Frequency - 1) / 2 < 2 ^ 31 /\
    ((SourceFreq / Frequency - 1) / 2 < 2 ^ Z.pos (bitfield_size (PM_GCCTRL_div Channel)) ->
     elem (GCCTRL (AVR32_PM h')) Channel =
       Some {| pllsel := gclk_pllsel Source; oscsel := gclk_oscsel Source;
               diven := C_true; div := (SourceFreq / Frequency - 1) / 2;
               cen := C_true |}) /\
    same_outside_GCCTRL Channel h h'.
Proof.
  intros Hsrc Hg [HS0 HS1] Hpos Hlt.
  rewrite (StartGenericClock_run_started _ _ _ _ _ g Hsrc Hg Hpos) by lia.
  assert (H1 : 1 <= SourceFreq / Frequency) by (apply Z.div_le_lower_bound; lia).
  assert (H2 : SourceFreq / Frequency <= SourceFreq).
  { rewrite <- (Z.div_1_r SourceFreq) at 2. apply Z.div_le_compat_l; lia. }
  assert (Hw : to_uint32 (SourceFreq / Frequency - 1) = SourceFreq / Frequency - 1)
    by (unfold to_uint32; apply Z.mod_small; lia).
  assert (Hd : 0 <= (SourceFreq / Frequency - 1) / 2 < 2 ^ 31).
  { split; [apply Z.div_pos; lia |]. apply Z.div_lt_upper_bound; lia. }
  rewrite Hw. destruct (Z.ltb_spec Frequency SourceFreq); [| lia].
  eexists. split; [reflexivity | split; [| split; [| split]]].
  - apply (elem_set_GCCTRL _ _ g Hg).
  - exact Hd.
  - intros Hfit.
    rewrite <- (Z.mod_small ((SourceFreq / Frequency - 1) / 2)
                  (2 ^ Z.pos (bitfield_size (PM_GCCTRL_div Channel)))) at 2 by lia.
    apply (elem_set_GCCTRL _ _ g Hg).
  - apply (same_outside_set_GCCTRL _ _ g Hg).
Qed.

Lemma StartGenericClock_divides_witness :
  is_gclk_source CLOCK_SRC_PLL1 /\ uint32 96000000 /\
  0 < 12000000 /\ 12000000 < 96000000 /\
  exists h' : hw,
    AVR32CLK_StartGenericClock (io := uc3_io) 2 CLOCK_SRC_PLL1 96000000 12000000 (reset_hw []) =
      Done true h'
        [Write (PM_GCCTRL_pllsel 2) (gclk_pllsel CLOCK_SRC_PLL1);
         Write (PM_GCCTRL_oscsel 2) (gclk_oscsel CLOCK_SRC_PLL1);
         Write (PM_GCCTRL_diven 2) C_true;
         Write (PM_GCCTRL_div 2) ((96000000 / 12000000 - 1) / 2);
         Write (PM_GCCTRL_cen 2) C_true] /\
    elem (GCCTRL (AVR32_PM h')) 2 =
      Some {| pllsel := gclk_pllsel CLOCK_SRC_PLL1; oscsel := gclk_oscsel CLOCK_SRC_PLL1;
              diven := C_true;
              div := ((96000000 / 12000000 - 1) / 2)
                       mod 2 ^ Z.pos (bitfield_size (avr32_io := uc3_io) (PM_GCCTRL_div 2));
              cen := C_true |} /\
    0 <= (96000000 / 12000000 - 1) / 2 < 2 ^ 31 /\
    ((96000000 / 12000000 - 1) / 2
       < 2 ^ Z.pos (bitfield_size (avr32_io := uc3_io) (PM_GCCTRL_div 2)) ->
     elem (GCCTRL (AVR32_PM h')) 2 =
       Some {| pllsel := gclk_pllsel CLOCK_SRC_PLL1; oscsel := gclk_oscsel CLOCK_SRC_PLL1;
               diven := C_true; div := (96000000 / 12000000 - 1) / 2;
               cen := C_true |}) /\
    same_outside_GCCTRL 2 (reset_hw []) h'.
Proof.
  assert (Hsrc : is_gclk_source CLOCK_SRC_PLL1) by (right; right; right; reflexivity).
  assert (HS : uint32 96000000) by (unfold uint32; lia).
  assert (Hpos : 0 < 12000000) by lia.
  assert (Hlt : 12000000 < 96000000) by lia.
  split; [exact Hsrc |]. split; [exact HS |]. split; [exact Hpos |]. split; [exact Hlt |].
  exact (StartGenericClock_divides (io := uc3_io) 2 CLOCK_SRC_PLL1 96000000 12000000 (reset_hw [])
           {| pllsel := 0; oscsel := 0; diven := 0; div := 0; cen := 0 |}
           Hsrc eq_refl HS Hpos Hlt).
Defined.

(** X8. A successful [AVR32CLK_StartGenericClock] overwrites all five fields
    of the channel: the resulting state and the writes do not depend on what
    the channel held before, and repeating the call changes nothing. *)
Theorem StartGenericClock_overwrites_channel {io : avr32_io}
    (Channel Source SourceFreq Frequency : Z) (h : hw) (g : avr32_pm_gcctrl_t) :
  is_gclk_source Source ->
  elem (GCCTRL (AVR32_PM h)) Channel = Some g ->
  0 < Frequency -> Frequency <= SourceFreq ->
  exists (h' : hw) (t : list event),
    AVR32CLK_StartGenericClock Channel Source SourceFreq Frequency h = Done true h' t /\
    (forall g0 : avr32_pm_gcctrl_t,
       AVR32CLK_StartGenericClock Channel Source SourceFreq Frequency
         (set_GCCTRL Channel g0 h) = Done true h' t) /\
    AVR32CLK_StartGenericClock Channel Source SourceFreq Frequency h' = Done true h' t.
Proof.
  intros Hsrc Hg Hpos Hle.
  assert (Hany : forall g0 : avr32_pm_gcctrl_t,
            AVR32CLK_StartGenericClock Channel Source SourceFreq Frequency
              (set_GCCTRL Channel g0 h) =
            AVR32CLK_StartGenericClock Channel Source SourceFreq Frequency h).
  { intros g0.
    rewrite (StartGenericClock_run_started _ _ _ _ _ g0 Hsrc
               (elem_set_GCCTRL _ _ g Hg g0) Hpos Hle).
    rewrite (StartGenericClock_run_started _ _ _ _ _ g Hsrc Hg Hpos Hle).
    rewrite set_GCCTRL_set_GCCTRL. reflexivity. }
  rewrite (StartGenericClock_run_started _ _ _ _ _ g Hsrc Hg Hpos Hle) in *.
  eexists _, _. split; [reflexivity | split; [exact Hany | apply Hany]].
Qed.

Lemma StartGenericClock_overwrites_channel_witness :
  is_gclk_source CLOCK_SRC_OSC1 /\ 0 < 4000000 /\ 4000000 <= 12000000 /\
  exists (h' : hw) (t : list event),
    AVR32CLK_StartGenericClock (io := uc3_io) 1 CLOCK_SRC_OSC1 12000000 4000000 (reset_hw []) =
      Done true h' t /\
    (forall g0 : avr32_pm_gcctrl_t,
       AVR32CLK_StartGenericClock (io := uc3_io) 1 CLOCK_SRC_OSC1 12000000 4000000
         (set_GCCTRL 1 g0 (reset_hw [])) = Done true h' t) /\
    AVR32CLK_StartGenericClock (io := uc3_io) 1 CLOCK_SRC_OSC1 12000000 4000000 h' = Done true h' t.
Proof.
  assert (Hsrc : is_gclk_source CLOCK_SRC_OSC1) by (right; left; reflexivity).
  assert (Hpos : 0 < 4000000) by lia.
  assert (Hle : 4000000 <= 12000000) by lia.
  split; [exact Hsrc |]. split; [exact Hpos |]. split; [exact Hle |].
  exact (StartGenericClock_overwrites_channel (io := uc3_io) 1 CLOCK_SRC_OSC1 12000000 4000000
           (reset_hw []) {| pllsel := 0; oscsel := 0; diven := 0; div := 0; cen := 0 |}
           Hsrc eq_refl Hpos Hle).
Defined.

(** X9. Successful starts of two different generic clock channels commute:
    in either order both calls return [true] and the final register state is
    the same. *)
Theorem StartGenericClock_channels_commute {io : avr32_io}
    (i j Si Fi Sj Fj Srci Srcj : Z) (h : hw) (gi gj : avr32_pm_gcctrl_t) :
  i <> j ->
  elem (GCCTRL (AVR32_PM h)) i = Some gi ->
  elem (GCCTRL (AVR32_PM h)) j = Some gj ->
  is_gclk_source Srci -> is_gclk_source Srcj ->
  0 < Fi -> Fi <= Si -> 0 < Fj -> Fj <= Sj ->
  exists (h' : hw) (ti tj : list event),
    (_ <- AVR32CLK_StartGenericClock i Srci Si Fi ;;
     AVR32CLK_StartGenericClock j Srcj Sj Fj) h = Done true h' (ti ++ tj) /\
    (_ <- AVR32CLK_StartGenericClock j Srcj Sj Fj ;;
     AVR32CLK_StartGenericClock i Srci Si Fi) h = Done true h' (tj ++ ti).
Proof.
  intros Hne Hgi Hgj Hsi Hsj Hfi Hlei Hfj Hlej.
  pose proof (elem_Some_range _ _ _ Hgi) as Hri.
  pose proof (elem_Some_range _ _ _ Hgj) as Hrj.
  pose proof (StartGenericClock_run_started i Srci Si Fi h gi Hsi Hgi Hfi Hlei) as Ri.
  pose proof (StartGenericClock_run_started j Srcj Sj Fj h gj Hsj Hgj Hfj Hlej) as Rj.
  match type of Ri with _ = Done _ (set_GCCTRL _ ?xi _) ?ti =>
    match type of Rj with _ = Done _ (set_GCCTRL _ ?xj _) ?tj =>
      exists (set_GCCTRL j xj (set_GCCTRL i xi h)), ti, tj
    end
  end.
  split.
  - rewrite (bind_Done _ _ _ _ _ _ Ri).
    erewrite (StartGenericClock_run_started j Srcj Sj Fj _ gj Hsj); [| | exact Hfj | exact Hlej].
    + simpl after. reflexivity.
    + simpl. rewrite elem_insert_ne by lia. exact Hgj.
  - rewrite (bind_Done _ _ _ _ _ _ Rj).
    erewrite (StartGenericClock_run_started i Srci Si Fi _ gi Hsi); [| | exact Hfi | exact Hlei].
    + simpl after. rewrite (set_GCCTRL_commute j i) by lia. reflexivity.
    + simpl. rewrite elem_insert_ne by lia. exact Hgi.
Qed.

Lemma StartGenericClock_channels_commute_witness :
  0 <> 3 /\ is_gclk_source CLOCK_SRC_OSC0 /\ is_gclk_source CLOCK_SRC_PLL1 /\
  exists (h' : hw) (ti tj : list event),
    (_ <- AVR32CLK_StartGenericClock (io := uc3_io) 0 CLOCK_SRC_OSC0 12000000 12000000 ;;
     AVR32CLK_StartGenericClock (io := uc3_io) 3 CLOCK_SRC_PLL1 96000000 48000000) (reset_hw []) =
      Done true h' (ti ++ tj) /\
    (_ <- AVR32CLK_StartGenericClock (io := uc3_io) 3 CLOCK_SRC_PLL1 96000000 48000000 ;;
     AVR32CLK_StartGenericClock (io := uc3_io) 0 CLOCK_SRC_OSC0 12000000 12000000) (reset_hw []) =
      Done true h' (tj ++ ti).
Proof.
  assert (Hne : 0 <> 3) by lia.
  assert (Hsi : is_gclk_source CLOCK_SRC_OSC0) by (left; reflexivity).
  assert (Hsj : is_gclk_source CLOCK_SRC_PLL1) by (right; right; right; reflexivity).
  split; [exact Hne |]. split; [exact Hsi |]. split; [exact Hsj |].
  apply (StartGenericClock_channels_commute (io := uc3_io) 0 3 12000000 12000000 96000000 48000000
           CLOCK_SRC_OSC0 CLOCK_SRC_PLL1 (reset_hw [])
           {| pllsel := 0; oscsel := 0; diven := 0; div := 0; cen := 0 |}
           {| pllsel := 0; oscsel := 0; diven := 0; div := 0; cen := 0 |}
           Hne eq_refl eq_refl Hsi Hsj); lia.
Defined.

(** X10. Stopping a generic clock after a successful start leaves the
    channel with the selector bits and the divider field of the start (the
    assigned divider modulo two to the width of the field) and with the
    enable bit clear; the six writes are made in program order and nothing
    else changes. *)
Theorem StartGenericClock_then_Stop {io : avr32_io}
    (Channel Source SourceFreq Frequency : Z) (h : hw) (g : avr32_pm_gcctrl_t) :
  is_gclk_source Source ->
  elem (GCCTRL (AVR32_PM h)) Channel = Some g ->
  0 < Frequency -> Frequency <= SourceFreq ->
  exists h' : hw,
    (_ <- AVR32CLK_StartGenericClock Channel Source SourceFreq Frequency ;;
     AVR32CLK_StopGenericClock Channel) h =
      Done tt h'
        [Write (PM_GCCTRL_pllsel Channel) (gclk_pllsel Source);
         Write (PM_GCCTRL_oscsel Channel) (gclk_oscsel Source);
         Write (PM_GCCTRL_diven Channel) (if Frequency <? SourceFreq then C_true else C_false);
         Write (PM_GCCTRL_div Channel) (to_uint32 (SourceFreq / Frequency - 1) / 2);
         Write (PM_GCCTRL_cen Channel) C_true;
         Write (PM_GCCTRL_cen Channel) C_false] /\
    elem (GCCTRL (AVR32_PM h')) Channel =
      Some {| pllsel := gclk_pllsel Source; oscsel := gclk_oscsel Source;
              diven := (if Frequency <? SourceFreq then C_true else C_false);
              div := (to_uint32 (SourceFreq / Frequency - 1) / 2)
                       mod 2 ^ Z.pos (bitfield_size (PM_GCCTRL_div Channel));
              cen := C_false |} /\
    same_outside_GCCTRL Channel h h'.
Proof.
  intros Hsrc Hg Hpos Hle.
  rewrite (bind_Done _ _ _ _ _ _
             (StartGenericClock_run_started _ _ _ _ _ g Hsrc Hg Hpos Hle)).
  unfold AVR32CLK_StopGenericClock. rewrite void_function_run.
  erewrite assign_run;
    [| apply pure_val | eapply poke_GCCTRL_cen, elem_set_GCCTRL, Hg].
  rewrite set_GCCTRL_set_GCCTRL. flags.
  eexists. split; [reflexivity | split].
  - apply (elem_set_GCCTRL _ _ g Hg).
  - apply (same_outside_set_GCCTRL _ _ g Hg).
Qed.

Lemma StartGenericClock_then_Stop_witness :
  is_gclk_source CLOCK_SRC_PLL0 /\ 0 < 12000000 /\ 12000000 <= 48000000 /\
  exists h' : hw,
    (_ <- AVR32CLK_StartGenericClock (io := uc3_io) 5 CLOCK_SRC_PLL0 48000000 12000000 ;;
     AVR32CLK_StopGenericClock (io := uc3_io) 5) (reset_hw []) =
      Done tt h'
        [Write (PM_GCCTRL_pllsel 5) (gclk_pllsel CLOCK_SRC_PLL0);
         Write (PM_GCCTRL_oscsel 5) (gclk_oscsel CLOCK_SRC_PLL0);
         Write (PM_GCCTRL_diven 5) (if 12000000 <? 48000000 then C_true else C_false);
         Write (PM_GCCTRL_div 5) (to_uint32 (48000000 / 12000000 - 1) / 2);
         Write (PM_GCCTRL_cen 5) C_true;
         Write (PM_GCCTRL_cen 5) C_false] /\
    elem (GCCTRL (AVR32_PM h')) 5 =
      Some {| pllsel := gclk_pllsel CLOCK_SRC_PLL0; oscsel := gclk_oscsel CLOCK_SRC_PLL0;
              diven := (if 12000000 <? 48000000 then C_true else C_false);
              div := (to_uint32 (48000000 / 12000000 - 1) / 2)
                       mod 2 ^ Z.pos (bitfield_size (avr32_io := uc3_io) (PM_GCCTRL_div 5));
              cen := C_false |} /\
    same_outside_GCCTRL 5 (reset_hw []) h'.
Proof.
  assert (Hsrc : is_gclk_source CLOCK_SRC_PLL0) by (right; right; left; reflexivity).
  assert (Hpos : 0 < 12000000) by lia.
  assert (Hle : 12000000 <= 48000000) by lia.
  split; [exact Hsrc |]. split; [exact Hpos |]. split; [exact Hle |].
  exact (StartGenericClock_then_Stop (io := uc3_io) 5 CLOCK_SRC_PLL0 48000000 12000000 (reset_hw [])
           {| pllsel := 0; oscsel := 0; diven := 0; div := 0; cen := 0 |}
           Hsrc eq_refl Hpos Hle).
Defined.

(** X11. Neither the generic clock functions nor [AVR32CLK_StopPLL] check
    the channel index: with an index outside the array the first access is
    out of bounds, for [AVR32CLK_StartGenericClock] with a valid source at
    the selector bit, for the two stop functions at the enable bit. *)
Theorem channel_index_unchecked {io : avr32_io}
    (Channel Source SourceFreq Frequency : Z) (h : hw) :
  (is_gclk_source Source ->
   elem (GCCTRL (AVR32_PM h)) Channel = None ->
   AVR32CLK_StartGenericClock Channel Source SourceFreq Frequency h =
   Undefined (OutOfBounds (PM_GCCTRL_pllsel Channel))) /\
  (elem (GCCTRL (AVR32_PM h)) Channel = None ->
   AVR32CLK_StopGenericClock Channel h = Undefined (OutOfBounds (PM_GCCTRL_cen Channel))) /\
  (elem (PLL (AVR32_PM h)) Channel = None ->
   AVR32CLK_StopPLL Channel h = Undefined (OutOfBounds (PM_PLL_pllen Channel))).
Proof.
  split; [| split].
  - intros Hsrc Hn. unfold AVR32CLK_StartGenericClock. rewrite bool_function_run.
    destruct Hsrc as [-> | [-> | [-> | ->]]]; simpl switch; rewrite seq_assoc;
      (erewrite assign_seq_out_of_bounds;
         [reflexivity | apply pure_val | apply poke_GCCTRL_pllsel_outside, Hn]).
  - intros Hn. unfold AVR32CLK_StopGenericClock. rewrite void_function_run.
    erewrite assign_run_out_of_bounds;
      [reflexivity | apply pure_val | apply poke_GCCTRL_cen_outside, Hn].
  - intros Hn. unfold AVR32CLK_StopPLL. rewrite void_function_run.
    erewrite assign_run_out_of_bounds;
      [reflexivity | apply pure_val | apply poke_PLL_pllen_outside, Hn].
Qed.

Lemma channel_index_unchecked_witness :
  is_gclk_source CLOCK_SRC_OSC0 /\
  AVR32CLK_StartGenericClock (io := uc3_io) 6 CLOCK_SRC_OSC0 12000000 12000000 (reset_hw []) =
    Undefined (OutOfBounds (PM_GCCTRL_pllsel 6)) /\
  AVR32CLK_StopGenericClock (io := uc3_io) 6 (reset_hw []) = Undefined (OutOfBounds (PM_GCCTRL_cen 6)) /\
  AVR32CLK_StopPLL (io := uc3_io) 6 (reset_hw []) = Undefined (OutOfBounds (PM_PLL_pllen 6)).
Proof.
  assert (Hsrc : is_gclk_source CLOCK_SRC_OSC0) by (left; reflexivity).
  pose proof (channel_index_unchecked (io := uc3_io) 6 CLOCK_SRC_OSC0 12000000 12000000 (reset_hw []))
    as (H1 & H2 & H3).
  split; [exact Hsrc |]. split; [exact (H1 Hsrc eq_refl) |].
  split; [exact (H2 eq_refl) | exact (H3 eq_refl)].
Defined.

(** ** External oscillator controller *)

(** X12. For channel 0 or 1, [AVR32CLK_StartExternalOscillator] completes
    at the first read of the status register that shows the ready bit of the
    channel: startup, mode and the enable bit are written before the first
    read, one read is made for each earlier observation and for the one with
    the bit, and later observations are left unread. *)
Theorem StartExternalOscillator_waits_for_ready {io : avr32_io}
    (Channel Type_ Startup : Z) (h : hw) (before : list Z) (v : Z) (rest : list Z) :
  io_ok io ->
  Channel = 0 \/ Channel = 1 ->
  poscsr (AVR32_PM h) = before ++ v :: rest ->
  Forall (fun x => Z.testbit x (AVR32_PM_POSCSR_OSC0RDY_OFFSET + Channel) = false) before ->
  Z.testbit v (AVR32_PM_POSCSR_OSC0RDY_OFFSET + Channel) = true ->
  AVR32CLK_StartExternalOscillator Channel Type_ Startup h =
  Done tt
    (set_poscsr rest
       (with_PM
          (with_mcctrl
             (Z.lor (mcctrl (AVR32_PM h))
                (to_uint32 (Z.shiftl 1 (AVR32_PM_MCCTRL_OSC0EN_OFFSET + Channel))))
             (with_OSCCTRL Channel
                {| startup := field (PM_OSCCTRL_startup Channel) Startup;
                   mode := field (PM_OSCCTRL_mode Channel) Type_ |} (AVR32_PM h))) h))
    ([Write (PM_OSCCTRL_startup Channel) Startup;
      Write (PM_OSCCTRL_mode Channel) Type_;
      Write PM_mcctrl
        (Z.lor (mcctrl (AVR32_PM h))
           (to_uint32 (Z.shiftl 1 (AVR32_PM_MCCTRL_OSC0EN_OFFSET + Channel))))] ++
     map ReadPoscsr (before ++ [v])).
Proof.
  intros (Hen & Hrdy & _) Hch Hsamples Hbefore Hv. unfold bit_pair_ok in Hen, Hrdy.
  assert (Hen' : 0 <= AVR32_PM_MCCTRL_OSC0EN_OFFSET + Channel < 31) by lia.
  assert (Hrdy' : 0 <= AVR32_PM_POSCSR_OSC0RDY_OFFSET + Channel < 31) by lia.
  unfold AVR32CLK_StartExternalOscillator.
  rewrite void_function_run, StartExternalOscillator_body_run by assumption.
  rewrite Hsamples, poll_ready;
    [reflexivity | apply Forall_mask_clear; assumption | apply mask_set; assumption].
Qed.

Lemma StartExternalOscillator_waits_for_ready_witness :
  io_ok uc3_io /\
  Forall (fun x => Z.testbit x (AVR32_PM_POSCSR_OSC0RDY_OFFSET (avr32_io := uc3_io) + 1) = false)
    [0; 128] /\
  Z.testbit 256 (AVR32_PM_POSCSR_OSC0RDY_OFFSET (avr32_io := uc3_io) + 1) = true /\
  AVR32CLK_StartExternalOscillator (io := uc3_io) 1 EXOSC_MODE_3MHZ_MAX EXOSC_START_64CLK
    (reset_hw [0; 128; 256; 0]) =
  Done tt
    (set_poscsr [0]
       (with_PM
          (with_mcctrl
             (Z.lor (mcctrl (AVR32_PM (reset_hw [0; 128; 256; 0])))
                (to_uint32 (Z.shiftl 1 (AVR32_PM_MCCTRL_OSC0EN_OFFSET (avr32_io := uc3_io) + 1))))
             (with_OSCCTRL 1
                {| startup := field (io := uc3_io) (PM_OSCCTRL_startup 1) EXOSC_START_64CLK;
                   mode := field (io := uc3_io) (PM_OSCCTRL_mode 1) EXOSC_MODE_3MHZ_MAX |}
                (AVR32_PM (reset_hw [0; 128; 256; 0])))) (reset_hw [0; 128; 256; 0])))
    ([Write (PM_OSCCTRL_startup 1) EXOSC_START_64CLK;
      Write (PM_OSCCTRL_mode 1) EXOSC_MODE_3MHZ_MAX;
      Write PM_mcctrl
        (Z.lor (mcctrl (AVR32_PM (reset_hw [0; 128; 256; 0])))
           (to_uint32 (Z.shiftl 1 (AVR32_PM_MCCTRL_OSC0EN_OFFSET (avr32_io := uc3_io) + 1))))] ++
     map ReadPoscsr ([0; 128] ++ [256])).
Proof.
  assert (Hio : io_ok uc3_io) by (unfold io_ok, bit_pair_ok; simpl; lia).
  assert (Hb : Forall (fun x => Z.testbit x
                         (AVR32_PM_POSCSR_OSC0RDY_OFFSET (avr32_io := uc3_io) + 1) = false)
                 [0; 128]) by (repeat constructor).
  assert (Hv : Z.testbit 256 (AVR32_PM_POSCSR_OSC0RDY_OFFSET (avr32_io := uc3_io) + 1) = true)
    by reflexivity.
  split; [exact Hio |]. split; [exact Hb |]. split; [exact Hv |].
  exact (StartExternalOscillator_waits_for_ready (io := uc3_io) 1 EXOSC_MODE_3MHZ_MAX
           EXOSC_START_64CLK (reset_hw [0; 128; 256; 0]) [0; 128] 256 [0]
           Hio (or_intror eq_refl) eq_refl Hb Hv).
Defined.

(** X13. While no read of the status register shows the ready bit of the
    channel, [AVR32CLK_StartExternalOscillator] does not complete: the
    oscillator is configured and enabled, and every observation has been
    read. *)
Theorem StartExternalOscillator_never_ready {io : avr32_io}
    (Channel Type_ Startup : Z) (h : hw) :
  io_ok io ->
  Channel = 0 \/ Channel = 1 ->
  Forall (fun x => Z.testbit x (AVR32_PM_POSCSR_OSC0RDY_OFFSET + Channel) = false)
    (poscsr (AVR32_PM h)) ->
  AVR32CLK_StartExternalOscillator Channel Type_ Startup h =
  Spinning
    (set_poscsr []
       (with_PM
          (with_mcctrl
             (Z.lor (mcctrl (AVR32_PM h))
                (to_uint32 (Z.shiftl 1 (AVR32_PM_MCCTRL_OSC0EN_OFFSET + Channel))))
             (with_OSCCTRL Channel
                {| startup := field (PM_OSCCTRL_startup Channel) Startup;
                   mode := field (PM_OSCCTRL_mode Channel) Type_ |} (AVR32_PM h))) h))
    ([Write (PM_OSCCTRL_startup Channel) Startup;
      Write (PM_OSCCTRL_mode Channel) Type_;
      Write PM_mcctrl
        (Z.lor (mcctrl (AVR32_PM h))
           (to_uint32 (Z.shiftl 1 (AVR32_PM_MCCTRL_OSC0EN_OFFSET + Channel))))] ++
     map ReadPoscsr (poscsr (AVR32_PM h))).
Proof.
  intros (Hen & Hrdy & _) Hch Hall. unfold bit_pair_ok in Hen, Hrdy.
  assert (Hen' : 0 <= AVR32_PM_MCCTRL_OSC0EN_OFFSET + Channel < 31) by lia.
  assert (Hrdy' : 0 <= AVR32_PM_POSCSR_OSC0RDY_OFFSET + Channel < 31) by lia.
  unfold AVR32CLK_StartExternalOscillator.
  rewrite void_function_run, StartExternalOscillator_body_run by assumption.
  rewrite poll_never by (apply Forall_mask_clear; assumption). reflexivity.
Qed.

Lemma StartExternalOscillator_never_ready_witness :
  io_ok uc3_io /\
  Forall (fun x => Z.testbit x (AVR32_PM_POSCSR_OSC0RDY_OFFSET (avr32_io := uc3_io) + 0) = false)
    (poscsr (AVR32_PM (reset_hw [0; 256; 3]))) /\
  AVR32CLK_StartExternalOscillator (io := uc3_io) 0 EXOSC_MODE_CLOCK EXOSC_START_0CLK
    (reset_hw [0; 256; 3]) =
  Spinning
    (set_poscsr []
       (with_PM
          (with_mcctrl
             (Z.lor (mcctrl (AVR32_PM (reset_hw [0; 256; 3])))
                (to_uint32 (Z.shiftl 1 (AVR32_PM_MCCTRL_OSC0EN_OFFSET (avr32_io := uc3_io) + 0))))
             (with_OSCCTRL 0
                {| startup := field (io := uc3_io) (PM_OSCCTRL_startup 0) EXOSC_START_0CLK;
                   mode := field (io := uc3_io) (PM_OSCCTRL_mode 0) EXOSC_MODE_CLOCK |}
                (AVR32_PM (reset_hw [0; 256; 3])))) (reset_hw [0; 256; 3])))
    ([Write (PM_OSCCTRL_startup 0) EXOSC_START_0CLK;
      Write (PM_OSCCTRL_mode 0) EXOSC_MODE_CLOCK;
      Write PM_mcctrl
        (Z.lor (mcctrl (AVR32_PM (reset_hw [0; 256; 3])))
           (to_uint32 (Z.shiftl 1 (AVR32_PM_MCCTRL_OSC0EN_OFFSET (avr32_io := uc3_io) + 0))))] ++
     map ReadPoscsr (poscsr (AVR32_PM (reset_hw [0; 256; 3])))).
Proof.
  assert (Hio : io_ok uc3_io) by (unfold io_ok, bit_pair_ok; simpl; lia).
  assert (Hall : Forall (fun x => Z.testbit x
                           (AVR32_PM_POSCSR_OSC0RDY_OFFSET (avr32_io := uc3_io) + 0) = false)
                   (poscsr (AVR32_PM (reset_hw [0; 256; 3])))) by (repeat constructor).
  split; [exact Hio |]. split; [exact Hall |].
  exact (StartExternalOscillator_never_ready (io := uc3_io) 0 EXOSC_MODE_CLOCK
           EXOSC_START_0CLK (reset_hw [0; 256; 3]) Hio (or_introl eq_refl) Hall).
Defined.

(** Setting a bit that was clear and clearing it again gives the word back. *)
Lemma set_then_clear_bit (x n : Z) :
  0 <= n < 31 -> uint32 x -> Z.testbit x n = false ->
  Z.land (Z.lor x (to_uint32 (Z.shiftl 1 n))) (to_uint32 (Z.lnot (Z.shiftl 1 n))) = x.
Proof.
  intros Hn Hx Hbit. apply Z.bits_inj'. intros i Hi.
  destruct (Z.ltb_spec i 32) as [Hlo | Hhi].
  - rewrite testbit_clear_bit, testbit_set_bit by lia.
    destruct (Z.eqb_spec i n) as [-> | Hne].
    + rewrite Hbit. reflexivity.
    + rewrite orb_false_r. apply andb_true_r.
  - rewrite Z.land_spec. unfold to_uint32 at 2.
    rewrite Z.mod_pow2_bits_high by lia. rewrite andb_false_r.
    unfold uint32 in Hx. rewrite <- (Z.mod_small x (2 ^ 32)) by lia.
    rewrite Z.mod_pow2_bits_high by lia. reflexivity.
Qed.

(** X14. Starting an external oscillator and stopping it again: once the
    ready bit has been observed, the stop clears the enable bit the start
    had set and keeps all other bits of [mcctrl], while the control register
    of the channel keeps the startup and mode of the start (as its fields
    hold them, modulo two to their widths). If the enable bit was clear
    before, the 32-bit word [mcctrl] is as it was. *)
Theorem StartExternalOscillator_then_Stop {io : avr32_io}
    (Channel Type_ Startup : Z) (h : hw) :
  io_ok io ->
  Channel = 0 \/ Channel = 1 ->
  Exists (fun x => Z.testbit x (AVR32_PM_POSCSR_OSC0RDY_OFFSET + Channel) = true)
    (poscsr (AVR32_PM h)) ->
  exists (h' : hw) (t : list event),
    (_ <- AVR32CLK_StartExternalOscillator Channel Type_ Startup ;;
     AVR32CLK_StopExternalOscillator Channel) h = Done tt h' t /\
    Z.testbit (mcctrl (AVR32_PM h')) (AVR32_PM_MCCTRL_OSC0EN_OFFSET + Channel) = false /\
    (forall i, 0 <= i < 32 -> i <> AVR32_PM_MCCTRL_OSC0EN_OFFSET + Channel ->
       Z.testbit (mcctrl (AVR32_PM h')) i = Z.testbit (mcctrl (AVR32_PM h)) i) /\
    OSCCTRL Channel (AVR32_PM h') =
      {| startup := Startup mod 2 ^ Z.pos (bitfield_size (PM_OSCCTRL_startup Channel));
         mode := Type_ mod 2 ^ Z.pos (bitfield_size (PM_OSCCTRL_mode Channel)) |} /\
    (0 <= Startup < 2 ^ Z.pos (bitfield_size (PM_OSCCTRL_startup Channel)) ->
     0 <= Type_ < 2 ^ Z.pos (bitfield_size (PM_OSCCTRL_mode Channel)) ->
     OSCCTRL Channel (AVR32_PM h') = {| startup := Startup; mode := Type_ |}) /\
    (uint32 (mcctrl (AVR32_PM h)) ->
     Z.testbit (mcctrl (AVR32_PM h)) (AVR32_PM_MCCTRL_OSC0EN_OFFSET + Channel) = false ->
     mcctrl (AVR32_PM h') = mcctrl (AVR32_PM h)).
Proof.
  intros (Hen & Hrdy & _) Hch Hex. unfold bit_pair_ok in Hen, Hrdy.
  assert (Hen' : 0 <= AVR32_PM_MCCTRL_OSC0EN_OFFSET + Channel < 31) by lia.
  assert (Hrdy' : 0 <= AVR32_PM_POSCSR_OSC0RDY_OFFSET + Channel < 31) by lia.
  assert (Hex' : Exists (fun x => Z.land x
                   (to_uint32 (Z.shiftl 1 (AVR32_PM_POSCSR_OSC0RDY_OFFSET + Channel))) <> 0)
                   (poscsr (AVR32_PM h))).
  { eapply List.Exists_impl; [| exact Hex]. intros x Hx. apply mask_set; assumption. }
  destruct (poll_terminates _ _ Hex') as (t & rest & Hpoll).
  unfold AVR32CLK_StartExternalOscillator at 1.
  erewrite bind_Done.
  2:{ rewrite void_function_run, StartExternalOscillator_body_run by assumption.
      rewrite Hpoll. reflexivity. }
  rewrite StopExternalOscillator_run by assumption.
  eexists _, _. split; [reflexivity |].
  cbn [AVR32_PM with_PM set_poscsr with_poscsr mcctrl with_mcctrl].
  split; [| split; [| split; [| split]]].
  - rewrite testbit_clear_bit, Z.eqb_refl by lia. apply andb_false_r.
  - intros i Hi Hne. rewrite testbit_clear_bit, testbit_set_bit by assumption.
    apply Z.eqb_neq in Hne. rewrite Hne, orb_false_r. apply andb_true_r.
  - destruct Hch as [-> | ->]; reflexivity.
  - intros Hs Ht. destruct Hch as [-> | ->];
      cbn [OSCCTRL Z.eqb with_poscsr with_mcctrl with_OSCCTRL with_OSCCTRL0 with_OSCCTRL1
           OSCCTRL0 OSCCTRL1];
      rewrite (field_small _ _ Hs), (field_small _ _ Ht); reflexivity.
  - intros Hx Hbit. destruct Hch as [-> | ->]; apply set_then_clear_bit; assumption.
Qed.

Lemma StartExternalOscillator_then_Stop_witness :
  io_ok uc3_io /\
  Exists (fun x => Z.testbit x (AVR32_PM_POSCSR_OSC0RDY_OFFSET (avr32_io := uc3_io) + 0) = true)
    (poscsr (AVR32_PM (reset_hw [0; 128]))) /\
  exists (h' : hw) (t : list event),
    (_ <- AVR32CLK_StartExternalOscillator (io := uc3_io) 0 EXOSC_MODE_8MHZ_OR_MORE
            EXOSC_START_0CLK ;;
     AVR32CLK_StopExternalOscillator (io := uc3_io) 0) (reset_hw [0; 128]) = Done tt h' t /\
    Z.testbit (mcctrl (AVR32_PM h')) (AVR32_PM_MCCTRL_OSC0EN_OFFSET (avr32_io := uc3_io) + 0) = false /\
    (forall i, 0 <= i < 32 -> i <> AVR32_PM_MCCTRL_OSC0EN_OFFSET (avr32_io := uc3_io) + 0 ->
       Z.testbit (mcctrl (AVR32_PM h')) i =
       Z.testbit (mcctrl (AVR32_PM (reset_hw [0; 128]))) i) /\
    OSCCTRL 0 (AVR32_PM h') =
      {| startup := EXOSC_START_0CLK
                      mod 2 ^ Z.pos (bitfield_size (avr32_io := uc3_io) (PM_OSCCTRL_startup 0));
         mode := EXOSC_MODE_8MHZ_OR_MORE
                   mod 2 ^ Z.pos (bitfield_size (avr32_io := uc3_io) (PM_OSCCTRL_mode 0)) |} /\
    (0 <= EXOSC_START_0CLK
       < 2 ^ Z.pos (bitfield_size (avr32_io := uc3_io) (PM_OSCCTRL_startup 0)) ->
     0 <= EXOSC_MODE_8MHZ_OR_MORE
       < 2 ^ Z.pos (bitfield_size (avr32_io := uc3_io) (PM_OSCCTRL_mode 0)) ->
     OSCCTRL 0 (AVR32_PM h') =
       {| startup := EXOSC_START_0CLK; mode := EXOSC_MODE_8MHZ_OR_MORE |}) /\
    (uint32 (mcctrl (AVR32_PM (reset_hw [0; 128]))) ->
     Z.testbit (mcctrl (AVR32_PM (reset_hw [0; 128])))
       (AVR32_PM_MCCTRL_OSC0EN_OFFSET (avr32_io := uc3_io) + 0) = false ->
     mcctrl (AVR32_PM h') = mcctrl (AVR32_PM (reset_hw [0; 128]))).
Proof.
  assert (Hio : io_ok uc3_io) by (unfold io_ok, bit_pair_ok; simpl; lia).
  assert (Hex : Exists (fun x => Z.testbit x
                          (AVR32_PM_POSCSR_OSC0RDY_OFFSET (avr32_io := uc3_io) + 0) = true)
                  (poscsr (AVR32_PM (reset_hw [0; 128]))))
    by (apply Exists_cons_tl, Exists_cons_hd; reflexivity).
  split; [exact Hio |]. split; [exact Hex |].
  exact (StartExternalOscillator_then_Stop (io := uc3_io) 0 EXOSC_MODE_8MHZ_OR_MORE
           EXOSC_START_0CLK (reset_hw [0; 128]) Hio (or_introl eq_refl) Hex).
Defined.

(** X15. Stopping an external oscillator twice is the same as stopping it
    once: the second call writes to [mcctrl] the word the first one wrote
    and leaves the state as the first one left it. *)
Theorem StopExternalOscillator_idempotent {io : avr32_io} (Channel : Z) (h : hw) :
  0 <= AVR32_PM_MCCTRL_OSC0EN_OFFSET + Channel < 31 ->
  exists (h' : hw) (w : Z),
    AVR32CLK_StopExternalOscillator Channel h = Done tt h' [Write PM_mcctrl w] /\
    AVR32CLK_StopExternalOscillator Channel h' = Done tt h' [Write PM_mcctrl w].
Proof.
  intros Hen. rewrite StopExternalOscillator_run by assumption.
  eexists _, _. split; [reflexivity |].
  rewrite StopExternalOscillator_run by assumption.
  cbn [AVR32_PM with_PM mcctrl with_mcctrl].
  rewrite <- Z.land_assoc, Z.land_diag. reflexivity.
Qed.

Lemma StopExternalOscillator_idempotent_witness :
  0 <= AVR32_PM_MCCTRL_OSC0EN_OFFSET (avr32_io := uc3_io) + 0 < 31 /\
  exists (h' : hw) (w : Z),
    AVR32CLK_StopExternalOscillator (io := uc3_io) 0 (mcctrl_hw 15) =
      Done tt h' [Write PM_mcctrl w] /\
    AVR32CLK_StopExternalOscillator (io := uc3_io) 0 h' = Done tt h' [Write PM_mcctrl w].
Proof.
  assert (Hen : 0 <= AVR32_PM_MCCTRL_OSC0EN_OFFSET (avr32_io := uc3_io) + 0 < 31)
    by (simpl; lia).
  split; [exact Hen |].
  exact (StopExternalOscillator_idempotent (io := uc3_io) 0 (mcctrl_hw 15) Hen).
Defined.

(** X16. [AVR32CLK_StopExternalOscillator] shifts by
    [AVR32_PM_MCCTRL_OSC0EN_OFFSET + Channel] without looking at [Channel]:
    for a channel index that takes the shift count to 31 or more, the shift
    of the [int] 1 is undefined, and nothing has been written. *)
Theorem StopExternalOscillator_shift_unchecked {io : avr32_io} (Channel : Z) (h : hw) :
  ~ (0 <= AVR32_PM_MCCTRL_OSC0EN_OFFSET + Channel < 31) ->
  AVR32CLK_StopExternalOscillator Channel h =
  Undefined (ShiftOutOfRange (AVR32_PM_MCCTRL_OSC0EN_OFFSET + Channel)).
Proof.
  intros Hen. unfold AVR32CLK_StopExternalOscillator, void_function, mcctrl_and_assign, assign.
  do 2 apply bind_undefined.
  unfold bind at 1, get_mcctrl. rewrite after_nil.
  apply bind_undefined. unfold bnot. apply bind_undefined.
  apply shl_1_undefined, Hen.
Qed.

Lemma StopExternalOscillator_shift_unchecked_witness :
  ~ (0 <= AVR32_PM_MCCTRL_OSC0EN_OFFSET (avr32_io := uc3_io) + 255 < 31) /\
  AVR32CLK_StopExternalOscillator (io := uc3_io) 255 (mcctrl_hw 12) =
  Undefined (ShiftOutOfRange (AVR32_PM_MCCTRL_OSC0EN_OFFSET (avr32_io := uc3_io) + 255)).
Proof.
  assert (Hen : ~ (0 <= AVR32_PM_MCCTRL_OSC0EN_OFFSET (avr32_io := uc3_io) + 255 < 31))
    by (simpl; lia).
  split; [exact Hen |].
  exact (StopExternalOscillator_shift_unchecked (io := uc3_io) 255 (mcctrl_hw 12) Hen).
Defined.

(** ** CPU clock source switch *)

(** X17. For the slow clock, oscillator 0 and PLL 0,
    [AVR32CLK_SetCPUClockSource] returns [true] after two writes, the
    wait-state bit first and then the selector [MCCTRL.mcsel], which is
    assigned 0, 1 or 2 in that order of sources and reads back that value
    modulo two to its width. The bits of the word [mcctrl] outside the
    selector field and the other registers of the power manager keep their
    values. *)
Theorem SetCPUClockSource_selects {io : avr32_io} (Source SourceFreq c : Z) (h : hw) :
  (Source = CLOCK_SRC_SLOW_CLK /\ c = 0) \/
  (Source = CLOCK_SRC_OSC0 /\ c = 1) \/
  (Source = CLOCK_SRC_PLL0 /\ c = 2) ->
  0 <= AVR32_PM_MCCTRL_MCSEL_OFFSET ->
  exists h' : hw,
    AVR32CLK_SetCPUClockSource Source SourceFreq h =
      Done true h'
        [Write FLASHC_FCR_fws (if 30000000 <? SourceFreq then C_true else C_false);
         Write PM_MCCTRL_mcsel c] /\
    mcsel (MCCTRL (AVR32_PM h')) = c mod 2 ^ Z.pos (bitfield_size PM_MCCTRL_mcsel) /\
    (c < 2 ^ Z.pos (bitfield_size PM_MCCTRL_mcsel) -> mcsel (MCCTRL (AVR32_PM h')) = c) /\
    fws (FCR (AVR32_FLASHC h')) = (if 30000000 <? SourceFreq then C_true else C_false) /\
    (forall i,
       ~ (AVR32_PM_MCCTRL_MCSEL_OFFSET <= i
          < AVR32_PM_MCCTRL_MCSEL_OFFSET + Z.pos (bitfield_size PM_MCCTRL_mcsel)) ->
       Z.testbit (mcctrl (AVR32_PM h')) i = Z.testbit (mcctrl (AVR32_PM h)) i) /\
    OSCCTRL0 (AVR32_PM h') = OSCCTRL0 (AVR32_PM h) /\
    OSCCTRL1 (AVR32_PM h') = OSCCTRL1 (AVR32_PM h) /\
    PLL (AVR32_PM h') = PLL (AVR32_PM h) /\
    GCCTRL (AVR32_PM h') = GCCTRL (AVR32_PM h) /\
    poscsr (AVR32_PM h') = poscsr (AVR32_PM h).
Proof.
  intros Hsrc Hoff.
  assert (Hc : 0 <= c) by (destruct Hsrc as [[_ ->] | [[_ ->] | [_ ->]]]; lia).
  assert (Hrun : AVR32CLK_SetCPUClockSource Source SourceFreq h =
                 Done true
                   (with_PM (with_MCCTRL {| mcsel := c |} (AVR32_PM h))
                      (with_fws (if 30000000 <? SourceFreq then C_true else C_false) h))
                   [Write FLASHC_FCR_fws (if 30000000 <? SourceFreq then C_true else C_false);
                    Write PM_MCCTRL_mcsel c]).
  { rewrite SetCPUClockSource_run.
    destruct Hsrc as [[-> ->] | [[-> ->] | [-> ->]]]; reflexivity. }
  rewrite Hrun. eexists. split; [reflexivity |].
  assert (Hread : mcsel (MCCTRL (with_MCCTRL {| mcsel := c |} (AVR32_PM h))) =
                  c mod 2 ^ Z.pos (bitfield_size PM_MCCTRL_mcsel)).
  { unfold MCCTRL, with_MCCTRL. cbn [mcsel mcctrl with_mcctrl].
    apply extract_deposit_bits; lia. }
  split; [exact Hread |].
  split; [intros Hfit; cbn [AVR32_PM with_PM]; rewrite Hread; apply Z.mod_small; lia |].
  split; [reflexivity |].
  split; [| repeat split; reflexivity].
  intros i Hi. cbn [AVR32_PM with_PM with_fws]. unfold with_MCCTRL.
  cbn [mcctrl with_mcctrl mcsel].
  destruct (Z.neg_nonneg_cases i) as [Hneg | Hnn].
  - rewrite !Z.testbit_neg_r by assumption. reflexivity.
  - rewrite testbit_deposit_bits by lia.
    destruct (Z.leb_spec AVR32_PM_MCCTRL_MCSEL_OFFSET i),
      (Z.ltb_spec i (AVR32_PM_MCCTRL_MCSEL_OFFSET + Z.pos (bitfield_size PM_MCCTRL_mcsel)));
      try reflexivity. lia.
Qed.

Lemma SetCPUClockSource_selects_witness :
  ((CLOCK_SRC_PLL0 = CLOCK_SRC_SLOW_CLK /\ 2 = 0) \/
   (CLOCK_SRC_PLL0 = CLOCK_SRC_OSC0 /\ 2 = 1) \/
   (CLOCK_SRC_PLL0 = CLOCK_SRC_PLL0 /\ 2 = 2)) /\
  0 <= AVR32_PM_MCCTRL_MCSEL_OFFSET (avr32_io := uc3_io) /\
  exists h' : hw,
    AVR32CLK_SetCPUClockSource (io := uc3_io) CLOCK_SRC_PLL0 48000000 (mcctrl_hw 13) =
      Done true h'
        [Write FLASHC_FCR_fws (if 30000000 <? 48000000 then C_true else C_false);
         Write PM_MCCTRL_mcsel 2] /\
    mcsel (MCCTRL (io := uc3_io) (AVR32_PM h')) =
      2 mod 2 ^ Z.pos (bitfield_size (avr32_io := uc3_io) PM_MCCTRL_mcsel) /\
    (2 < 2 ^ Z.pos (bitfield_size (avr32_io := uc3_io) PM_MCCTRL_mcsel) ->
     mcsel (MCCTRL (io := uc3_io) (AVR32_PM h')) = 2) /\
    fws (FCR (AVR32_FLASHC h')) = (if 30000000 <? 48000000 then C_true else C_false) /\
    (forall i,
       ~ (AVR32_PM_MCCTRL_MCSEL_OFFSET (avr32_io := uc3_io) <= i
          < AVR32_PM_MCCTRL_MCSEL_OFFSET (avr32_io := uc3_io)
            + Z.pos (bitfield_size (avr32_io := uc3_io) PM_MCCTRL_mcsel)) ->
       Z.testbit (mcctrl (AVR32_PM h')) i = Z.testbit (mcctrl (AVR32_PM (mcctrl_hw 13))) i) /\
    OSCCTRL0 (AVR32_PM h') = OSCCTRL0 (AVR32_PM (mcctrl_hw 13)) /\
    OSCCTRL1 (AVR32_PM h') = OSCCTRL1 (AVR32_PM (mcctrl_hw 13)) /\
    PLL (AVR32_PM h') = PLL (AVR32_PM (mcctrl_hw 13)) /\
    GCCTRL (AVR32_PM h') = GCCTRL (AVR32_PM (mcctrl_hw 13)) /\
    poscsr (AVR32_PM h') = poscsr (AVR32_PM (mcctrl_hw 13)).
Proof.
  assert (Hsrc : (CLOCK_SRC_PLL0 = CLOCK_SRC_SLOW_CLK /\ 2 = 0) \/
                 (CLOCK_SRC_PLL0 = CLOCK_SRC_OSC0 /\ 2 = 1) \/
                 (CLOCK_SRC_PLL0 = CLOCK_SRC_PLL0 /\ 2 = 2))
    by (right; right; split; reflexivity).
  assert (Hoff : 0 <= AVR32_PM_MCCTRL_MCSEL_OFFSET (avr32_io := uc3_io)) by (simpl; lia).
  split; [exact Hsrc |]. split; [exact Hoff |].
  exact (SetCPUClockSource_selects (io := uc3_io) CLOCK_SRC_PLL0 48000000 2 (mcctrl_hw 13)
           Hsrc Hoff).
Defined.

(** The word [mcctrl] seen through both views: switching the CPU to
    oscillator 0 and then starting oscillator 0 leaves the selector 1 and
    the enable bit of oscillator 0 in the one word, 5. *)
Example mcctrl_word_and_view :
  (_ <- AVR32CLK_SetCPUClockSource (io := uc3_io) CLOCK_SRC_OSC0 12000000 ;;
   AVR32CLK_StartExternalOscillator (io := uc3_io) 0 EXOSC_MODE_8MHZ_OR_MORE
     EXOSC_START_0CLK)%clk (reset_hw [128]) =
  Done tt
    (with_PM
       (with_mcctrl 5
          (with_OSCCTRL0 {| startup := 0; mode := 4 |} (AVR32_PM (reset_hw [])))) (reset_hw []))
    [Write FLASHC_FCR_fws 0; Write PM_MCCTRL_mcsel 1;
     Write PM_OSCCTRL0_startup 0; Write PM_OSCCTRL0_mode 4; Write PM_mcctrl 5;
     ReadPoscsr 128].
Proof. vm_compute. reflexivity. Qed.

(** A multiplier and a divider that do not fit their fields: from 1 MHz to
    48 MHz the value assigned to [pllmul] is 23 and the 4-bit field holds 7;
    from 4294967295 Hz to 1 Hz the value assigned to [div] is 2147483647 and
    the 8-bit field holds 255. *)
Example StartPLL_multiplier_wraps :
  AVR32CLK_StartPLL (io := uc3_io) 0 CLOCK_SRC_OSC0 1000000 48000000 (reset_hw [1]) =
  Done true
    (set_poscsr []
       (set_PLL 0 {| pllosc := 0; pllmul := 7; plldiv := 0; pllen := 1 |} (reset_hw [])))
    [Write (PM_PLL_pllosc 0) 0; Write (PM_PLL_pllmul 0) 23;
     Write (PM_PLL_plldiv 0) 0; Write (PM_PLL_pllen 0) 1; ReadPoscsr 1].
Proof. vm_compute. reflexivity. Qed.

Example StartGenericClock_divider_wraps :
  AVR32CLK_StartGenericClock (io := uc3_io) 0 CLOCK_SRC_OSC0 4294967295 1 (reset_hw []) =
  Done true
    (set_GCCTRL 0 {| pllsel := 0; oscsel := 0; diven := 1; div := 255; cen := 1 |}
       (reset_hw []))
    [Write (PM_GCCTRL_pllsel 0) 0; Write (PM_GCCTRL_oscsel 0) 0;
     Write (PM_GCCTRL_diven 0) 1; Write (PM_GCCTRL_div 0) 2147483647;
     Write (PM_GCCTRL_cen 0) 1].
Proof. vm_compute. reflexivity. Qed.
